(** * bubbleemotion-search: search retrieval, result cache and emotion scoring

    A shallow embedding of the Python sources
    ([search_engine.py], [simple_ddg_scraper.py], [ddg_scraper.py],
    [flask_app.py], [index.py], [api_server.py], [emotion_classifier.py]),
    the properties the specification states about them and further
    properties of the code.

    Conventions of the embedding.
    - A Python [str] is a [string]: the bytes of its UTF-8 encoding.  The
      operations [in], [startswith], [count], [+] and [==] are exact on every
      text; [strip] and [split] know the whitespace of Unicode by the bytes
      of its encoding; [lower] lowers the characters of ASCII and the two
      characters outside ASCII whose lower case holds one, which makes the
      search for a text of ASCII in a lowered text exact; [len] counts
      code points.  String literals are the bytes of the source file, the
      emoji tables included.
    - Python floats are rationals ([Q]); [max] and [min] keep Python's
      choice of argument.
    - What a library hands back (the HTTP response, what a BeautifulSoup or
      Playwright query finds, the matches of a regular expression, the
      clock, the DistilBERT prediction) is an input of the model: an
      observation record or a function the definitions take as argument.
    - An exception is a value: fallible code returns an [outcome], and
      [try_except] is the handler.  [max_results] is a Python integer
      ([Z]), and a slice with a negative bound counts from the end. *)

From Stdlib Require Import String Ascii List ZArith NArith QArith Qabs Bool Lia Lqa.
From stdpp Require Import gmap strings.
Import ListNotations.

Open Scope string_scope.
Open Scope bool_scope.

(** ** Python values shared by all modules *)

Inductive Exception : Type :=
| NameError (name : string)
| AttributeError (msg : string)
| KeyError (key : string)
| ValueError (msg : string)
| ImportError (msg : string)
| RequestException
| OSError
| PlaywrightError.

(** [str(e)], as the handlers print and return it; for the errors of
    [requests], the file system and Playwright a fixed text stands in. *)
Definition exc_str (e : Exception) : string :=
  match e with
  | NameError n => "name '" +:+ n +:+ "' is not defined"
  | AttributeError m => m
  | KeyError k => "'" +:+ k +:+ "'"
  | ValueError m => m
  | ImportError m => m
  | RequestException => "request failed"
  | OSError => "os error"
  | PlaywrightError => "playwright error"
  end.

Inductive outcome (A : Type) : Type :=
| Return (a : A)
| Raise (e : Exception).
Arguments Return {A} a.
Arguments Raise {A} e.

#[global] Instance outcome_ret : MRet outcome := fun A a => Return a.
#[global] Instance outcome_bind : MBind outcome := fun A B k m =>
  match m with
  | Return a => k a
  | Raise e => Raise e
  end.

(** [try: body  except Exception as e: handler(e)] *)
Definition try_except {A} (body : outcome A) (handler : Exception -> outcome A)
  : outcome A :=
  match body with
  | Return a => Return a
  | Raise e => handler e
  end.

(** The dictionaries the scrapers emit: [{'title', 'url', 'snippet'}].
    [snippet] is [None] in [flask_app.py] when no snippet element exists. *)
Record SearchResult : Type := mkResult {
  title : string;
  url : string;
  snippet : option string
}.

(** ** Python string operations *)

Module PyStr.

Definition code (c : ascii) : N := N_of_ascii c.

(** [c.isspace()] for a character of ASCII: TAB..CR, FS..US and the
    space. *)
Definition isspace (c : ascii) : bool :=
  ((9 <=? code c) && (code c <=? 13))%N || ((28 <=? code c) && (code c <=? 32))%N.

(** The whitespace characters outside ASCII, by the bytes of their UTF-8
    encoding: U+0085 and U+00A0 (C2 85, C2 A0); U+1680 (E1 9A 80);
    U+2000..U+200A, U+2028, U+2029 and U+202F (E2 80 80..8A, A8, A9, AF);
    U+205F (E2 81 9F); U+3000 (E3 80 80).  With those of [isspace] they are
    the characters for which [str.isspace] holds. *)
Definition isspace2 (a b : ascii) : bool :=
  ((code a =? 194) && ((code b =? 133) || (code b =? 160)))%N.

Definition isspace3 (a b c : ascii) : bool :=
  ((code a =? 225) && (code b =? 154) && (code c =? 128))%N ||
  ((code a =? 226) && (code b =? 128) &&
   (((128 <=? code c) && (code c <=? 138)) ||
    (code c =? 168) || (code c =? 169) || (code c =? 175)))%N ||
  ((code a =? 226) && (code b =? 129) && (code c =? 159))%N ||
  ((code a =? 227) && (code b =? 128) && (code c =? 128))%N.

(** [s.lstrip()]: whitespace characters are dropped from the left, one
    character of one, two or three bytes at a time. *)
Fixpoint lstrip (s : string) : string :=
  match s with
  | EmptyString => EmptyString
  | String a r =>
      if isspace a then lstrip r
      else match r with
           | String b r2 =>
               if isspace2 a b then lstrip r2
               else match r2 with
                    | String c r3 => if isspace3 a b c then lstrip r3 else s
                    | EmptyString => s
                    end
           | EmptyString => s
           end
  end.

(** The text holds whitespace only. *)
Definition blank (s : string) : bool :=
  match lstrip s with
  | EmptyString => true
  | _ => false
  end.

(** [s.rstrip()]: the text up to its longest suffix of whitespace. *)
Fixpoint rstrip (s : string) : string :=
  match s with
  | EmptyString => EmptyString
  | String c s' => if blank s then EmptyString else String c (rstrip s')
  end.

(** [s.strip()] *)
Definition strip (s : string) : string := rstrip (lstrip s).

(** [s.lstrip(chars)], [s.rstrip(chars)] and [s.strip(chars)] for [chars]
    the whitespace of ASCII: the properties use them to say that a text
    has no such character at either end. *)
Fixpoint lstrip_ascii (s : string) : string :=
  match s with
  | EmptyString => EmptyString
  | String c s' => if isspace c then lstrip_ascii s' else s
  end.

Fixpoint rstrip_ascii (s : string) : string :=
  match s with
  | EmptyString => EmptyString
  | String c s' =>
      match rstrip_ascii s' with
      | EmptyString => if isspace c then EmptyString else String c EmptyString
      | r => String c r
      end
  end.

Definition strip_ascii (s : string) : string := rstrip_ascii (lstrip_ascii s).

(** [c.lower()] for a character of ASCII. *)
Definition lower_char (c : ascii) : ascii :=
  if ((65 <=? code c) && (code c <=? 90))%N then ascii_of_N (code c + 32) else c.

(** [s.lower()], as far as the characters of ASCII go.  A character of
    ASCII is lowered.  Two characters outside ASCII have a lower case that
    holds a character of ASCII, and they are lowered as Python lowers
    them: U+0130 (C4 B0) becomes [i] followed by U+0307 (CC 87), and
    U+212A, the Kelvin sign (E2 84 AA), becomes [k].  Any other character
    outside ASCII is kept as it is; Python replaces it by characters
    outside ASCII.  So for a text [p] of ASCII, [p in s.lower()] is
    [str_in p (lower s)]. *)
Fixpoint lower (s : string) : string :=
  match s with
  | EmptyString => EmptyString
  | String a r =>
      match r with
      | String b r2 =>
          if ((code a =? 196) && (code b =? 176))%N
          then String "i" (String (ascii_of_N 204) (String (ascii_of_N 135) (lower r2)))
          else match r2 with
               | String c r3 =>
                   if ((code a =? 226) && (code b =? 132) && (code c =? 170))%N
                   then String "k" (lower r3)
                   else String (lower_char a) (lower r)
               | EmptyString => String (lower_char a) (lower r)
               end
      | EmptyString => String (lower_char a) EmptyString
      end
  end.

(** [s.isascii()] *)
Fixpoint isascii (s : string) : bool :=
  match s with
  | EmptyString => true
  | String c r => (code c <? 128)%N && isascii r
  end.

Definition isupper (c : ascii) : bool := ((65 <=? code c) && (code c <=? 90))%N.

(** Some character of [s] is an upper-case letter. *)
Fixpoint has_upper (s : string) : bool :=
  match s with
  | EmptyString => false
  | String c r => isupper c || has_upper r
  end.

(** [s.startswith(p)] *)
Definition startswith (s p : string) : bool := String.prefix p s.

(** [needle in hay] *)
Fixpoint str_in (needle hay : string) : bool :=
  String.prefix needle hay ||
  match hay with
  | EmptyString => false
  | String _ h => str_in needle h
  end.

(** [s.endswith(p)] *)
Fixpoint endswith (s p : string) : bool :=
  String.eqb s p ||
  match s with
  | EmptyString => false
  | String _ s' => endswith s' p
  end.

(** [len(s)]: code points, that is the bytes that are not UTF-8
    continuation bytes. *)
Fixpoint len (s : string) : nat :=
  match s with
  | EmptyString => 0
  | String c s' =>
      if ((128 <=? code c) && (code c <? 192))%N then len s' else S (len s')
  end.

(** A character in front of the first piece. *)
Definition push (c : ascii) (l : list string) : list string :=
  match l with
  | w :: ws => String c w :: ws
  | [] => [String c EmptyString]
  end.

(** Pieces between single whitespace characters; [split] drops the empty
    ones, which is [s.split()]. *)
Fixpoint pieces (s : string) : list string :=
  match s with
  | EmptyString => [EmptyString]
  | String a r =>
      if isspace a then EmptyString :: pieces r
      else match r with
           | String b r2 =>
               if isspace2 a b then EmptyString :: pieces r2
               else match r2 with
                    | String c r3 =>
                        if isspace3 a b c then EmptyString :: pieces r3
                        else push a (pieces r)
                    | EmptyString => push a (pieces r)
                    end
           | EmptyString => push a (pieces r)
           end
  end.

Definition nonempty (s : string) : bool :=
  match s with EmptyString => false | _ => true end.

(** No character of [s] is whitespace of ASCII. *)
Fixpoint no_space (s : string) : bool :=
  match s with
  | EmptyString => true
  | String c r => negb (isspace c) && no_space r
  end.

Definition split (s : string) : list string := List.filter nonempty (pieces s).

(** [sep.join(l)] *)
Fixpoint join (sep : string) (l : list string) : string :=
  match l with
  | [] => EmptyString
  | [w] => w
  | w :: ws => w +:+ sep +:+ join sep ws
  end.

(** [s.split(marker)[0]] for a non-empty [marker]. *)
Fixpoint before (marker s : string) : string :=
  if String.prefix marker s then EmptyString
  else match s with
       | EmptyString => EmptyString
       | String c s' => String c (before marker s')
       end.

(** [s.split(marker, 1)[1]]: what follows the first [marker]; empty when
    there is none. *)
Fixpoint after (marker s : string) : string :=
  if String.prefix marker s
  then String.substring (String.length marker) (String.length s) s
  else match s with
       | EmptyString => EmptyString
       | String _ s' => after marker s'
       end.

(** [s.split(marker, 1)[1]] when [marker], one character, occurs. *)
Fixpoint after_char (m : ascii) (s : string) : option string :=
  match s with
  | EmptyString => None
  | String c s' => if Ascii.eqb c m then Some s' else after_char m s'
  end.

Fixpoint before_char (m : ascii) (s : string) : string :=
  match s with
  | EmptyString => EmptyString
  | String c s' => if Ascii.eqb c m then EmptyString else String c (before_char m s')
  end.

(** [s.split(m)] for a one-character separator. *)
Fixpoint split_char (m : ascii) (s : string) : list string :=
  match s with
  | EmptyString => [EmptyString]
  | String c s' =>
      if Ascii.eqb c m then EmptyString :: split_char m s'
      else match split_char m s' with
           | w :: ws => String c w :: ws
           | [] => [String c EmptyString]
           end
  end.

(** [s.replace(a, b)] for single characters. *)
Fixpoint replace_char (a b : ascii) (s : string) : string :=
  match s with
  | EmptyString => EmptyString
  | String c s' => String (if Ascii.eqb c a then b else c) (replace_char a b s')
  end.

(** [s.replace(a, "")] *)
Fixpoint remove_char (a : ascii) (s : string) : string :=
  match s with
  | EmptyString => EmptyString
  | String c s' => if Ascii.eqb c a then remove_char a s' else String c (remove_char a s')
  end.

(** [s.count(sub)] for a non-empty [sub]: occurrences that do not overlap,
    from the left.  [skip] characters belong to the occurrence just
    counted. *)
Fixpoint count_from (sub s : string) (skip : nat) : nat :=
  match s with
  | EmptyString => 0
  | String _ s' =>
      match skip with
      | S k => count_from sub s' k
      | O => if String.prefix sub s
             then S (count_from sub s' (String.length sub - 1))
             else count_from sub s' 0
      end
  end.

Definition count (s sub : string) : nat := count_from sub s 0.

(** [any(w in s for w in ws)] *)
Definition any_in (ws : list string) (s : string) : bool :=
  existsb (fun w => str_in w s) ws.

End PyStr.

(** ** [urllib.parse] *)

Module Urllib.
Import PyStr.

Definition hexval (c : ascii) : option N :=
  let n := code c in
  if ((48 <=? n) && (n <=? 57))%N then Some (n - 48)%N
  else if ((65 <=? n) && (n <=? 70))%N then Some (n - 55)%N
  else if ((97 <=? n) && (n <=? 102))%N then Some (n - 87)%N
  else None.

(** [unquote]: every [%XY] with two hexadecimal digits becomes the byte
    [0xXY]; any other [%] stays.  The bytes are the text before Python's
    [decode('utf-8', 'replace')], which leaves them as they are when they
    are well-formed UTF-8 (all of ASCII is). *)
Fixpoint unquote (s : string) : string :=
  match s with
  | EmptyString => EmptyString
  | String c r =>
      if Ascii.eqb c "%" then
        match r with
        | String a (String b r') =>
            match hexval a, hexval b with
            | Some x, Some y => String (ascii_of_N (16 * x + y)) (unquote r')
            | _, _ => String c (unquote r)
            end
        | _ => String c (unquote r)
        end
      else String c (unquote r)
  end.

Definition scheme_char (c : ascii) : bool :=
  let n := code c in
  ((48 <=? n) && (n <=? 57))%N || ((65 <=? n) && (n <=? 90))%N ||
  ((97 <=? n) && (n <=? 122))%N ||
  Ascii.eqb c "+" || Ascii.eqb c "-" || Ascii.eqb c ".".

Definition isalpha (c : ascii) : bool :=
  let n := code c in
  ((65 <=? n) && (n <=? 90))%N || ((97 <=? n) && (n <=? 122))%N.

Fixpoint all_chars (p : ascii -> bool) (s : string) : bool :=
  match s with
  | EmptyString => true
  | String c r => p c && all_chars p r
  end.

(** The reference after its scheme: [url[i+1:]] when the text before the
    first [:] starts with a letter and is made of scheme characters. *)
Definition after_scheme (u : string) : string :=
  match u, after_char ":" u with
  | String c _, Some rest =>
      if isalpha c && all_chars scheme_char (before_char ":" u) then rest else u
  | _, _ => u
  end.

(** The network location: what follows [//] up to the first of [/?#]. *)
Fixpoint netloc_of (s : string) : string :=
  match s with
  | EmptyString => EmptyString
  | String c r =>
      if Ascii.eqb c "/" || Ascii.eqb c "?" || Ascii.eqb c "#" then EmptyString
      else String c (netloc_of r)
  end.

(** [urlparse(u).query].  Tabs and line breaks are removed; a network
    location with one square bracket and not the other raises
    [ValueError]; the fragment starts at the first [#], the query at the
    first [?] before it (scheme and network location hold neither). *)
Definition urlparse_query (u : string) : outcome string :=
  let u := remove_char "009" (remove_char "013" (remove_char "010" u)) in
  let query := match after_char "?" (before_char "#" u) with
               | Some q => q
               | None => EmptyString
               end in
  match after_scheme u with
  | String "/" (String "/" r) =>
      if xorb (str_in "[" (netloc_of r)) (str_in "]" (netloc_of r))
      then Raise (ValueError "Invalid IPv6 URL")
      else Return query
  | _ => Return query
  end.

(** One [name=value] field of [parse_qsl]: fields without [=] and blank
    values are dropped ([keep_blank_values=False]); [+] is a space. *)
Definition parse_field (nv : string) : option (string * string) :=
  match after_char "=" nv with
  | Some v =>
      if nonempty v
      then Some (unquote (replace_char "+" " " (before_char "=" nv)),
                 unquote (replace_char "+" " " v))
      else None
  | None => None
  end.

Definition parse_qsl (qs : string) : list (string * string) :=
  List.flat_map (fun nv => match parse_field nv with
                           | Some p => [p]
                           | None => []
                           end) (split_char "&" qs).

(** [parse_qs(qs).get(name)]: the values of [name], in order; [None] when
    the key is absent. *)
Definition parse_qs_get (qs name : string) : option (list string) :=
  match List.map snd (List.filter (fun p => String.eqb (fst p) name) (parse_qsl qs)) with
  | [] => None
  | vs => Some vs
  end.

Definition hexdigit (n : N) : ascii :=
  if (n <? 10)%N then ascii_of_N (48 + n) else ascii_of_N (55 + n).

Definition always_safe (c : ascii) : bool :=
  let n := code c in
  ((48 <=? n) && (n <=? 57))%N || ((65 <=? n) && (n <=? 90))%N ||
  ((97 <=? n) && (n <=? 122))%N ||
  Ascii.eqb c "_" || Ascii.eqb c "." || Ascii.eqb c "-" || Ascii.eqb c "~".

(** [quote_plus]: letters, digits and [_.-~] stay, a space becomes [+],
    every other byte becomes [%XY]. *)
Fixpoint quote_plus (s : string) : string :=
  match s with
  | EmptyString => EmptyString
  | String c r =>
      if always_safe c then String c (quote_plus r)
      else if Ascii.eqb c " " then String "+" (quote_plus r)
      else String "%" (String (hexdigit (code c / 16))
                         (String (hexdigit (code c mod 16)) (quote_plus r)))
  end.

End Urllib.

(** ** BeautifulSoup observations *)

Module Bs4.
Import PyStr.

(** [tag.get_text(strip=True)] over the text nodes below the tag: each
    node is stripped, empty ones are dropped, the rest is concatenated. *)
Definition get_text_strip (nodes : list string) : string :=
  String.concat "" (List.filter nonempty (List.map strip nodes)).

(** An [<a>] that has an [href], as [find_all('a', href=True)] yields it:
    the attribute and the text nodes below the tag. *)
Record Anchor : Type := mkAnchor {
  href : string;
  a_text : list string
}.

(** A container [<div>]: its anchors with an [href] and, for the snippet
    scan, the text nodes of each [div], [span] and [p] below it, both in
    document order. *)
Record Div : Type := mkDiv {
  anchors : list Anchor;
  text_elems : list (list string)
}.

(** [a or b] on lists: the first one unless it is empty. *)
Definition py_or {A} (a b : list A) : list A :=
  match a with
  | [] => b
  | _ => a
  end.

(** [l[:n]] for a Python integer [n]: a negative [n] counts from the end. *)
Definition slice_to {A} (l : list A) (n : Z) : list A :=
  if (0 <=? n)%Z then firstn (Z.to_nat n) l
  else firstn (length l - Z.to_nat (- n)) l.

End Bs4.

(** ** search_engine.py *)

Module SearchEngine.
Import PyStr Bs4.

(** What the queries of [scrape_ddg_html] find in a parsed page. *)
Record Soup : Type := mkSoup {
  div_result : list Div;            (* find_all('div', class_='result') *)
  div_web_result : list Div;        (* find_all('div', class_='web-result') *)
  div_result_links : list Div;      (* class_='result results_links results_links_deep web-result' *)
  div_class_has_result : list Div;  (* {'class': lambda x: x and 'result' in x} *)
  all_divs : list Div               (* find_all('div') *)
}.

(** [session.get(...)] followed by [raise_for_status()]. *)
Inductive Response : Type :=
| ResponseError
| ResponseOk (text : string) (soup : Soup).

(** One endpoint as the loop body meets it: the first response, the
    response to the retry with the other user agent, and whether
    [ddg_debug.html] can be written. *)
Record Endpoint : Type := mkEndpoint {
  first_get : Response;
  second_get : Response;
  debug_write : bool
}.

Definition endpoints (query : string) : list string :=
  [ "https://html.duckduckgo.com/html/?q=" +:+ Urllib.quote_plus query;
    "https://lite.duckduckgo.com/lite/?q=" +:+ Urllib.quote_plus query;
    "https://duckduckgo.com/?q=" +:+ Urllib.quote_plus query +:+ "&ia=web" ].

Definition bot_detected (text : string) : bool :=
  str_in "bot" (lower text) &&
  (str_in "challenge" (lower text) || str_in "anomaly" (lower text)).

(** ['duckduckgo.com' not in href and href.startswith('http')] *)
Definition outbound (href : string) : bool :=
  negb (str_in "duckduckgo.com" href) && startswith href "http".

Definition result_containers (soup : Soup) : list Div :=
  let c1 := py_or (div_result soup)
              (py_or (div_web_result soup) (div_result_links soup)) in
  let c2 := match c1 with
            | [] => div_class_has_result soup
            | _ => c1
            end in
  match c2 with
  | [] => List.filter
            (fun div => (0 <? length (anchors div))%nat &&
                        existsb (fun link => outbound (href link)) (anchors div))
            (all_divs soup)
  | _ => c2
  end.

(** The first candidate whose text is longer than 50 and is not the
    title; [''] when there is none. *)
Fixpoint find_snippet (title : string) (candidates : list (list string)) : string :=
  match candidates with
  | [] => EmptyString
  | c :: rest =>
      let text := get_text_strip c in
      if (50 <? len text)%nat && negb (String.eqb text title) then text
      else find_snippet title rest
  end.

(** The body of the [try] of one container.  [Return None] is [continue].
    The module imports [quote_plus] only, so [urllib.parse.urlparse]
    raises [NameError]. *)
Definition parse_container (container : Div) : outcome (option SearchResult) :=
  match List.find (fun link => outbound (href link)) (anchors container) with
  | None => Return None
  | Some main_link =>
      let title := get_text_strip (a_text main_link) in
      if negb (nonempty title) || (len title <? 5)%nat then Return None
      else
        url ← (if str_in "/l/?uddg=" (href main_link)
               then Raise (NameError "urllib")
               else Return (href main_link));
        let snippet := find_snippet title (text_elems container) in
        if nonempty title && nonempty url
        then Return (Some (mkResult title url (Some snippet)))
        else Return None
  end.

(** The [for container in ...] loop: a container whose body raises is
    skipped. *)
Fixpoint extract (containers : list Div) : list SearchResult :=
  match containers with
  | [] => []
  | c :: rest =>
      match try_except (parse_container c) (fun _ => Return None) with
      | Return (Some r) => r :: extract rest
      | _ => extract rest
      end
  end.

(** The [try] body of one endpoint.  [Return None] is [continue]. *)
Definition attempt (ep : Endpoint) (max_results : Z)
  : outcome (option (list SearchResult)) :=
  let get r := match r with
               | ResponseError => Raise RequestException
               | ResponseOk text soup => Return (text, soup)
               end in
  r1 ← get (first_get ep);
  r2 ← (if bot_detected (fst r1) then get (second_get ep) else Return r1);
  _ ← (if debug_write ep then Return tt else Raise OSError);
  if bot_detected (fst r2) then Return None
  else
    let results := extract (slice_to (result_containers (snd r2)) max_results) in
    if (0 <? length results)%nat then Return (Some results) else Return None.

Fixpoint try_endpoints (web : string -> Endpoint) (urls : list string)
         (max_results : Z) : outcome (list SearchResult) :=
  match urls with
  | [] => Return []
  | u :: rest =>
      r ← try_except (attempt (web u) max_results) (fun _ => Return None);
      match r with
      | Some results => Return results
      | None => try_endpoints web rest max_results
      end
  end.

(** [scrape_ddg_html(query, max_results)]; [web] is what each endpoint
    URL answers during the call. *)
Definition scrape_ddg_html (web : string -> Endpoint) (query : string)
           (max_results : Z) : outcome (list SearchResult) :=
  try_endpoints web (endpoints query) max_results.

End SearchEngine.

(** ** simple_ddg_scraper.py *)

Module SimpleDdg.
Import PyStr Bs4.

Record Soup : Type := mkSoup {
  div_result : list Div;
  div_web_result : list Div;
  div_result_links : list Div;
  all_divs : list Div
}.

(** [requests.get] with [raise_for_status], the parsed page, and whether
    [ddg_debug.html] can be written. *)
Inductive Response : Type :=
| ResponseError
| ResponseOk (text : string) (soup : Soup) (debug_write : bool).

Definition result_containers (soup : Soup) : list Div :=
  match py_or (div_result soup)
          (py_or (div_web_result soup) (div_result_links soup)) with
  | [] => List.filter
            (fun div => (0 <? length (anchors div))%nat &&
                        existsb (fun link => negb (str_in "duckduckgo.com" (href link)))
                                (anchors div))
            (all_divs soup)
  | c => c
  end.

(** Here [urllib.parse] is imported inside the branch, so the redirect is
    resolved: [parse_qs] decodes the value and [unquote] decodes it again. *)
Definition parse_container (container : Div) : outcome (option SearchResult) :=
  match List.find (fun link => SearchEngine.outbound (href link)) (anchors container) with
  | None => Return None
  | Some main_link =>
      let title := get_text_strip (a_text main_link) in
      if negb (nonempty title) || (len title <? 5)%nat then Return None
      else
        url ← (if str_in "/l/?uddg=" (href main_link)
               then
                 query ← Urllib.urlparse_query (href main_link);
                 match Urllib.parse_qs_get query "uddg" with
                 | Some (v :: _) => Return (Urllib.unquote v)
                 | _ => Return (href main_link)
                 end
               else Return (href main_link));
        let snippet := SearchEngine.find_snippet title (text_elems container) in
        if nonempty title && nonempty url
        then Return (Some (mkResult title url (Some snippet)))
        else Return None
  end.

Fixpoint extract (containers : list Div) : list SearchResult :=
  match containers with
  | [] => []
  | c :: rest =>
      match try_except (parse_container c) (fun _ => Return None) with
      | Return (Some r) => r :: extract rest
      | _ => extract rest
      end
  end.

Definition scrape_body (response : Response) (max_results : Z)
  : outcome (list SearchResult) :=
  match response with
  | ResponseError => Raise RequestException
  | ResponseOk _ soup debug_write =>
      _ ← (if debug_write then Return tt else Raise OSError);
      Return (extract (slice_to (result_containers soup) max_results))
  end.

(** [scrape_ddg_html(query, max_results)]: any exception gives [[]]. *)
Definition scrape_ddg_html (web : string -> Response) (query : string)
           (max_results : Z) : outcome (list SearchResult) :=
  try_except
    (scrape_body (web ("https://html.duckduckgo.com/html/?q=" +:+ Urllib.quote_plus query))
                 max_results)
    (fun _ => Return []).

End SimpleDdg.

(** ** ddg_scraper.py *)

Module DdgScraper.
Import PyStr Bs4.

(** An element of [result_divs]: an [<a>] (text nodes, [href] if any) or a
    container, of which the loop reads the title element
    ([find('h2') or find('a', class_=...) or find('a')]: text nodes and
    [href]) and the snippet element (text nodes). *)
Inductive Element : Type :=
| A (text : list string) (href : option string)
| Box (title_elem : option (list string * option string))
      (snippet_elem : option (list string)).

Record Soup : Type := mkSoup {
  select : string -> list Element;   (* soup.select(selector) *)
  links : list Anchor                (* soup.find_all('a', href=True) *)
}.

Inductive Response : Type :=
| ResponseError
| ResponseOk (text : string) (soup : Soup) (debug_write : bool).

Definition selectors : list string :=
  ["div[data-result]"; ".result"; ".web-result"; ".result--web";
   "[data-result]"; "article"].

(** The [for selector in selectors] loop: the first selection that is not
    empty, [[]] when all are. *)
Fixpoint first_selection (soup : Soup) (sels : list string) : list Element :=
  match sels with
  | [] => []
  | sel :: rest =>
      match select soup sel with
      | [] => first_selection soup rest
      | found => found
      end
  end.

Definition looks_like_result (link : Anchor) : bool :=
  let text := get_text_strip (a_text link) in
  startswith (Bs4.href link) "http" &&
  negb (startswith (Bs4.href link) "https://duckduckgo.com") &&
  (10 <? len text)%nat &&
  negb (existsb (fun word => str_in word (lower text)) ["privacy"; "settings"; "about"]).

Definition result_divs (soup : Soup) (max_results : Z) : list Element :=
  match first_selection soup selectors with
  | [] => slice_to
            (List.map (fun link => A (a_text link) (Some (Bs4.href link)))
                      (List.filter looks_like_result (links soup)))
            max_results
  | found => found
  end.

(** The body of the [try] of one element; [Return None] is [continue] or
    an element that is not appended. *)
Definition parse_element (div : Element) : outcome (option SearchResult) :=
  fields ← match div with
           | A text (Some h) => Return (Some (get_text_strip text, h, EmptyString))
           | A text None => Raise (KeyError "href")
           | Box (Some (text, h)) snippet_elem =>
               Return (Some (get_text_strip text,
                             match h with Some h => h | None => EmptyString end,
                             match snippet_elem with
                             | Some t => get_text_strip t
                             | None => EmptyString
                             end))
           | Box None _ => Return None
           end;
  match fields with
  | None => Return None
  | Some (title, link, snippet) =>
      if nonempty link && startswith link "/l/?uddg=" then
        query ← Urllib.urlparse_query link;
        let link := match Urllib.parse_qs_get query "uddg" with
                    | Some (v :: _) => v
                    | _ => link
                    end in
        if nonempty title && nonempty link
        then Return (Some (mkResult title link (Some snippet)))
        else Return None
      else if nonempty link && negb (startswith link "http") then Return None
      else if nonempty title && nonempty link
           then Return (Some (mkResult title link (Some snippet)))
           else Return None
  end.

Fixpoint extract (divs : list Element) : list SearchResult :=
  match divs with
  | [] => []
  | d :: rest =>
      match try_except (parse_element d) (fun _ => Return None) with
      | Return (Some r) => r :: extract rest
      | _ => extract rest
      end
  end.

(** [_ddg_requests_search]: the handler prints and re-raises. *)
Definition _ddg_requests_search (web : string -> Response) (query : string)
           (max_results : Z) : outcome (list SearchResult) :=
  try_except
    (match web ("https://duckduckgo.com/?q=" +:+ Urllib.quote_plus query +:+ "&kl=us-en&ia=web") with
     | ResponseError => Raise RequestException
     | ResponseOk _ soup debug_write =>
         _ ← (if debug_write then Return tt else Raise OSError);
         Return (extract (slice_to (result_divs soup max_results) max_results))
     end)
    (fun e => Raise e).

(** [ddg_search]: [_ddg_html_search] is defined nowhere, so the [try]
    raises [NameError] and the handler runs [_ddg_requests_search], whose
    exceptions leave [ddg_search]. *)
Definition ddg_search (web : string -> Response) (query : string)
           (max_results : Z) : outcome (list SearchResult) :=
  try_except
    (Raise (NameError "_ddg_html_search"))
    (fun _ => _ddg_requests_search web query max_results).

End DdgScraper.

(** ** flask_app.py *)

Module FlaskApp.
Import PyStr.

(** The element [container.locator("h2 a, .result__title, .result__a").first]
    resolves to: [text_content()] and [get_attribute("href")]. *)
Record Element : Type := mkElement {
  text_content : string;
  get_href : option string
}.

(** A result container as the loop reads it.  [Return None] is a locator
    with [count() == 0]; [Raise] is a Playwright error while reading. *)
Record Container : Type := mkContainer {
  title_elem : outcome (option Element);
  snippet_elem : outcome (option string)
}.

(** One browser session: an exception that reaches the outer handler,
    a failed [page.goto], or a loaded page with its HTML and the
    [.result, .web-result] containers. *)
Inductive Session : Type :=
| Crashed
| GotoFailed
| Loaded (html : string) (containers : list Container).

Definition blocks : list string :=
  [ "Sorry, we are rate limiting requests";
    "Please prove you're not a robot";
    "We have detected unusual traffic";
    "CAPTCHA";
    "rate limit";
    "too many requests" ].

(** [any(b in html.lower() for b in blocks)] *)
Definition is_blocked (html : string) : bool :=
  existsb (fun b => str_in b (lower html)) blocks.

(** [_extract_target_url]: any exception gives [href] back. *)
Definition _extract_target_url (href : string) : string :=
  let body : outcome string :=
    if negb (nonempty href) then Return EmptyString
    else if startswith href "/url?" || startswith href "https://www.google.com/url"
    then
      query ← Urllib.urlparse_query href;
      match Urllib.parse_qs_get query "q" with
      | Some (real :: _) => Return real
      | _ => Return href
      end
    else Return href in
  match body with
  | Return u => u
  | Raise _ => href
  end.

Definition ad_marker : string := "Ad Viewing ads is privacy protected by DuckDuckGo".

(** The body of the [try] of one container. *)
Definition parse_container (container : Container) : outcome (option SearchResult) :=
  elem ← title_elem container;
  let title := option_map (fun e => strip (text_content e)) elem in
  let link := match elem with
              | Some e => get_href e
              | None => None
              end in
  snip ← snippet_elem container;
  let snippet := option_map strip snip in
  match title, link with
  | Some title, Some link =>
      if nonempty title && nonempty link then
        url ← (if startswith link "//duckduckgo.com/l/?uddg="
               then
                 query ← Urllib.urlparse_query link;
                 match Urllib.parse_qs_get query "uddg" with
                 | Some (v :: _) => Return (Urllib.unquote v)
                 | _ => Return link
                 end
               else Return (_extract_target_url link));
        let title := join " " (split title) in
        let title := if str_in ad_marker title
                     then strip (before ad_marker title)
                     else title in
        Return (Some (mkResult title url snippet))
      else Return None
  | _, _ => Return None
  end.

Fixpoint extract (containers : list Container) : list SearchResult :=
  match containers with
  | [] => []
  | c :: rest =>
      match try_except (parse_container c) (fun _ => Return None) with
      | Return (Some r) => r :: extract rest
      | _ => extract rest
      end
  end.

(** [fetch_google_results(query)], given the session the call observes. *)
Definition fetch_google_results (session : Session) : list SearchResult :=
  match session with
  | Crashed => []
  | GotoFailed => []
  | Loaded html containers =>
      if is_blocked html then [] else extract containers
  end.

(** *** The result cache *)

Definition CACHE_TTL_SECONDS : Q := 600.

(** [CACHE] and the queries handed to [fetch_google_results] so far. *)
Record State : Type := mkState {
  CACHE : gmap string (list SearchResult * Q);
  fetched : list string
}.

Definition initial : State := mkState ∅ [].

(** [get_cached(query)] at clock reading [now]. *)
Definition get_cached (query : string) (now : Q) (st : State)
  : option (list SearchResult) * State :=
  match CACHE st !! query with
  | None => (None, st)
  | Some (results, ts) =>
      if Qle_bool (now - ts) CACHE_TTL_SECONDS then (Some results, st)
      else (None, mkState (delete query (CACHE st)) (fetched st))
  end.

(** [set_cache(query, results)] at clock reading [now]. *)
Definition set_cache (query : string) (results : list SearchResult) (now : Q)
           (st : State) : State :=
  match results with
  | [] => st
  | _ => mkState (<[query := (results, now)]> (CACHE st)) (fetched st)
  end.

Record HttpResponse : Type := mkResponse {
  status : nat;
  body : list SearchResult
}.

(** [jsonify(x)]: status 200. *)
Definition jsonify (results : list SearchResult) : HttpResponse :=
  mkResponse 200 results.

Section Handler.
(** The session the [n]-th fetch of the process observes for a query. *)
Variable world : nat -> string -> Session.

(** [search()]: [q] is [request.args.get("q", "")]; [now_get] and
    [now_set] are the clock readings of [get_cached] and [set_cache]. *)
Definition search (q : string) (now_get now_set : Q) (st : State)
  : HttpResponse * State :=
  let query := strip q in
  if negb (nonempty query) then (jsonify [], st)
  else
    match get_cached query now_get st with
    | (Some cached, st1) => (jsonify cached, st1)
    | (None, st1) =>
        let results := fetch_google_results (world (length (fetched st1)) query) in
        let st2 := mkState (CACHE st1) (query :: fetched st1) in
        (jsonify results, set_cache query results now_set st2)
    end.

(** A sequence of requests, each with its two clock readings. *)
Fixpoint run (reqs : list (string * Q * Q)) (st : State) : State :=
  match reqs with
  | [] => st
  | (q, now_get, now_set) :: rest => run rest (snd (search q now_get now_set st))
  end.
End Handler.

End FlaskApp.

(** ** index.py *)

Module IndexApp.
Import PyStr.

(** The counters of [_system_status] and the queries handed to the
    scraper so far. *)
Record State : Type := mkState {
  search_requests : nat;
  classification_requests : nat;
  errors : nat;
  scraped : list string
}.

Definition update_system_stats (endpoint_type : string) (st : State) : State :=
  if String.eqb endpoint_type "search"
  then mkState (S (search_requests st)) (classification_requests st) (errors st) (scraped st)
  else if String.eqb endpoint_type "classify"
  then mkState (search_requests st) (S (classification_requests st)) (errors st) (scraped st)
  else if String.eqb endpoint_type "error"
  then mkState (search_requests st) (classification_requests st) (S (errors st)) (scraped st)
  else st.

Inductive Body : Type :=
| ErrorBody (error : string)
| ResultsBody (query : string) (results : list SearchResult) (count : nat).

Record HttpResponse : Type := mkResponse {
  status : nat;
  body : Body
}.

Definition client_error (r : HttpResponse) : bool :=
  (400 <=? status r)%nat && (status r <? 500)%nat.

Section Handler.
(** The name [scrape_ddg_html] after the guarded import: [None] when
    the import failed. *)
Variable scrape_ddg_html : option (string -> Z -> outcome (list SearchResult)).

(** [search()]: [q] is [request.args.get('q', '')]. *)
Definition search (q : string) (st : State) : HttpResponse * State :=
  let query := strip q in
  if negb (nonempty query)
  then (mkResponse 400 (ErrorBody "Missing query parameter"), update_system_stats "error" st)
  else
    match scrape_ddg_html with
    | None => (mkResponse 503 (ErrorBody "Search engine unavailable"),
               update_system_stats "error" st)
    | Some scrape =>
        let st1 := mkState (search_requests st) (classification_requests st)
                           (errors st) (query :: scraped st) in
        match scrape query 10%Z with
        | Return results =>
            (mkResponse 200 (ResultsBody query results (length results)),
             update_system_stats "search" st1)
        | Raise _ =>
            (mkResponse 500 (ErrorBody "Search failed"), update_system_stats "error" st1)
        end
    end.
End Handler.

End IndexApp.

(** ** emotion_classifier.py *)

Module Emotion.
Import PyStr.
Local Open Scope Q_scope.

(** The argument of [classify_query]: a [str] in every call of the
    service, any object as far as Python is concerned. *)
Inductive PyValue : Type :=
| PyStr (s : string)
| PyNone
| PyInt (n : Z).

(** [text.split()] on the argument: only a [str] has the method. *)
Definition str_method (text : PyValue) (method : string) : outcome string :=
  match text with
  | PyStr s => Return s
  | PyNone => Raise (AttributeError ("'NoneType' object has no attribute '" +:+ method +:+ "'"))
  | PyInt _ => Raise (AttributeError ("'int' object has no attribute '" +:+ method +:+ "'"))
  end.

Definition Qltb (a b : Q) : bool := negb (Qle_bool b a).

(** [max(a, b)] and [min(a, b)]: the first argument unless the second is
    strictly beyond it. *)
Definition py_max (a b : Q) : Q := if Qltb a b then b else a.
Definition py_min (a b : Q) : Q := if Qltb b a then b else a.

Definition Qsum (l : list Q) : Q := fold_right Qplus 0 l.
Definition Qnat (n : nat) : Q := inject_Z (Z.of_nat n).

Definition positive_emojis : list string :=
  ["ðŸ˜‚"; "ðŸ¤£"; "ðŸ˜Š"; "ðŸ˜"; "ðŸ˜„"; "ðŸ˜ƒ"; "ðŸ˜€"; "ðŸ™‚"; "â¤ï¸"; "ðŸ˜";
   "ðŸ¥°"; "ðŸ˜˜"].

Definition positive_expressions : list string :=
  ["yay"; "woohoo"; "hurray"; "hooray"; "can't wait"; "looking forward"; "bring it on"].

Definition negative_emojis : list string :=
  ["ðŸ˜¢"; "ðŸ˜­"; "ðŸ˜”"; "ðŸ˜ž"; "ðŸ˜¡"; "ðŸ˜¤"; "ðŸ¤¬"].

Definition negative_expressions : list string :=
  ["sigh"; "ugh"; "argh"; "grr"; "damn"; "hell"].

Definition repetition_patterns : list string :=
  ["(.)\1{2,}"; "\b(\w+)\s+\1\b"].

(** One entry of [emotion_patterns]; a key the entry does not have is an
    empty list ([patterns.get(key, [])]). *)
Record EmotionPattern : Type := mkPattern {
  emotion : string;
  keywords : list string;
  emojis : list string;
  intensifiers : list string;
  patterns : list string;
  expressions : list string
}.

Definition emotion_patterns : list EmotionPattern :=
  [ mkPattern "joy"
      ["happy"; "joy"; "excited"; "thrilled"; "delighted"; "cheerful"; "glad";
       "pleased"; "elated"; "ecstatic"; "wonderful"; "amazing"; "awesome"; "fantastic";
       "brilliant"; "perfect"; "love"; "adore"; "cherish"]
      ["ðŸ˜‚"; "ðŸ¤£"; "ðŸ˜Š"; "ðŸ˜"; "ðŸ˜„"; "ðŸ˜ƒ"; "ðŸ˜€"; "ðŸ™‚"; "ðŸ˜"; "ðŸ¥°";
       "ðŸ˜˜"; "â¤ï¸"; "ðŸ’•"; "ðŸ’–"; "ðŸ’—"; "ðŸŽ‰"; "ðŸŽŠ"; "âœ¨"; "ðŸ”¥"]
      ["so"; "very"; "really"; "extremely"; "incredibly"; "absolutely"; "totally";
       "completely"]
      []
      [];
    mkPattern "sadness"
      ["sad"; "depressed"; "down"; "blue"; "melancholy"; "sorrowful"; "grief";
       "heartbroken"; "devastated"; "disappointed"; "regret"; "lonely"; "empty";
       "hopeless"; "despair"; "cry"; "tears"; "miss"; "lost"]
      ["ðŸ˜¢"; "ðŸ˜­"; "ðŸ˜”"; "ðŸ˜ž"; "ðŸ’”"; "ðŸ˜Ÿ"; "ðŸ˜¥"; "ðŸ˜°"; "ðŸ˜¿"; "ðŸ™";
       "ðŸ™â€â™€ï¸"; "ðŸ™â€â™‚ï¸"]
      ["very"; "really"; "extremely"; "deeply"; "terribly"; "awfully"]
      ["..."; "sigh"; "ugh"; "oh no"; "too bad"]
      [];
    mkPattern "anger"
      ["angry"; "mad"; "furious"; "rage"; "irritated"; "annoyed"; "frustrated";
       "pissed"; "livid"; "outraged"; "incensed"; "exasperated"; "enraged"; "hate";
       "despise"; "loathe"]
      ["ðŸ˜¡"; "ðŸ˜¤"; "ðŸ¤¬"; "ðŸ˜ "; "ðŸ‘¿"; "ðŸ˜¾"; "ðŸ™Ž"; "ðŸ™Žâ€â™€ï¸";
       "ðŸ™Žâ€â™‚ï¸"]
      ["so"; "very"; "really"; "extremely"; "absolutely"; "completely"; "totally"]
      ["grr"; "argh"; "damn"; "hell"; "what the"; "are you kidding me"]
      [];
    mkPattern "fear"
      ["scared"; "afraid"; "terrified"; "frightened"; "worried"; "anxious"; "nervous";
       "panic"; "dread"; "fearful"; "concerned"; "apprehensive"; "uneasy"; "disturbed";
       "alarmed"]
      ["ðŸ˜¨"; "ðŸ˜°"; "ðŸ˜±"; "ðŸ˜Ÿ"; "ðŸ˜¥"; "ðŸ˜§"; "ðŸ˜¦"; "ðŸ˜¯"; "ðŸ˜²"]
      ["so"; "very"; "really"; "extremely"; "absolutely"; "completely"]
      ["oh no"; "what if"; "i hope not"; "i'm worried"]
      [];
    mkPattern "love"
      ["love"; "adore"; "cherish"; "devoted"; "affection"; "romantic"; "sweet"; "cute";
       "precious"; "treasure"; "beloved"; "darling"; "honey"; "sweetheart"]
      ["â¤ï¸"; "ðŸ’•"; "ðŸ’–"; "ðŸ’—"; "ðŸ’˜"; "ðŸ’"; "ðŸ’ž"; "ðŸ’Ÿ"; "â£ï¸"; "ðŸ˜";
       "ðŸ¥°"; "ðŸ˜˜"; "ðŸ’‹"]
      ["so"; "very"; "really"; "truly"; "deeply"; "absolutely"]
      []
      ["i love"; "i adore"; "my love"; "my heart"];
    mkPattern "surprise"
      ["surprised"; "amazed"; "astonished"; "shocked"; "stunned"; "bewildered";
       "confused"; "puzzled"; "perplexed"; "startled"; "unexpected"; "sudden"; "wow"]
      ["ðŸ˜®"; "ðŸ˜²"; "ðŸ˜¯"; "ðŸ˜±"; "ðŸ¤¯"; "ðŸ˜³"; "ðŸ™€"; "ðŸ˜µ"]
      []
      []
      ["what"; "oh my"; "wow"; "unbelievable"; "incredible"; "no way"; "really";
       "are you serious"];
    mkPattern "neutral"
      ["fine"; "okay"; "alright"; "normal"; "regular"; "standard"; "usual"; "typical";
       "ordinary"; "common"; "basic"; "simple"; "clear"]
      ["ðŸ˜"; "ðŸ˜‘"; "ðŸ¤”"; "ðŸ™„"; "ðŸ˜¶"]
      []
      ["."; "..."; "meh"; "whatever"; "i guess"]
      [] ].

(** The five entries of [psychological_scores]. *)
Record Scores : Type := mkScores {
  positive_valence : Q;
  negative_valence : Q;
  high_arousal : Q;
  high_engagement : Q;
  neutral_regulation : Q
}.

(** What [classify_query] returns, without the entries
    [emotional_nuance] and [context_analysis]: the steps that fill them
    only read the text and raise nothing on a [str]. *)
Record Classification : Type := mkClassification {
  primary_state : string;
  confidence : Q;
  tool : string;
  psychological_profile : gmap string Q;
  psychological_insights : list string;
  emotion_percentages : option (gmap string Q);
  tool_reasoning : option string;
  error : option string
}.

(** A loaded tokenizer and model: for a text, the pairs
    [(id2label[i], probabilities[i])], or an exception. *)
Definition Predictor : Type := string -> outcome (list (string * Q)).

(** [_model_loaded] and the loaded model with its tokenizer. *)
Record State : Type := mkState {
  _model_loaded : bool;
  _distilbert_model : option Predictor
}.

(** The installation: whether [torch] and [transformers] import, and what
    [from_pretrained] gives for the two model names ([None]: it raises). *)
Record Env : Type := mkEnv {
  TORCH_AVAILABLE : bool;
  transformers_available : bool;
  emotion_model : option Predictor;
  alternative_model : option Predictor
}.

Definition DISTILBERT_EMOTIONS : list string :=
  ["anger"; "fear"; "joy"; "love"; "sadness"; "surprise"; "neutral"].

Section Classifier.
Variable env : Env.
(** [re.finditer(pattern, text, re.IGNORECASE if ignorecase else 0)]:
    [group(0)] of every match.  [re.findall] has as many elements and
    [re.search] succeeds when there is one. *)
Variable finditer : string -> bool -> string -> list string.

Definition re_search (pattern : string) (text : string) : bool :=
  match finditer pattern false text with
  | [] => false
  | _ => true
  end.

(** [load_model()] *)
Definition load_model (st : State) : outcome (bool * State) :=
  if _model_loaded st then Return (true, st)
  else
    try_except
      (_ ← (if TORCH_AVAILABLE env then Return tt
            else Raise (ImportError "PyTorch not available for DistilBERT model loading"));
       _ ← (if transformers_available env then Return tt
            else Raise (ImportError "No module named 'transformers'"));
       model ← try_except
                 (match emotion_model env with
                  | Some m => Return m
                  | None => Raise OSError
                  end)
                 (fun _ => match alternative_model env with
                           | Some m => Return m
                           | None => Raise OSError
                           end);
       Return (true, mkState true (Some model)))
      (fun _ => Return (true, mkState true (_distilbert_model st))).

(** [analyze_text_complexity(text)["word_count"]] *)
Definition word_count (text : string) : nat := length (split text).

Definition emoji_score (emojis : list string) (text : string) : Q :=
  Qsum (List.map (fun emoji => if str_in emoji text
                               then 2.0 * Qnat (count text emoji)
                               else 0) emojis).

Definition expression_score (expressions : list string) (text_lower : string) : Q :=
  Qsum (List.map (fun e => if str_in e text_lower then 1.5 else 0) expressions).

(** The four running sums of [calculate_psychological_scores]. *)
Definition positive_score (text : string) : Q :=
  emoji_score positive_emojis text
  + expression_score positive_expressions (lower text)
  + (if str_in "!!!" text then 1.2
     else if str_in "!!" text then 0.8
     else if endswith text "!" then 0.5 else 0).

Definition negative_score (text : string) : Q :=
  emoji_score negative_emojis text
  + expression_score negative_expressions (lower text)
  + (if str_in "..." text then 0.8 else 0)
  + (if endswith text "..." then 0.5 else 0).

Definition match_score (matches : list string) : Q :=
  Qsum (List.map (fun m => 1.0 + Qnat (len m) * 0.1) matches).

Definition intensity_score (text : string) : Q :=
  Qsum (List.map (fun pattern => match_score (finditer pattern true text))
                 repetition_patterns)
  + Qnat (length (finditer "\b[A-Z]{2,}\b" false text)) * 1.5
  + (if re_search "!{2,}" text then 1.2 else 0)
  + (if re_search "\?{2,}" text then 1.0 else 0)
  + (if re_search "\.{3,}" text then 0.8 else 0).

Definition engagement_score (text : string) : Q :=
  Qnat (length (finditer "\?+" false text)) * 0.8
  + (if (20 <? word_count text)%nat then 2.0
     else if (10 <? word_count text)%nat then 1.0
     else if (word_count text <=? 3)%nat then - 0.5 else 0).

(** [calculate_psychological_scores(text)] *)
Definition calculate_psychological_scores (text : string) : Scores :=
  let total_activity :=
    positive_score text + negative_score text + intensity_score text
    + Qabs (engagement_score text) in
  mkScores (positive_score text) (negative_score text) (intensity_score text)
           (engagement_score text) (py_max 0 (1.0 - total_activity * 0.1)).

(** The score of one entry of [emotion_patterns]. *)
Definition pattern_score (text text_lower : string) (p : EmotionPattern) : nat :=
  let hits (ws : list string) (hay : string) (weight : nat) : nat :=
    list_sum (List.map (fun w => if str_in w hay then weight else 0%nat) ws) in
  (hits (keywords p) text_lower 2
   + hits (emojis p) text 3
   + hits (intensifiers p) text_lower 1
   + hits (patterns p) text_lower 2
   + hits (expressions p) text_lower 2
   + (if String.eqb (emotion p) "joy" &&
         (str_in "!!!" text ||
          (0 <? length (finditer "([a-z])\1{3,}" false text_lower))%nat)
      then 3 else 0)
   + (if String.eqb (emotion p) "anger" && (str_in "!!!" text || str_in "??" text)
      then 2 else 0))%nat.

(** [get_rule_based_emotions(text)] *)
Definition get_rule_based_emotions (text : string) : gmap string Q :=
  let text_lower := lower text in
  let emotion_scores :=
    List.map (fun p => (emotion p, pattern_score text text_lower p)) emotion_patterns in
  let total_score := list_sum (List.map snd emotion_scores) in
  if (0 <? total_score)%nat
  then list_to_map
         (List.map (fun es => (fst es, Qnat (snd es) / Qnat total_score * 100))
                   (List.filter (fun es => (0 <? snd es)%nat) emotion_scores))
  else <["uncertain" := 40]> (<["neutral" := 60]> ∅).

(** [get_distilbert_emotions(text)] *)
Definition get_distilbert_emotions (st : State) (text : string) : gmap string Q :=
  let rule_based_emotions := get_rule_based_emotions text in
  match _distilbert_model st, TORCH_AVAILABLE env with
  | Some predict, true =>
      match predict text with
      | Raise _ => rule_based_emotions
      | Return probabilities =>
          let emotion_percentages : gmap string Q :=
            fold_left (fun m lp =>
                         if existsb (String.eqb (fst lp)) DISTILBERT_EMOTIONS
                         then <[fst lp := snd lp * 100]> m else m)
                      probabilities ∅ in
          merge (fun model_score rule_score =>
                   match model_score, rule_score with
                   | None, None => None
                   | _, _ => Some (default 0 model_score * 0.7
                                   + default 0 rule_score * 0.3)
                   end)
                emotion_percentages rule_based_emotions
      end
  | _, _ => rule_based_emotions
  end.

(** The block of [classify_query] that raises the scores to the emotion
    percentages. *)
Definition enhance (scores : Scores) (emotions : gmap string Q) : Scores :=
  if decide (emotions = ∅) then scores
  else
    let s1 := match emotions !! "joy" with
              | Some joy => mkScores (py_max (positive_valence scores) (joy / 10))
                                     (negative_valence scores) (high_arousal scores)
                                     (high_engagement scores) (neutral_regulation scores)
              | None => scores
              end in
    let s2 := match emotions !! "sadness" with
              | Some sadness => mkScores (positive_valence s1)
                                         (py_max (negative_valence s1) (sadness / 10))
                                         (high_arousal s1)
                                         (high_engagement s1) (neutral_regulation s1)
              | None => s1
              end in
    let s3 := match emotions !! "anger" with
              | Some anger => mkScores (positive_valence s2)
                                       (py_max (negative_valence s2) (anger / 10))
                                       (py_max (high_arousal s2) (anger / 10))
                                       (high_engagement s2) (neutral_regulation s2)
              | None => s2
              end in
    match emotions !! "fear" with
    | Some fear => mkScores (positive_valence s3)
                            (py_max (negative_valence s3) (fear / 10))
                            (py_max (high_arousal s3) (fear / 10))
                            (high_engagement s3) (neutral_regulation s3)
    | None => s3
    end.

(** [determine_psychological_state(psychological_scores)] *)
Definition determine_psychological_state (scores : Scores) : string * Q :=
  let positive_valence := positive_valence scores in
  let negative_valence := negative_valence scores in
  let high_arousal := high_arousal scores in
  let high_engagement := high_engagement scores in
  let neutral_regulation := neutral_regulation scores in
  if Qltb 2.0 positive_valence then
    if Qltb 1.0 high_arousal
    then ("high_positive_arousal", py_min 0.95 (0.5 + positive_valence * 0.1))
    else ("positive_valence", py_min 0.9 (0.4 + positive_valence * 0.1))
  else if Qltb 2.0 negative_valence then
    if Qltb 1.0 high_arousal
    then ("high_negative_arousal", py_min 0.95 (0.5 + negative_valence * 0.1))
    else ("negative_valence", py_min 0.9 (0.4 + negative_valence * 0.1))
  else if Qltb 1.5 high_arousal
  then ("high_intensity_state", py_min 0.9 (0.3 + high_arousal * 0.08))
  else if Qltb 2.0 high_engagement
  then ("high_engagement", py_min 0.85 (0.4 + high_engagement * 0.05))
  else if Qltb high_engagement (- 0.3) then
    if Qltb positive_valence 0.5 && Qltb high_arousal 0.5
    then ("low_engagement_shutdown", py_min 0.8 (0.6 + Qabs high_engagement * 0.2))
    else ("brief_communication", py_min 0.7 (0.4 + Qabs high_engagement * 0.15))
  else if Qltb 0.7 neutral_regulation
  then ("neutral_regulation", neutral_regulation)
  else if Qltb (Qabs (positive_valence - negative_valence)) 1.0 &&
          (Qltb 1.0 positive_valence || Qltb 1.0 negative_valence)
  then ("mixed_valence", py_min 0.75 (0.3 + (positive_valence + negative_valence) * 0.05))
  else ("neutral_regulation", py_max 0.5 neutral_regulation).

(** [determine_tool_from_psychology(primary_state)]: tool and reasoning. *)
Definition determine_tool_from_psychology (primary_state : string) : string * string :=
  let state_tool_mapping : list (string * (string * string)) :=
    [ ("high_positive_arousal", ("music", "High positive energy suggests music for mood enhancement"));
      ("positive_valence", ("music", "Positive state suggests mood-appropriate content"));
      ("high_negative_arousal", ("meditation", "High negative arousal suggests calming activities"));
      ("negative_valence", ("meditation", "Negative state suggests supportive content"));
      ("high_intensity_state", ("meditation", "High intensity suggests need for regulation"));
      ("high_engagement", ("web_search", "High engagement suggests information-seeking behavior"));
      ("low_engagement_shutdown", ("meditation", "Low engagement suggests need for gentle support"));
      ("brief_communication", ("web_search", "Brief communication suggests direct information need"));
      ("mixed_valence", ("journal", "Mixed states suggest reflective activities"));
      ("neutral_regulation", ("web_search", "Neutral state allows for general information seeking")) ] in
  match List.find (fun kv => String.eqb (fst kv) primary_state) state_tool_mapping with
  | Some kv => snd kv
  | None => ("web_search", "Default tool for unknown state")
  end.

(** [d[key]] *)
Definition getitem (d : gmap string Q) (key : string) : outcome Q :=
  match d !! key with
  | Some v => Return v
  | None => Raise (KeyError key)
  end.

(** [generate_psychological_insights]: the detected patterns carry no
    ["confidence"] entry, so the loop over them adds nothing. *)
Definition generate_psychological_insights (scores : Scores)
           (profile : gmap string Q) (word_count : nat) : outcome (list string) :=
  let length_insight :=
    if (word_count <=? 3)%nat then
      if Qltb 1.0 (positive_valence scores)
      then ["Brief but positive message - efficient communication style"]
      else if Qltb 1.0 (high_arousal scores)
      then ["Brief but intense message - focused emotional expression"]
      else ["Very brief message - possible emotional shutdown, time constraints, or preference for minimal communication"]
    else if (word_count <=? 10)%nat
    then ["Short message - efficiency focus or mild emotional restraint"]
    else if (50 <=? word_count)%nat
    then ["Long message - high engagement or need for detailed expression"]
    else [] in
  valence ← getitem profile "valence";
  let valence_insight :=
    if Qltb 0.5 valence then ["Strong positive valence detected"]
    else if Qltb valence (- 0.5) then ["Strong negative valence detected"]
    else if Qltb (Qabs valence) 0.2 then ["Neutral valence - balanced emotional state"]
    else [] in
  arousal ← getitem profile "arousal";
  let arousal_insight :=
    if Qltb 0.7 arousal
    then ["High arousal state - intense emotional or cognitive activity"]
    else if Qltb arousal 0.2
    then ["Low arousal state - calm or potentially disengaged"]
    else [] in
  engagement ← getitem profile "engagement";
  let engagement_insight :=
    if Qltb 0.6 engagement
    then ["High engagement - active cognitive and emotional investment"]
    else if Qltb engagement (- 0.2)
    then ["Low engagement - possible emotional disconnection or time pressure"]
    else [] in
  let mixed_insight :=
    if negb (Qeq_bool valence 0) && Qltb (Qabs valence) 0.3 &&
       Qltb 1.0 (positive_valence scores) && Qltb 1.0 (negative_valence scores)
    then ["Mixed emotional signals detected - possible internal conflict or complex emotional state"]
    else [] in
  Return (length_insight ++ valence_insight ++ arousal_insight
          ++ engagement_insight ++ mixed_insight)%list.

(** The record returned when [load_model()] reports failure. *)
Definition model_unavailable : Classification :=
  mkClassification "neutral_regulation" 1.0 "web_search"
    (<["engagement" := 0.0]> (<["arousal" := 0.0]> (<["valence" := 0.0]> ∅)))
    ["Model unavailable - using neutral fallback"] None None
    (Some "Model not available").

(** The record returned by the handler of the analysis. *)
Definition analysis_failed (e : Exception) : Classification :=
  mkClassification "neutral_regulation" 1.0 "web_search"
    (<["regulation" := 1.0]>
       (<["engagement" := 0.0]> (<["arousal" := 0.0]> (<["valence" := 0.0]> ∅))))
    ["Analysis failed - using neutral fallback"] None None
    (Some (exc_str e)).

Definition clamp (v : Q) : Q := py_max (- 1.0) (py_min 1.0 v).

(** The [try] body of [classify_query]. *)
Definition analyse (st : State) (text : PyValue) : outcome Classification :=
  text ← str_method text "split";
  let psychological_scores :=
    enhance (calculate_psychological_scores text) (get_distilbert_emotions st text) in
  let '(primary_state, confidence) :=
    determine_psychological_state psychological_scores in
  let psychological_profile : gmap string Q :=
    clamp <$>
      (<["regulation" := neutral_regulation psychological_scores]>
         (<["engagement" := high_engagement psychological_scores / 10.0]>
            (<["arousal" := high_arousal psychological_scores / 10.0]>
               (<["valence" := (positive_valence psychological_scores
                                - negative_valence psychological_scores) / 10.0]> ∅)))) in
  let tool_info := determine_tool_from_psychology primary_state in
  insights ← generate_psychological_insights psychological_scores
               psychological_profile (word_count text);
  Return (mkClassification primary_state confidence (fst tool_info)
            psychological_profile insights
            (Some (get_distilbert_emotions st text))
            (Some (snd tool_info)) None).

(** [classify_query(text)] *)
Definition classify_query (st : State) (text : PyValue)
  : outcome (Classification * State) :=
  loaded ← (if _model_loaded st then Return (true, st) else load_model st);
  if negb (fst loaded) then Return (model_unavailable, snd loaded)
  else
    try_except
      (c ← analyse (snd loaded) text; Return (c, snd loaded))
      (fun e => Return (analysis_failed e, snd loaded)).
End Classifier.
End Emotion.

(** * What the specification states, as predicates *)

Module Claims.
Import PyStr.

(** An item as the specification describes it, with the checks of the
    HTTP extractor: a title of at least five characters without whitespace
    of ASCII at either end, a url that starts with [http] and is neither a
    link into the engine nor its redirect wrapper. *)
Definition http_item (r : SearchResult) : Prop :=
  strip_ascii (title r) = title r /\ title r <> EmptyString /\
  (5 <= len (title r))%nat /\
  startswith (url r) "http" = true /\
  str_in "duckduckgo.com" (url r) = false /\
  str_in "/l/?uddg=" (url r) = false.

(** An item of the browser extractor: its title has no whitespace of
    ASCII at either end, and it is what [parse_container] builds from a
    container of the session whose title text, trimmed, and whose [href]
    are not empty. *)
Definition browser_item (session : FlaskApp.Session) (r : SearchResult) : Prop :=
  strip_ascii (title r) = title r /\
  exists html containers c e link,
    session = FlaskApp.Loaded html containers /\ In c containers /\
    FlaskApp.parse_container c = Return (Some r) /\
    FlaskApp.title_elem c = Return (Some e) /\
    strip (FlaskApp.text_content e) <> EmptyString /\
    FlaskApp.get_href e = Some link /\ link <> EmptyString.

(** The destination a wrapper link carries, in the words of the
    specification: the percent-encoded text of its [uddg] parameter,
    decoded. *)
Definition decoded_destination (link : string) : string :=
  Urllib.unquote (before_char "&" (before_char "#" (after "uddg=" link))).

(** The page holds one of the block phrases, whatever the case of its
    letters. *)
Definition holds_block_phrase (html : string) : bool :=
  existsb (fun b => str_in (lower b) (lower html)) FlaskApp.blocks.

(** No entry of the cache holds an empty list. *)
Definition cache_nonempty (st : FlaskApp.State) : Prop :=
  forall q results ts,
    FlaskApp.CACHE st !! q = Some (results, ts) -> results <> [].

(** A client-error status. *)
Definition client_error (status : nat) : bool :=
  (400 <=? status)%nat && (status <? 500)%nat.

(** The four components of the profile are present and lie in [-1, 1]. *)
Definition profile_in_range (profile : gmap string Q) : Prop :=
  forall key, In key ["valence"; "arousal"; "engagement"; "regulation"] ->
              exists v, profile !! key = Some v /\ (- (1) <= v)%Q /\ (v <= 1)%Q.

(** Scores as [calculate_psychological_scores] leaves them: the valences
    are not negative, the regulation baseline lies in [0, 1]. *)
Definition scores_in_range (s : Emotion.Scores) : Prop :=
  (0 <= Emotion.positive_valence s)%Q /\ (0 <= Emotion.negative_valence s)%Q /\
  (0 <= Emotion.neutral_regulation s)%Q /\ (Emotion.neutral_regulation s <= 1)%Q.

(** The neutral fallback record of the specification. *)
Definition neutral_fallback (c : Emotion.Classification) : Prop :=
  Emotion.primary_state c = "neutral_regulation" /\
  Emotion.confidence c = 1.0%Q /\
  Emotion.tool c = "web_search" /\
  Emotion.error c <> None.

(** An internal step fails: the model cannot be loaded (a module or both
    models are missing, when loading is attempted), or the prediction of
    the model in use raises on the text. *)
Definition loading_fails (env : Emotion.Env) (st : Emotion.State) : Prop :=
  Emotion._model_loaded st = false /\
  (Emotion.TORCH_AVAILABLE env = false \/
   Emotion.transformers_available env = false \/
   (Emotion.emotion_model env = None /\ Emotion.alternative_model env = None)).

Definition prediction_fails (env : Emotion.Env) (st : Emotion.State) (text : string)
  : Prop :=
  Emotion.TORCH_AVAILABLE env = true /\
  exists predict e, Emotion._distilbert_model st = Some predict /\
                    predict text = Raise e.

(** The title and url conditions of the specification, for any item; the
    minimum length is the 5 of [len(title) < 5] and the scheme test is
    [startswith('http')], as the HTTP extractors have them. *)
Definition title_and_url_ok (r : SearchResult) : Prop :=
  strip (title r) <> EmptyString /\ (5 <= len (title r))%nat /\
  startswith (url r) "http" = true.

End Claims.

(** * Sample pages and sessions *)

Module Samples.

(** A result container of the HTML endpoint. *)
Definition python_div : Bs4.Div :=
  Bs4.mkDiv
    [ Bs4.mkAnchor "https://duckduckgo.com/y.js?ad=1" ["Ad"];
      Bs4.mkAnchor "https://www.python.org/" ["  Welcome to "; "Python.org "] ]
    [ ["Welcome to Python.org"];
      [" The official home of the Python Programming Language, with downloads and docs. "] ].

Definition python_item : SearchResult :=
  mkResult "Welcome toPython.org" "https://www.python.org/"
    (Some "The official home of the Python Programming Language, with downloads and docs.").

Definition python_soup : SearchEngine.Soup :=
  SearchEngine.mkSoup [python_div] [] [] [python_div] [python_div].

(** Every endpoint answers with the same page. *)
Definition python_web (_ : string) : SearchEngine.Endpoint :=
  SearchEngine.mkEndpoint
    (SearchEngine.ResponseOk "<html><div class='result'>...</div></html>" python_soup)
    SearchEngine.ResponseError true.

(** Every request fails. *)
Definition offline_web (_ : string) : SearchEngine.Endpoint :=
  SearchEngine.mkEndpoint SearchEngine.ResponseError SearchEngine.ResponseError true.

(** A browser session whose only container is a navigation link. *)
Definition about_container : FlaskApp.Container :=
  FlaskApp.mkContainer (Return (Some (FlaskApp.mkElement " Hi " (Some "/about"))))
                       (Return None).

Definition about_item : SearchResult := mkResult "Hi" "/about" None.

Definition about_session : FlaskApp.Session :=
  FlaskApp.Loaded "<html><body><div class='result'>...</div></body></html>"
                  [about_container].

(** Five result containers on one page. *)
Definition result_div (n : string) : Bs4.Div :=
  Bs4.mkDiv [Bs4.mkAnchor ("https://example.org/page" +:+ n) ["Result page " +:+ n]] [].

Definition result_item (n : string) : SearchResult :=
  mkResult ("Result page " +:+ n) ("https://example.org/page" +:+ n) (Some "").

Definition five_divs : list Bs4.Div :=
  [result_div "1"; result_div "2"; result_div "3"; result_div "4"; result_div "5"].

Definition five_web (_ : string) : SearchEngine.Endpoint :=
  SearchEngine.mkEndpoint
    (SearchEngine.ResponseOk "<html>five results</html>"
       (SearchEngine.mkSoup five_divs [] [] five_divs five_divs))
    SearchEngine.ResponseError true.

Definition five_simple_web (_ : string) : SimpleDdg.Response :=
  SimpleDdg.ResponseOk "<html>five results</html>"
    (SimpleDdg.mkSoup five_divs [] [] five_divs) true.

Definition five_ddg_web (_ : string) : DdgScraper.Response :=
  DdgScraper.ResponseOk "<html>five results</html>"
    (DdgScraper.mkSoup
       (fun selector =>
          if String.eqb selector ".result"
          then List.map (fun n => DdgScraper.Box
                                    (Some (["Result page " +:+ n],
                                           Some ("https://example.org/page" +:+ n)))
                                    None)
                        ["1"; "2"; "3"; "4"; "5"]
          else [])
       [])
    true.

(** The connection fails. *)
Definition ddg_offline (_ : string) : DdgScraper.Response := DdgScraper.ResponseError.

(** A result whose destination holds percent escapes of its own. *)
Definition cpp_link : string :=
  "//duckduckgo.com/l/?uddg=https%3A%2F%2Fen.wikipedia.org%2Fwiki%2FC%252B%252B&rut=0a1b2c".

Definition cpp_session : FlaskApp.Session :=
  FlaskApp.Loaded "<html><body><div class='result'>...</div></body></html>"
    [FlaskApp.mkContainer
       (Return (Some (FlaskApp.mkElement "C++ - Wikipedia" (Some cpp_link))))
       (Return None)].

(** The same destination behind a redirect of another host. *)
Definition cpp_div : Bs4.Div :=
  Bs4.mkDiv
    [Bs4.mkAnchor "https://r.example.net/l/?uddg=https%3A%2F%2Fen.wikipedia.org%2Fwiki%2FC%252B%252B"
                  ["C++ - Wikipedia"]]
    [].

(** The same destination as [ddg_scraper.py] meets it. *)
Definition cpp_box : DdgScraper.Element :=
  DdgScraper.Box
    (Some (["C++ - Wikipedia"],
           Some "/l/?uddg=https%3A%2F%2Fen.wikipedia.org%2Fwiki%2FC%252B%252B&rut=0a1b2c"))
    None.

(** A block page and a result container found on it. *)
Definition captcha_html : string :=
  "<html><body><h1>Please complete the CAPTCHA to continue</h1></body></html>".

Definition captcha_session : FlaskApp.Session :=
  FlaskApp.Loaded captcha_html
    [FlaskApp.mkContainer
       (Return (Some (FlaskApp.mkElement "Why am I seeing this?"
                                         (Some "https://duckduckgo.com/help"))))
       (Return None)].

(** The first fetch of the process cannot load the page, the second one
    finds a result. *)
Definition flaky_world (n : nat) (_ : string) : FlaskApp.Session :=
  match n with
  | O => FlaskApp.GotoFailed
  | S _ => FlaskApp.Loaded "<html><body><div class='result'>...</div></body></html>"
             [FlaskApp.mkContainer
                (Return (Some (FlaskApp.mkElement "Welcome to Python.org"
                                                  (Some "https://www.python.org/"))))
                (Return (Some "The official home of the Python Programming Language"))]
  end.

Definition python_org : SearchResult :=
  mkResult "Welcome to Python.org" "https://www.python.org/"
           (Some "The official home of the Python Programming Language").

(** Every fetch finds the same result. *)
Definition steady_world (_ : nat) (q : string) : FlaskApp.Session := flaky_world 1 q.

(** The page for [python] has a result, any other page has no container. *)
Definition query_world (n : nat) (q : string) : FlaskApp.Session :=
  if String.eqb q "python" then flaky_world 1 q
  else FlaskApp.Loaded "<html><body>No results.</body></html>" [].

(** A scraper for [index.py]: [search_engine.py] on the five-result page. *)
Definition five_scraper : option (string -> Z -> outcome (list SearchResult)) :=
  Some (SearchEngine.scrape_ddg_html five_web).

Definition fresh_index : IndexApp.State := IndexApp.mkState 0 0 0 [].

(** An installation without [torch], a classifier that has not loaded
yet, and a text in which no pattern matches. *)
Definition bare_env : Emotion.Env := Emotion.mkEnv false false None None.

(** An installation whose model loads and whose prediction raises. *)
Definition raising_env : Emotion.Env :=
  Emotion.mkEnv true true (Some (fun _ => Raise (ValueError "prediction failed"))) None.

Definition cold : Emotion.State := Emotion.mkState false None.

Definition no_matches (_ : string) (_ : bool) (_ : string) : list string := [].

End Samples.

(** * The rest of the service *)

(** ** api_server.py *)

Module ApiServer.
Import PyStr.

Inductive Body : Type :=
| ErrorBody (error : string)
| ListBody (results : list SearchResult).

Record HttpResponse : Type := mkResponse {
  status : nat;
  body : Body
}.

(** [search()]: [q] is [request.args.get('q', '')]; the scraper is the one
    of [simple_ddg_scraper.py]. *)
Definition search (web : string -> SimpleDdg.Response) (q : string) : HttpResponse :=
  let query := strip q in
  if negb (nonempty query) then mkResponse 400 (ErrorBody "Missing query parameter")
  else
    match SimpleDdg.scrape_ddg_html web query 10 with
    | Return results => mkResponse 200 (ListBody results)
    | Raise e => mkResponse 500 (ErrorBody (exc_str e))
    end.

End ApiServer.

(** ** index.py: health, classification and code execution *)

Module IndexHealth.

(** [get_system_health()['status']]: the two flags say whether the names
    [scrape_ddg_html] and [classify_query] were imported. *)
Definition health_status (search_engine emotion_classifier : bool)
           (st : IndexApp.State) : string :=
  if negb search_engine || negb emotion_classifier then "degraded"
  else if (10 <? IndexApp.errors st)%nat then "unhealthy"
  else "healthy".

(** The status code of [health_check()]. *)
Definition health_check (search_engine emotion_classifier : bool)
           (st : IndexApp.State) : nat :=
  if String.eqb (health_status search_engine emotion_classifier st) "healthy"
  then 200 else 503.

(** The search requests of a session, served one after the other; the
    responses are returned first to last. *)
Fixpoint serve (scrape : option (string -> Z -> outcome (list SearchResult)))
         (qs : list string) (st : IndexApp.State)
  : list IndexApp.HttpResponse * IndexApp.State :=
  match qs with
  | [] => ([], st)
  | q :: rest =>
      let '(r, st1) := IndexApp.search scrape q st in
      let '(rs, st2) := serve scrape rest st1 in
      (r :: rs, st2)
  end.

End IndexHealth.

Module IndexExecute.
Import PyStr.

Definition dangerous_patterns : list string :=
  [ "import os"; "import subprocess"; "import sys";
    "__import__"; "eval("; "exec("; "compile(";
    "open("; "file("; "input("; "raw_input(";
    "socket"; "urllib"; "requests"; "http";
    "rm -rf"; "sudo"; "chmod"; "chown" ].

(** An entry of the temporary directory after the run: its name, whether
    it is a regular file, and what reading it gives. *)
Record DirEntry : Type := mkEntry {
  filename : string;
  isfile : bool;
  content : outcome string
}.

(** What happens to the script: writing or spawning fails, the process
    exceeds the 30 seconds, or it ends. *)
Inductive Run : Type :=
| Failed (e : Exception)
| TimedOut
| Completed (stdout stderr : string) (returncode : Z) (listing : list DirEntry).

Inductive Body : Type :=
| ErrorBody (error details : string)
| OutputBody (output error : string) (files : list (string * string))
             (success : bool) (return_code : Z).

Record HttpResponse : Type := mkResponse {
  status : nat;
  body : Body
}.

(** The loop over [os.listdir(temp_dir)]. *)
Definition collect_files (listing : list DirEntry) : list (string * string) :=
  List.flat_map
    (fun entry =>
       if startswith (filename entry) "script_" && endswith (filename entry) ".py"
       then []
       else if isfile entry
       then [(filename entry,
              match content entry with
              | Return text => text
              | Raise e => "<Error reading file: " +:+ exc_str e +:+ ">"
              end)]
       else [])
    listing.

(** [execute_python()]: [code] is the [code] field of the JSON body ([''] when
    there is none); [sandbox] is what running a script does.  The second
    component is the script that was run, if any. *)
Definition execute_python (sandbox : string -> Run) (code : string)
  : HttpResponse * option string :=
  if negb (nonempty code)
  then (mkResponse 400 (ErrorBody "Missing code parameter" EmptyString), None)
  else
    match List.find (fun pattern => str_in pattern (lower code)) dangerous_patterns with
    | Some pattern =>
        (mkResponse 403 (ErrorBody "Security violation"
                                   ("Dangerous pattern detected: " +:+ pattern)), None)
    | None =>
        (match sandbox code with
         | Failed e => mkResponse 500 (ErrorBody "Execution failed" (exc_str e))
         | TimedOut =>
             mkResponse 408 (ErrorBody "Execution timeout"
                                       "Code execution exceeded 30 second limit")
         | Completed stdout stderr returncode listing =>
             mkResponse 200 (OutputBody stdout stderr (collect_files listing)
                                        (returncode =? 0)%Z returncode)
         end, Some code)
    end.

End IndexExecute.

Module IndexClassify.
Import PyStr.

Inductive Body : Type :=
| ErrorBody (error : string)
| ResultBody (result : Emotion.Classification) (text_length : nat)
| FailedBody (details : string).

Record HttpResponse : Type := mkResponse {
  status : nat;
  body : Body
}.

(** [classify()]: [text] is [request.args.get('text', '')];
    [classify_query] is the imported name ([None] when the import failed)
    and [est] the state of the classifier module. *)
Definition classify
           (classify_query : option (Emotion.State -> Emotion.PyValue ->
                                     outcome (Emotion.Classification * Emotion.State)))
           (text : string) (st : IndexApp.State) (est : Emotion.State)
  : HttpResponse * IndexApp.State * Emotion.State :=
  let text := strip text in
  if negb (nonempty text)
  then (mkResponse 400 (ErrorBody "Missing text parameter"),
        IndexApp.update_system_stats "error" st, est)
  else
    match classify_query with
    | None => (mkResponse 503 (ErrorBody "Emotion classifier unavailable"),
               IndexApp.update_system_stats "error" st, est)
    | Some classify_query =>
        match classify_query est (Emotion.PyStr text) with
        | Return (result, est1) =>
            (mkResponse 200 (ResultBody result (len text)),
             IndexApp.update_system_stats "classify" st, est1)
        | Raise e =>
            (mkResponse 500 (FailedBody (exc_str e)),
             IndexApp.update_system_stats "error" st, est)
        end
    end.

End IndexClassify.

(** ** emotion_classifier.py: the signal detectors *)

Module EmotionSignals.
Import PyStr Emotion.
Local Open Scope Q_scope.

(** [string.punctuation]: the ASCII characters that are neither letters,
    digits, blanks nor controls. *)
Definition ispunct (c : ascii) : bool :=
  ((33 <=? code c) && (code c <=? 47))%N || ((58 <=? code c) && (code c <=? 64))%N ||
  ((91 <=? code c) && (code c <=? 96))%N || ((123 <=? code c) && (code c <=? 126))%N.

Fixpoint lstrip_chars (p : ascii -> bool) (s : string) : string :=
  match s with
  | EmptyString => EmptyString
  | String c s' => if p c then lstrip_chars p s' else s
  end.

Fixpoint rstrip_chars (p : ascii -> bool) (s : string) : string :=
  match s with
  | EmptyString => EmptyString
  | String c s' =>
      match rstrip_chars p s' with
      | EmptyString => if p c then EmptyString else String c EmptyString
      | r => String c r
      end
  end.

(** [word.strip(string.punctuation)] *)
Definition strip_punctuation (word : string) : string :=
  rstrip_chars ispunct (lstrip_chars ispunct word).

(** [len([c for c in text if c in string.punctuation])] *)
Fixpoint count_punctuation (text : string) : nat :=
  match text with
  | EmptyString => 0
  | String c r => if ispunct c then S (count_punctuation r) else count_punctuation r
  end.

Record Complexity : Type := mkComplexity {
  word_count : nat;
  sentence_count : nat;
  avg_word_length : Q;
  punctuation_density : Q
}.

(** [analyze_text_complexity(text)] *)
Definition analyze_text_complexity (text : string) : Complexity :=
  let words := split text in
  let sentences := split_char "." text in
  mkComplexity
    (length words)
    (length (List.filter (fun s => nonempty (strip s)) sentences))
    (match words with
     | [] => 0
     | _ => Qnat (list_sum (List.map (fun word => len (strip_punctuation word)) words))
            / Qnat (length words)
     end)
    (if nonempty text then Qnat (count_punctuation text) / Qnat (len text) else 0).

(** An entry of [EMOJI_DECODER]. *)
Record EmojiEntry : Type := mkEmoji {
  emoji : string;
  emoji_emotion : string;
  confidence_boost : Q;
  description : string
}.

(** The dictionary in the order of its keys.  The literal of the source
    writes the key of the fourth entry twice; the dictionary keeps the
    later value at the place of the first. *)
Definition EMOJI_DECODER : list EmojiEntry :=
  [ mkEmoji "ðŸ˜‚" "joy" 2.0 "laughing tears";
    mkEmoji "ðŸ¤£" "joy" 2.0 "rolling laughter";
    mkEmoji "ðŸ˜Š" "joy" 1.5 "smiling eyes";
    mkEmoji "ðŸ˜" "love" 1.8 "heart eyes";
    mkEmoji "ðŸ˜„" "joy" 1.5 "grinning face";
    mkEmoji "ðŸ˜ƒ" "joy" 1.3 "big smile";
    mkEmoji "ðŸ˜€" "joy" 1.2 "grinning";
    mkEmoji "ðŸ™‚" "joy" 1.1 "slight smile";
    mkEmoji "ðŸ˜¢" "sadness" 2.0 "crying";
    mkEmoji "ðŸ˜­" "sadness" 2.0 "loud crying";
    mkEmoji "ðŸ˜”" "sadness" 1.5 "pensive";
    mkEmoji "ðŸ˜ž" "sadness" 1.5 "disappointed";
    mkEmoji "ðŸ˜¡" "anger" 2.0 "pouting angry";
    mkEmoji "ðŸ˜¤" "anger" 1.8 "huffing angry";
    mkEmoji "ðŸ¤¬" "anger" 2.0 "cursing";
    mkEmoji "ðŸ˜²" "surprise" 1.5 "astonished";
    mkEmoji "ðŸ˜®" "surprise" 1.3 "open mouth";
    mkEmoji "ðŸ˜¯" "surprise" 1.2 "hushed";
    mkEmoji "â¤ï¸" "love" 2.0 "red heart";
    mkEmoji "ðŸ¥°" "love" 1.6 "smiling hearts";
    mkEmoji "ðŸ˜˜" "love" 1.4 "blowing kiss" ].

(** An element of [emojis_found]. *)
Record FoundEmoji : Type := mkFound {
  found_emoji : string;
  found_emotion : string;
  found_count : nat;
  found_boost : Q
}.

Record EmojiAnalysis : Type := mkEmojiAnalysis {
  emojis_found : list FoundEmoji;
  dominant_emoji_emotion : option string;
  dominant_boost : Q;
  emoji_total_confidence_boost : Q;
  has_strong_positive_signals : bool
}.

(** One turn of the loop of [detect_emojis]; the accumulator holds
    [found_emojis], [dominant_emotion], [highest_boost] and
    [total_confidence_boost]. *)
Definition detect_step (text : string)
           (acc : list FoundEmoji * option string * Q * Q) (entry : EmojiEntry)
  : list FoundEmoji * option string * Q * Q :=
  let '(found, dominant, highest, total) := acc in
  if str_in (emoji entry) text then
    let n := count text (emoji entry) in
    let boost := confidence_boost entry * (1 + 0.2 * (Qnat n - 1)) in
    let found := (found ++ [mkFound (emoji entry) (emoji_emotion entry) n boost])%list in
    if Qltb highest boost
    then (found, Some (emoji_emotion entry), boost, total * boost)
    else (found, dominant, highest, total * boost)
  else acc.

(** [detect_emojis(text)] over a decoder table. *)
Definition detect_emojis_in (decoder : list EmojiEntry) (text : string) : EmojiAnalysis :=
  let '(found, dominant, highest, total) :=
    fold_left (detect_step text) decoder ([], None, 0, 1.0) in
  mkEmojiAnalysis found dominant highest total
    ((0 <? length found)%nat &&
     existsb (fun f => String.eqb (found_emotion f) "joy" ||
                       String.eqb (found_emotion f) "love") found).

(** [detect_emojis(text)] *)
Definition detect_emojis (text : string) : EmojiAnalysis :=
  detect_emojis_in EMOJI_DECODER text.

(** The first code point of a match: [match.group(1)] for a pattern that
    starts with its one-character group. *)
Fixpoint continuation (s : string) : string :=
  match s with
  | String c r => if ((128 <=? code c) && (code c <? 192))%N
                  then String c (continuation r) else EmptyString
  | EmptyString => EmptyString
  end.

Definition first_char (s : string) : string :=
  match s with
  | String c r => String c (continuation r)
  | EmptyString => EmptyString
  end.

(** An element of [repeated_patterns]. *)
Record Repetition : Type := mkRepetition {
  pattern : string;
  letter : string;
  repetition_count : nat;
  emotion_guess : string;
  repetition_boost : Q
}.

Record RepeatedLetters : Type := mkRepeated {
  repeated_patterns : list Repetition;
  repeated_total_confidence_boost : Q;
  has_emphasis : bool
}.

Definition one_of (letters : list string) (s : string) : bool :=
  existsb (String.eqb s) letters.

(** The body of the loop of [detect_repeated_letters] for one match. *)
Definition repetition_of (m : string) : Repetition :=
  let letter := first_char m in
  let repetition_count := len m in
  let '(emotion_guess, boost) :=
    if one_of ["l"; "o"] (lower letter) && (4 <=? repetition_count)%nat
    then ("joy", 1.5)
    else if one_of ["a"; "e"; "i"; "u"] (lower letter) && (3 <=? repetition_count)%nat
    then ("excitement", 1.4)
    else if String.eqb (lower letter) "s" && (3 <=? repetition_count)%nat
    then ("excitement", 1.3)
    else ("excitement", 1.3) in
  mkRepetition m letter repetition_count emotion_guess boost.

(** A detected pattern: its type, its reading and its multiplier. *)
Record Pattern : Type := mkPattern {
  pattern_type : string;
  psychology : string;
  confidence_multiplier : Q
}.

(** The regular-expression entries of [PSYCHOLOGICAL_PATTERNS]: type,
    pattern, reading, multiplier. *)
Definition punctuation_patterns : list (string * string * string * Q) :=
  [ ("multiple_exclamation", "!{2,}",
     "High arousal, excitement, or emotional intensity", 1.3);
    ("multiple_question", "\?{2,}",
     "Confusion, urgency, or emotional overwhelm", 1.2);
    ("ellipsis", "\.{3,}",
     "Uncertainty, sadness, hesitation, or thoughtfulness", 1.1);
    ("no_punctuation", "[^.!?]$",
     "Casual communication, incomplete thoughts, or emotional flatness", 0.95) ].

Definition capitalization_patterns : list (string * string * string * Q) :=
  [ ("all_caps_words", "\b[A-Z]{2,}\b",
     "Emphasis, shouting, strong emotional emphasis", 1.4);
    ("mixed_case", "[a-z]+[A-Z]+",
     "Casual, playful, or attention-seeking", 1.1) ].

Definition repetitive_patterns : list (string * string * string * Q) :=
  [ ("word_repetition", "\b(\w+)\s+\1\b",
     "Emphasis, emotional intensity, or cognitive fixation", 1.2);
    ("letter_repetition", "(.)\1{2,}",
     "Emotional emphasis, excitement, or childlike expression", 1.3) ].

Definition very_short : Pattern :=
  mkPattern "very_short_message"
    "Possible depression (low energy), busyness (time pressure), or emotional shutdown" 0.8.

Definition short : Pattern :=
  mkPattern "short_message"
    "Efficiency focus, mild emotional restraint, or contextual communication" 0.9.

(** The result of [detect_psychological_patterns];
    [has_positive_signals] is the truth value of the entry, which holds the
    result of [re.search] when the two flags before it are false. *)
Record PatternAnalysis : Type := mkPatternAnalysis {
  patterns : list Pattern;
  pattern_total_confidence_boost : Q;
  psychological_insights : list string;
  has_positive_signals : bool
}.

Section Detectors.
(** [re.finditer(pattern, text, re.IGNORECASE if ignorecase else 0)]:
    [group(0)] of every match; [re.search] succeeds when there is one. *)
Variable finditer : string -> bool -> string -> list string.

(** [detect_repeated_letters(text)] *)
Definition detect_repeated_letters (text : string) : RepeatedLetters :=
  let repeated := List.map repetition_of (finditer "(\w)\1{2,}" true text) in
  mkRepeated repeated
    (fold_left Qmult (List.map repetition_boost repeated) 1.0)
    (0 <? length repeated)%nat.

Definition matches (pattern : string) (ignorecase : bool) (text : string) : bool :=
  match finditer pattern ignorecase text with
  | [] => false
  | _ => true
  end.

(** The entries of one table that match, in the order of the table;
    [skip] names the types that are passed over. *)
Definition matching (table : list (string * string * string * Q)) (ignorecase : bool)
           (skip : string -> bool) (text : string) : list Pattern :=
  List.flat_map
    (fun entry =>
       let '(name, pat, reading, multiplier) := entry in
       if skip name then []
       else if matches pat ignorecase text then [mkPattern name reading multiplier]
       else [])
    table.

(** [detect_psychological_patterns(text, emoji_analysis, repeated_letters)] *)
Definition detect_psychological_patterns (text : string)
           (emoji_analysis : EmojiAnalysis) (repeated_letters : RepeatedLetters)
  : PatternAnalysis :=
  let has_positive_signals :=
    has_strong_positive_signals emoji_analysis || has_emphasis repeated_letters ||
    matches "!{1,}" false text in
  let text_len := length (split text) in
  let by_length :=
    if has_positive_signals then []
    else if (text_len <=? 10)%nat then [very_short]
    else if (text_len <=? 25)%nat then [short]
    else [] in
  let patterns_found :=
    (by_length
     ++ matching punctuation_patterns false
          (fun name => String.eqb name "no_punctuation" && has_positive_signals) text
     ++ matching capitalization_patterns true (fun _ => false) text
     ++ matching repetitive_patterns true (fun _ => false) text)%list in
  mkPatternAnalysis patterns_found
    (fold_left Qmult (List.map confidence_multiplier patterns_found) 1.0)
    (List.map psychology patterns_found)
    has_positive_signals.
End Detectors.

End EmotionSignals.

(** ** flask_app.py: the shared browser and the search URL *)

Module FlaskPool.

(** [_BROWSER] (the number of the launch it comes from), whether
    [_PLAYWRIGHT] holds a started driver, and how often the driver was
    started and a browser launched. *)
Record Pool : Type := mkPool {
  _BROWSER : option nat;
  _PLAYWRIGHT : bool;
  starts : nat;
  launches : nat
}.

Definition empty_pool : Pool := mkPool None false 0 0.

(** What one call observes: [is_connected] answers for a launched browser
    at the time of the call, [start_ok] and [launch_ok] say whether
    [sync_playwright().start()] and [chromium.launch] succeed. *)
Record Call : Type := mkCall {
  is_connected : nat -> bool;
  start_ok : bool;
  launch_ok : bool
}.

(** The body of the [if] of [get_browser()]: the driver is started when
    there is none, then a browser is launched. *)
Definition launch (call : Call) (p : Pool) : outcome nat * Pool :=
  if negb (_PLAYWRIGHT p) && negb (start_ok call) then (Raise PlaywrightError, p)
  else
    let p1 := if _PLAYWRIGHT p then p
              else mkPool (_BROWSER p) true (S (starts p)) (launches p) in
    if launch_ok call
    then (Return (S (launches p1)),
          mkPool (Some (S (launches p1))) true (starts p1) (S (launches p1)))
    else (Raise PlaywrightError, p1).

(** [get_browser()] *)
Definition get_browser (call : Call) (p : Pool) : outcome nat * Pool :=
  match _BROWSER p with
  | None => launch call p
  | Some b => if is_connected call b then (Return b, p) else launch call p
  end.

(** A sequence of [get_browser()] calls, each with what it observes. *)
Fixpoint get_browsers (calls : list Call) (p : Pool) : Pool :=
  match calls with
  | [] => p
  | call :: rest => get_browsers rest (snd (get_browser call p))
  end.

End FlaskPool.

(** * Further predicates and samples *)

Module Facts.
Import PyStr.

(** The text names [word] in some letter case. *)
Definition names (word text : string) : Prop :=
  exists w, str_in w text = true /\ lower w = word.

(** A page that trips the bot check of [search_engine.py]. *)
Definition bot_page (text : string) : Prop :=
  names "bot" text /\ (names "challenge" text \/ names "anomaly" text).

(** An endpoint that answers with a bot page, and to the retry with a bot
    page or an error. *)
Definition challenged (ep : SearchEngine.Endpoint) : Prop :=
  exists t1 s1, SearchEngine.first_get ep = SearchEngine.ResponseOk t1 s1 /\
                bot_page t1 /\
                (SearchEngine.second_get ep = SearchEngine.ResponseError \/
                 exists t2 s2, SearchEngine.second_get ep = SearchEngine.ResponseOk t2 s2 /\
                               bot_page t2).

(** The [href] the loop of [_ddg_requests_search] reads from an element,
    when it reads one. *)
Definition link_of (d : DdgScraper.Element) : option string :=
  match d with
  | DdgScraper.A _ h => h
  | DdgScraper.Box (Some (_, Some h)) _ => Some h
  | DdgScraper.Box (Some (_, None)) _ => Some EmptyString
  | DdgScraper.Box None _ => None
  end.

(** The states [determine_psychological_state] names and the tools of
    [determine_tool_from_psychology]. *)
Definition states : list string :=
  ["high_positive_arousal"; "positive_valence"; "high_negative_arousal";
   "negative_valence"; "high_intensity_state"; "high_engagement";
   "low_engagement_shutdown"; "brief_communication"; "neutral_regulation";
   "mixed_valence"].

Definition tools : list string := ["music"; "meditation"; "web_search"; "journal"].

(** An entry of a decoder table with a non-empty key and a positive boost,
    as every entry of [EMOJI_DECODER] is. *)
Definition decoder_entry (e : EmotionSignals.EmojiEntry) : Prop :=
  EmotionSignals.emoji e <> EmptyString /\ (0 < EmotionSignals.confidence_boost e)%Q.

(** What the loop of [detect_emojis] keeps between two turns: every emoji
    found occurs in the text, its boost is positive and at most the
    highest so far; a dominant emotion is named as soon as one is found. *)
Definition emoji_loop (text : string)
           (acc : list EmotionSignals.FoundEmoji * option string * Q * Q) : Prop :=
  let '(found, dominant, highest, total) := acc in
  (forall f, In f found ->
             (EmotionSignals.found_boost f <= highest)%Q /\
             (0 < EmotionSignals.found_boost f)%Q /\
             (1 <= EmotionSignals.found_count f)%nat /\
             str_in (EmotionSignals.found_emoji f) text = true) /\
  (dominant = None <-> found = []) /\
  (0 <= highest)%Q /\
  (found = [] -> highest = 0%Q /\ total = 1.0%Q).

End Facts.

Module MoreSamples.

(** A results page about robot challenges: a genuine page that names both
    words. *)
Definition robot_web (_ : string) : SearchEngine.Endpoint :=
  SearchEngine.mkEndpoint
    (SearchEngine.ResponseOk "<html>Robot Challenge 2024 - results</html>"
       (SearchEngine.mkSoup Samples.five_divs [] [] Samples.five_divs Samples.five_divs))
    (SearchEngine.ResponseOk "<html>Robot Challenge 2024 - results</html>"
       (SearchEngine.mkSoup Samples.five_divs [] [] Samples.five_divs Samples.five_divs))
    true.

(** The five-result page on a host where [ddg_debug.html] cannot be
    written. *)
Definition readonly_web (_ : string) : SearchEngine.Endpoint :=
  SearchEngine.mkEndpoint
    (SearchEngine.ResponseOk "<html>five results</html>"
       (SearchEngine.mkSoup Samples.five_divs [] [] Samples.five_divs Samples.five_divs))
    SearchEngine.ResponseError false.

Definition readonly_simple_web (_ : string) : SimpleDdg.Response :=
  SimpleDdg.ResponseOk "<html>five results</html>"
    (SimpleDdg.mkSoup Samples.five_divs [] [] Samples.five_divs) false.

Definition readonly_ddg_web (_ : string) : DdgScraper.Response :=
  DdgScraper.ResponseOk "<html>five results</html>"
    (DdgScraper.mkSoup (fun _ => []) []) false.

(** A container whose title cannot be read. *)
Definition broken_container : FlaskApp.Container :=
  FlaskApp.mkContainer (Raise PlaywrightError) (Return None).

Definition good_container : FlaskApp.Container :=
  FlaskApp.mkContainer
    (Return (Some (FlaskApp.mkElement "Welcome to Python.org"
                                      (Some "https://www.python.org/"))))
    (Return None).

(** Elements of a selection: a result and a navigation link. *)
Definition result_box (n : string) : DdgScraper.Element :=
  DdgScraper.Box (Some (["Result page " +:+ n], Some ("https://example.org/page" +:+ n)))
                 None.

Definition nav_box : DdgScraper.Element :=
  DdgScraper.Box (Some (["About this search engine"], Some "/about")) None.

(** A page on which no selector matches; it has a result link and a link
    into the engine. *)
Definition link_item : SearchResult :=
  mkResult "An introduction to Python" "https://example.org/intro" (Some EmptyString).

Definition links_web (_ : string) : DdgScraper.Response :=
  DdgScraper.ResponseOk "<html>links only</html>"
    (DdgScraper.mkSoup
       (fun _ => [])
       [ Bs4.mkAnchor "https://duckduckgo.com/settings" ["Search settings of the engine"];
         Bs4.mkAnchor "https://example.org/intro" ["  An introduction to Python "];
         Bs4.mkAnchor "https://example.org/privacy" ["Our Privacy statement"] ])
    true.

(** U+00A0, the no-break space, and a text that writes [socket] with
    U+212A, the Kelvin sign. *)
Definition no_break_space : string :=
  String (ascii_of_N 194) (String (ascii_of_N 160) EmptyString).

Definition kelvin_socket : string :=
  "soc" +:+ String (ascii_of_N 226) (String (ascii_of_N 132) (String (ascii_of_N 170) "et = 1")).

(** A text whose only match is the exclamation mark at its end. *)
Definition exclamation_only (pattern : string) (_ : bool) (_ : string) : list string :=
  if String.eqb pattern "!{1,}" then ["!"] else [].

End MoreSamples.

(** * Properties *)

(** ** Trimmed strings *)

Section Trimmed.
Import PyStr.

Lemma lstrip_length s : (String.length (lstrip_ascii s) <= String.length s)%nat.
Proof. induction s as [|c s IH]; simpl; [lia|]. destruct (isspace c); simpl; lia. Qed.

Lemma rstrip_length s : (String.length (rstrip_ascii s) <= String.length s)%nat.
Proof.
  induction s as [|c s IH]; simpl; [lia|].
  destruct (rstrip_ascii s); [destruct (isspace c)|]; simpl in *; lia.
Qed.

Lemma lstrip_head c s : isspace c = false -> lstrip_ascii (String c s) = String c s.
Proof. intros H. simpl. now rewrite H. Qed.

(** A string that [lstrip_ascii] leaves alone is empty or starts with a
    character that is not whitespace. *)
Lemma lstrip_fixed c s : lstrip_ascii (String c s) = String c s -> isspace c = false.
Proof.
  simpl. destruct (isspace c); [|reflexivity]. intros H.
  pose proof (lstrip_length s) as L. rewrite H in L. simpl in L. lia.
Qed.

Lemma rstrip_idem s : rstrip_ascii (rstrip_ascii s) = rstrip_ascii s.
Proof.
  induction s as [|c s IH]; simpl; [reflexivity|].
  destruct (rstrip_ascii s) as [|d r] eqn:E.
  - destruct (isspace c) eqn:Hc; simpl; [reflexivity|]. now rewrite Hc.
  - simpl in *. now rewrite IH.
Qed.

(** [rstrip_ascii] keeps the first character whenever it keeps anything. *)
Lemma rstrip_cons c s :
  rstrip_ascii (String c s) = EmptyString \/ exists r, rstrip_ascii (String c s) = String c r.
Proof.
  simpl. destruct (rstrip_ascii s); [destruct (isspace c)|]; eauto.
Qed.

Lemma strip_idem s : strip_ascii (strip_ascii s) = strip_ascii s.
Proof.
  unfold strip_ascii.
  assert (H : lstrip_ascii (rstrip_ascii (lstrip_ascii s)) = rstrip_ascii (lstrip_ascii s)).
  { destruct (lstrip_ascii s) as [|c t] eqn:E; [reflexivity|].
    assert (Hc : isspace c = false).
    { apply (lstrip_fixed c t). rewrite <- E.
      clear. induction s as [|d s IH]; simpl; [reflexivity|].
      destruct (isspace d) eqn:Hd; [exact IH|]. simpl. now rewrite Hd. }
    destruct (rstrip_cons c t) as [H|[r H]]; rewrite H; [reflexivity|].
    now apply lstrip_head. }
  rewrite H. apply rstrip_idem.
Qed.

Lemma strip_fixed_l s : strip_ascii s = s -> lstrip_ascii s = s.
Proof.
  unfold strip_ascii. intros H.
  destruct s as [|c s]; [reflexivity|].
  assert (L : (String.length (lstrip_ascii (String c s)) = String.length (String c s))%nat).
  { pose proof (rstrip_length (lstrip_ascii (String c s))) as R. rewrite H in R.
    pose proof (lstrip_length (String c s)). lia. }
  simpl in *. destruct (isspace c); [|reflexivity].
  pose proof (lstrip_length s). lia.
Qed.

Lemma strip_fixed_r s : strip_ascii s = s -> rstrip_ascii s = s.
Proof. intros H. pose proof (strip_fixed_l s H) as L. unfold strip_ascii in H. now rewrite L in H. Qed.

Lemma rstrip_app a b :
  rstrip_ascii b <> EmptyString -> rstrip_ascii (a +:+ b) = a +:+ rstrip_ascii b.
Proof.
  intros Hb. induction a as [|c a IH]; simpl; [reflexivity|].
  change (String.append a b) with (a +:+ b). rewrite IH.
  change (String c a +:+ rstrip_ascii b) with (String c (a +:+ rstrip_ascii b)).
  destruct (a +:+ rstrip_ascii b) eqn:E; [|reflexivity].
  destruct a; simpl in E; [contradiction|discriminate].
Qed.

(** Two trimmed, non-empty strings stay trimmed when appended. *)
Lemma strip_app a b :
  strip_ascii a = a -> a <> EmptyString -> strip_ascii b = b -> b <> EmptyString ->
  strip_ascii (a +:+ b) = a +:+ b.
Proof.
  intros Ha Na Hb Nb. unfold strip_ascii.
  destruct a as [|c a]; [contradiction|].
  pose proof (lstrip_fixed c a (strip_fixed_l _ Ha)) as Hc.
  change (String c a +:+ b) with (String c (a +:+ b)).
  rewrite lstrip_head by exact Hc.
  change (String c (a +:+ b)) with (String c a +:+ b).
  rewrite rstrip_app; rewrite (strip_fixed_r b Hb); [reflexivity|exact Nb].
Qed.

Lemma nonempty_true s : nonempty s = true <-> s <> EmptyString.
Proof. destruct s; simpl; split; congruence. Qed.

Lemma app_nonempty a b : a <> EmptyString -> a +:+ b <> EmptyString.
Proof. destruct a; simpl; [contradiction|discriminate]. Qed.

(** The concatenation of trimmed, non-empty pieces is trimmed. *)
Lemma strip_concat l :
  Forall (fun p => strip_ascii p = p /\ p <> EmptyString) l ->
  strip_ascii (String.concat "" l) = String.concat "" l /\
  (l <> [] -> String.concat "" l <> EmptyString).
Proof.
  induction 1 as [|p l [Hp Np] Hl [IH1 IH2]]; [split; [reflexivity|congruence]|].
  destruct l as [|p' l]; [simpl; split; [exact Hp|intros _; exact Np]|].
  change (String.concat "" (p :: p' :: l)) with (p +:+ String.concat "" (p' :: l)).
  split; [|intros _; now apply app_nonempty].
  apply strip_app; auto; apply IH2; discriminate.
Qed.

(** What [lstrip] leaves starts with no whitespace of ASCII. *)
Lemma lstrip_head_ascii n : forall s,
  (String.length s <= n)%nat -> lstrip_ascii (lstrip s) = lstrip s.
Proof.
  induction n as [|n IH]; intros s L.
  - destruct s; [reflexivity|simpl in L; lia].
  - destruct s as [|a r]; [reflexivity|]. cbn [lstrip]. simpl in L.
    destruct (isspace a) eqn:Ha; [apply IH; lia|].
    destruct r as [|b r2]; [simpl; now rewrite Ha|]. simpl in L.
    destruct (isspace2 a b); [apply IH; lia|].
    destruct r2 as [|c r3]; [simpl; now rewrite Ha|]. simpl in L.
    destruct (isspace3 a b c); [apply IH; lia|]. simpl. now rewrite Ha.
Qed.

Lemma blank_space c s : isspace c = true -> blank (String c s) = blank s.
Proof. intros H. unfold blank. cbn [lstrip]. now rewrite H. Qed.

Lemma rstrip_empty s : rstrip s = EmptyString -> blank s = true.
Proof.
  destruct s as [|c s]; [reflexivity|]. cbn [rstrip].
  destruct (blank (String c s)); [reflexivity|discriminate].
Qed.

(** What [rstrip] leaves ends with no whitespace of ASCII. *)
Lemma rstrip_tail_ascii s : rstrip_ascii (rstrip s) = rstrip s.
Proof.
  induction s as [|c s IH]; [reflexivity|]. cbn [rstrip].
  destruct (blank (String c s)) eqn:B; [reflexivity|].
  cbn [rstrip_ascii]. rewrite IH.
  destruct (rstrip s) eqn:R; [|reflexivity].
  destruct (isspace c) eqn:Hc; [|reflexivity].
  rewrite (blank_space c s Hc), (rstrip_empty s R) in B. discriminate.
Qed.

(** [rstrip] keeps the first character whenever it keeps anything. *)
Lemma rstrip_first c s :
  rstrip (String c s) = EmptyString \/ exists r, rstrip (String c s) = String c r.
Proof. cbn [rstrip]. destruct (blank (String c s)); eauto. Qed.

(** A stripped text has no whitespace of ASCII at either end. *)
Lemma strip_trimmed s : strip_ascii (strip s) = strip s.
Proof.
  unfold strip, strip_ascii.
  assert (H : lstrip_ascii (rstrip (lstrip s)) = rstrip (lstrip s)).
  { pose proof (lstrip_head_ascii _ s (Nat.le_refl _)) as L.
    destruct (lstrip s) as [|c t]; [reflexivity|].
    assert (Hc : isspace c = false).
    { simpl in L. destruct (isspace c); [|reflexivity].
      pose proof (lstrip_length t) as Len. rewrite L in Len. simpl in Len. lia. }
    destruct (rstrip_first c t) as [H|[r H]]; rewrite H; [reflexivity|].
    now apply lstrip_head. }
  rewrite H. apply rstrip_tail_ascii.
Qed.

Lemma get_text_strip_trimmed nodes :
  strip_ascii (Bs4.get_text_strip nodes) = Bs4.get_text_strip nodes.
Proof.
  unfold Bs4.get_text_strip. apply strip_concat.
  apply Forall_forall. intros p Hp. apply list_elem_of_In in Hp.
  apply filter_In in Hp as [Hin Hne].
  apply in_map_iff in Hin as [x [<- _]]. split; [apply strip_trimmed|].
  now apply nonempty_true.
Qed.
End Trimmed.

(** ** Titles of the browser extractor *)

Section NormalisedTitles.
Import PyStr.

Lemma push_no_space c l :
  isspace c = false -> Forall (fun w => no_space w = true) l ->
  Forall (fun w => no_space w = true) (push c l).
Proof.
  intros Hc F. destruct l as [|w ws]; simpl.
  - repeat constructor. simpl. now rewrite Hc.
  - inversion F as [|? ? Hw Hws]; subst. constructor; [|exact Hws].
    simpl. now rewrite Hc, Hw.
Qed.

(** No piece holds whitespace of ASCII. *)
Lemma pieces_no_space_upto n : forall s,
  (String.length s <= n)%nat -> Forall (fun w => no_space w = true) (pieces s).
Proof.
  induction n as [|n IH]; intros s L.
  - destruct s; [repeat constructor|simpl in L; lia].
  - destruct s as [|a r]; [repeat constructor|]. cbn [pieces]. simpl in L.
    assert (R : Forall (fun w => no_space w = true) (pieces r)) by (apply IH; lia).
    destruct (isspace a) eqn:Ha; [constructor; [reflexivity|exact R]|].
    destruct r as [|b r2]; [now apply push_no_space|]. simpl in L.
    destruct (isspace2 a b); [constructor; [reflexivity|apply IH; lia]|].
    destruct r2 as [|c r3]; [now apply push_no_space|]. simpl in L.
    destruct (isspace3 a b c); [constructor; [reflexivity|apply IH; lia]|].
    now apply push_no_space.
Qed.

Lemma pieces_no_space s : Forall (fun w => no_space w = true) (pieces s).
Proof. apply (pieces_no_space_upto (String.length s)), Nat.le_refl. Qed.

Lemma no_space_strip w : no_space w = true -> strip_ascii w = w.
Proof.
  intros H. unfold strip_ascii.
  assert (L : lstrip_ascii w = w).
  { destruct w as [|c r]; [reflexivity|]. simpl in H.
    apply andb_prop in H as [Hc _]. apply negb_true_iff in Hc. now apply lstrip_head. }
  rewrite L. clear L. induction w as [|c r IH]; [reflexivity|].
  simpl in H. apply andb_prop in H as [Hc Hr]. apply negb_true_iff in Hc.
  simpl. rewrite (IH Hr). destruct r; [now rewrite Hc|reflexivity].
Qed.

Lemma rstrip_keep c s :
  rstrip_ascii s <> EmptyString -> rstrip_ascii (String c s) = String c (rstrip_ascii s).
Proof. intros H. simpl. destruct (rstrip_ascii s); [contradiction|reflexivity]. Qed.

Lemma strip_join l :
  Forall (fun w => strip_ascii w = w /\ w <> EmptyString) l ->
  strip_ascii (join " " l) = join " " l /\ (l <> [] -> join " " l <> EmptyString).
Proof.
  induction 1 as [|w l [Hw Nw] Hl [IH1 IH2]]; [split; [reflexivity|congruence]|].
  destruct l as [|w' l]; [simpl; split; [exact Hw|intros _; exact Nw]|].
  change (join " " (w :: w' :: l)) with (w +:+ " " +:+ join " " (w' :: l)).
  split; [|intros _; now apply app_nonempty].
  assert (NJ : join " " (w' :: l) <> EmptyString) by (apply IH2; discriminate).
  unfold strip_ascii. destruct w as [|c w]; [contradiction|].
  pose proof (lstrip_fixed c w (strip_fixed_l _ Hw)) as Hc.
  change (String c w +:+ " " +:+ join " " (w' :: l))
    with (String c (w +:+ " " +:+ join " " (w' :: l))).
  rewrite lstrip_head by exact Hc.
  change (String c (w +:+ " " +:+ join " " (w' :: l)))
    with (String c w +:+ (" " +:+ join " " (w' :: l))).
  assert (R : rstrip_ascii (" " +:+ join " " (w' :: l)) = " " +:+ join " " (w' :: l)).
  { change (" " +:+ join " " (w' :: l)) with (String " " (join " " (w' :: l))).
    rewrite rstrip_keep; rewrite (strip_fixed_r _ IH1); [reflexivity|exact NJ]. }
  rewrite rstrip_app; rewrite R; [reflexivity|discriminate].
Qed.

(** [' '.join(title.split())] is trimmed. *)
Lemma strip_join_split t : strip_ascii (join " " (split t)) = join " " (split t).
Proof.
  apply strip_join. unfold split.
  apply Forall_forall. intros w Hw. apply list_elem_of_In in Hw.
  apply filter_In in Hw as [Hin Hne].
  pose proof (pieces_no_space t) as F. rewrite Forall_forall in F.
  split; [apply no_space_strip, F, list_elem_of_In, Hin|now apply nonempty_true].
Qed.
End NormalisedTitles.

(** ** C1: what an emitted item looks like *)

Section EmittedItems.
Import PyStr.

(** The item built after a url computation carries the title it was
    given. *)
Lemma bind_item (u : outcome string) t sn r :
  (url ← u; Return (Some (mkResult t url sn))) = Return (Some r) ->
  title r = t /\ u = Return (url r).
Proof. destruct u as [x|e]; simpl; [|discriminate]. intros [= <-]. auto. Qed.

Lemma se_parse_container_item c r :
  SearchEngine.parse_container c = Return (Some r) -> Claims.http_item r.
Proof.
  unfold SearchEngine.parse_container.
  destruct (find _ _) as [main|] eqn:F; [|discriminate].
  apply find_some in F as [_ Ho]. unfold SearchEngine.outbound in Ho.
  apply andb_prop in Ho as [Hd Hh]. apply negb_true_iff in Hd.
  destruct (negb _ || _) eqn:G; [discriminate|].
  apply orb_false_iff in G as [Gn Gl]. apply negb_false_iff in Gn.
  apply Nat.ltb_ge in Gl.
  destruct (str_in "/l/?uddg=" (Bs4.href main)) eqn:U; simpl; [discriminate|].
  rewrite Gn. simpl. destruct (nonempty (Bs4.href main)); [|discriminate].
  intros [= <-]. unfold Claims.http_item. simpl.
  repeat split; auto using get_text_strip_trimmed.
  now apply nonempty_true.
Qed.

Lemma se_extract_items cs : Forall Claims.http_item (SearchEngine.extract cs).
Proof.
  induction cs as [|c cs IH]; simpl; [constructor|].
  destruct (SearchEngine.parse_container c) as [[r|]|e] eqn:P; simpl; auto.
  constructor; [now apply (se_parse_container_item c)|exact IH].
Qed.

Lemma se_attempt_items ep n l :
  SearchEngine.attempt ep n = Return (Some l) -> Forall Claims.http_item l.
Proof.
  unfold SearchEngine.attempt.
  destruct (SearchEngine.first_get ep) as [|t1 s1]; simpl; [discriminate|].
  destruct (SearchEngine.bot_detected t1);
    [destruct (SearchEngine.second_get ep) as [|t2 s2]; simpl; [discriminate|]|simpl];
    (destruct (SearchEngine.debug_write ep); simpl; [|discriminate]);
    (destruct (SearchEngine.bot_detected _); [discriminate|]);
    (destruct (0 <? _)%nat; [|discriminate]);
    intros [= <-]; apply se_extract_items.
Qed.

Lemma se_try_endpoints_items web urls n l :
  SearchEngine.try_endpoints web urls n = Return l -> Forall Claims.http_item l.
Proof.
  revert l. induction urls as [|u urls IH]; simpl; intros l.
  - intros [= <-]. constructor.
  - destruct (SearchEngine.attempt (web u) n) as [[rs|]|e] eqn:A; simpl; auto.
    intros [= <-]. now apply (se_attempt_items (web u) n).
Qed.

Lemma flask_parse_container_item c r :
  FlaskApp.parse_container c = Return (Some r) ->
  strip_ascii (title r) = title r /\
  exists e link,
    FlaskApp.title_elem c = Return (Some e) /\
    strip (FlaskApp.text_content e) <> EmptyString /\
    FlaskApp.get_href e = Some link /\ link <> EmptyString.
Proof.
  unfold FlaskApp.parse_container.
  destruct (FlaskApp.title_elem c) as [[e|]|x] eqn:He; simpl;
    destruct (FlaskApp.snippet_elem c) as [sn|y]; simpl; try discriminate.
  destruct (FlaskApp.get_href e) as [link|] eqn:Hl; [|discriminate].
  destruct (nonempty (strip (FlaskApp.text_content e))) eqn:Nt; [|discriminate].
  destruct (nonempty link) eqn:Nl; [|discriminate]. simpl.
  intros H. apply bind_item in H as [Ht _]. split.
  - rewrite Ht. destruct (str_in _ _); [apply strip_trimmed|apply strip_join_split].
  - exists e, link. apply nonempty_true in Nt, Nl. auto.
Qed.

Lemma flask_extract_items cs r :
  In r (FlaskApp.extract cs) ->
  exists c, In c cs /\ FlaskApp.parse_container c = Return (Some r).
Proof.
  induction cs as [|c cs IH]; simpl; [contradiction|].
  destruct (FlaskApp.parse_container c) as [[r'|]|e] eqn:P; simpl.
  - intros [<-|H]; [eauto|]. destruct (IH H) as [c' [? ?]]. eauto.
  - intros H. destruct (IH H) as [c' [? ?]]. eauto.
  - intros H. destruct (IH H) as [c' [? ?]]. eauto.
Qed.

(** C1, as amended.  Every item returned by [scrape_ddg_html] of
    [search_engine.py] has a trimmed, non-empty title of at least five
    characters and a url that starts with [http], holds no
    [duckduckgo.com] and is not a [/l/?uddg=] wrapper.  Every item
    returned by [fetch_google_results] has a trimmed title and is what
    [parse_container] builds from a container of the page whose trimmed
    title text and whose [href] are not empty; that extractor applies no
    minimum length and no scheme check.  A trimmed title is one without
    whitespace of ASCII at either end. *)
Theorem C1_emitted_items web query max_results results r session r' :
  SearchEngine.scrape_ddg_html web query max_results = Return results ->
  In r results ->
  In r' (FlaskApp.fetch_google_results session) ->
  Claims.http_item r /\ Claims.browser_item session r'.
Proof.
  intros Hs Hr Hf. split.
  - apply se_try_endpoints_items in Hs.
    rewrite List.Forall_forall in Hs. now apply Hs.
  - destruct session as [| |html cs]; simpl in Hf; try contradiction.
    destruct (FlaskApp.is_blocked html); [contradiction|].
    apply flask_extract_items in Hf as [c [Hc Hp]].
    destruct (flask_parse_container_item c r' Hp) as [Ht [e [link H]]].
    split; [exact Ht|]. exists html, cs, c, e, link. tauto.
Qed.
End EmittedItems.

Lemma C1_emitted_items_witness :
  Claims.http_item Samples.python_item /\
  Claims.browser_item Samples.about_session Samples.about_item.
Proof.
  apply (C1_emitted_items Samples.python_web "python" 3 [Samples.python_item]
           Samples.python_item Samples.about_session Samples.about_item).
  - vm_compute. reflexivity.
  - simpl. auto.
  - vm_compute. auto.
Defined.

(** C1 as the specification states it fails: the browser extractor returns
    an item whose title has two characters and whose url is a relative
    path. *)
Lemma C1_short_title_relative_url :
  ~ (forall web query max_results results r session r',
        SearchEngine.scrape_ddg_html web query max_results = Return results ->
        In r results ->
        In r' (FlaskApp.fetch_google_results session) ->
        Claims.title_and_url_ok r /\ Claims.title_and_url_ok r').
Proof.
  intros H.
  destruct (H Samples.python_web "python" 3%Z [Samples.python_item]
              Samples.python_item Samples.about_session Samples.about_item)
    as [_ (_ & L & _)].
  - vm_compute. reflexivity.
  - simpl. auto.
  - vm_compute. auto.
  - vm_compute in L. lia.
Qed.

(** ** C7: at most [max_results] items *)

Section ResultCount.

Lemma slice_to_length {A} (l : list A) (n : Z) :
  (0 <= n)%Z -> (Z.of_nat (length (Bs4.slice_to l n)) <= n)%Z.
Proof.
  intros Hn. unfold Bs4.slice_to.
  destruct (Z.leb_spec 0 n) as [_|?]; [|lia].
  pose proof (firstn_le_length (Z.to_nat n) l). lia.
Qed.

Lemma se_extract_length cs : (length (SearchEngine.extract cs) <= length cs)%nat.
Proof.
  induction cs as [|c cs IH]; simpl; [lia|].
  destruct (try_except _ _) as [[r|]|e]; simpl; lia.
Qed.

Lemma simple_extract_length cs : (length (SimpleDdg.extract cs) <= length cs)%nat.
Proof.
  induction cs as [|c cs IH]; simpl; [lia|].
  destruct (try_except _ _) as [[r|]|e]; simpl; lia.
Qed.

Lemma ddg_extract_length ds : (length (DdgScraper.extract ds) <= length ds)%nat.
Proof.
  induction ds as [|d ds IH]; simpl; [lia|].
  destruct (try_except _ _) as [[r|]|e]; simpl; lia.
Qed.

Lemma se_attempt_length ep n l :
  (0 <= n)%Z -> SearchEngine.attempt ep n = Return (Some l) ->
  (Z.of_nat (length l) <= n)%Z.
Proof.
  intros Hn. unfold SearchEngine.attempt.
  destruct (SearchEngine.first_get ep) as [|t1 s1]; simpl; [discriminate|].
  destruct (SearchEngine.bot_detected t1);
    [destruct (SearchEngine.second_get ep) as [|t2 s2]; simpl; [discriminate|]|simpl];
    (destruct (SearchEngine.debug_write ep); simpl; [|discriminate]);
    (destruct (SearchEngine.bot_detected _); [discriminate|]);
    (destruct (0 <? _)%nat; [|discriminate]);
    intros [= <-];
    match goal with
    | |- context [SearchEngine.extract ?cs] =>
        pose proof (se_extract_length cs);
        match cs with
        | Bs4.slice_to ?l _ => pose proof (slice_to_length l n Hn)
        end
    end; lia.
Qed.

(** [scrape_ddg_html] of [search_engine.py] returns a list, whatever the
    endpoints answer. *)
Lemma se_try_endpoints_returns web urls n :
  exists l, SearchEngine.try_endpoints web urls n = Return l.
Proof.
  induction urls as [|u urls IH]; simpl; [eauto|].
  destruct (SearchEngine.attempt (web u) n) as [[rs|]|e]; simpl; eauto.
Qed.

Lemma se_try_endpoints_length web urls n l :
  (0 <= n)%Z -> SearchEngine.try_endpoints web urls n = Return l ->
  (Z.of_nat (length l) <= n)%Z.
Proof.
  intros Hn. revert l. induction urls as [|u urls IH]; simpl; intros l.
  - intros [= <-]. simpl. lia.
  - destruct (SearchEngine.attempt (web u) n) as [[rs|]|e] eqn:A; simpl; auto.
    intros [= <-]. now apply (se_attempt_length (web u)).
Qed.

(** C7.  For a maximum result count [N >= 0], [scrape_ddg_html] of
    [search_engine.py] and of [simple_ddg_scraper.py] return a list of at
    most [N] items, and so does [ddg_search] of [ddg_scraper.py] whenever
    it returns. *)
Theorem C7_at_most_max_results web_engine web_simple web_ddg query N :
  (0 <= N)%Z ->
  (exists l, SearchEngine.scrape_ddg_html web_engine query N = Return l /\
             (Z.of_nat (length l) <= N)%Z) /\
  (exists l, SimpleDdg.scrape_ddg_html web_simple query N = Return l /\
             (Z.of_nat (length l) <= N)%Z) /\
  (forall l, DdgScraper.ddg_search web_ddg query N = Return l ->
             (Z.of_nat (length l) <= N)%Z).
Proof.
  intros Hn. split; [|split].
  - destruct (se_try_endpoints_returns web_engine (SearchEngine.endpoints query) N)
      as [l Hl].
    exists l. split; [exact Hl|]. exact (se_try_endpoints_length _ _ _ _ Hn Hl).
  - unfold SimpleDdg.scrape_ddg_html, SimpleDdg.scrape_body.
    destruct (web_simple _) as [|t soup [|]]; simpl;
      try (exists []; split; [reflexivity|simpl; lia]).
    eexists. split; [reflexivity|].
    pose proof (simple_extract_length
                  (Bs4.slice_to (SimpleDdg.result_containers soup) N)).
    pose proof (slice_to_length (SimpleDdg.result_containers soup) N Hn). lia.
  - intros l. unfold DdgScraper.ddg_search, DdgScraper._ddg_requests_search. simpl.
    destruct (web_ddg _) as [|t soup [|]]; simpl; try discriminate.
    intros [= <-].
    pose proof (ddg_extract_length
                  (Bs4.slice_to (DdgScraper.result_divs soup N) N)).
    pose proof (slice_to_length (DdgScraper.result_divs soup N) N Hn). lia.
Qed.
End ResultCount.

Lemma C7_at_most_max_results_witness :
  (exists l, SearchEngine.scrape_ddg_html Samples.five_web "python programming" 3
             = Return l /\ (Z.of_nat (length l) <= 3)%Z) /\
  (exists l, SimpleDdg.scrape_ddg_html Samples.five_simple_web "python programming" 3
             = Return l /\ (Z.of_nat (length l) <= 3)%Z) /\
  (forall l, DdgScraper.ddg_search Samples.five_ddg_web "python programming" 3
             = Return l -> (Z.of_nat (length l) <= 3)%Z).
Proof.
  apply (C7_at_most_max_results Samples.five_web Samples.five_simple_web
           Samples.five_ddg_web "python programming" 3).
  lia.
Defined.

(** The scenario of the specification: five well-formed containers and
    [max_results = 3] give the first three items, in document order. *)
Example five_containers_three_results :
  SearchEngine.scrape_ddg_html Samples.five_web "python programming" 3
  = Return [Samples.result_item "1"; Samples.result_item "2"; Samples.result_item "3"] /\
  DdgScraper.ddg_search Samples.five_ddg_web "python programming" 3
  = Return [Samples.result_item "1"; Samples.result_item "2"; Samples.result_item "3"].
Proof. split; vm_compute; reflexivity. Qed.

(** ** C3: exceptions at the search entry points *)

(** [scrape_ddg_html] of [search_engine.py] never raises. *)
Lemma search_engine_never_raises web query n :
  exists l, SearchEngine.scrape_ddg_html web query n = Return l.
Proof. apply se_try_endpoints_returns. Qed.

(** When no endpoint yields a result, [scrape_ddg_html] of
    [search_engine.py] returns the empty list. *)
Lemma search_engine_exhausted web query n :
  (forall u l, In u (SearchEngine.endpoints query) ->
               SearchEngine.attempt (web u) n <> Return (Some l)) ->
  SearchEngine.scrape_ddg_html web query n = Return [].
Proof.
  unfold SearchEngine.scrape_ddg_html.
  induction (SearchEngine.endpoints query) as [|u urls IH]; simpl; intros H; [reflexivity|].
  destruct (SearchEngine.attempt (web u) n) as [[rs|]|e] eqn:A; simpl.
  - exfalso. apply (H u rs); auto.
  - apply IH. intros u' l Hu. apply H. auto.
  - apply IH. intros u' l Hu. apply H. auto.
Qed.

Example search_engine_offline :
  SearchEngine.scrape_ddg_html Samples.offline_web "python programming" 10 = Return [].
Proof. reflexivity. Qed.

(** A failed request leaves [ddg_search] as an exception. *)
Lemma ddg_search_reraises web query n :
  web ("https://duckduckgo.com/?q=" +:+ Urllib.quote_plus query +:+ "&kl=us-en&ia=web")
  = DdgScraper.ResponseError ->
  DdgScraper.ddg_search web query n = Raise RequestException.
Proof.
  intros H. unfold DdgScraper.ddg_search, DdgScraper._ddg_requests_search. simpl.
  now rewrite H.
Qed.

(** C3, at the failing input: the connection fails and [ddg_search]
    raises instead of returning the empty list. *)
Theorem C3_ddg_search_propagates :
  DdgScraper.ddg_search Samples.ddg_offline "python programming" 3 = Raise RequestException.
Proof. reflexivity. Qed.

(** ** C2: the destination behind a redirect wrapper *)

(** C2, at the failing input: the wrapper carries
    [https://en.wikipedia.org/wiki/C%2B%2B]; the browser extractor decodes
    it twice and emits [https://en.wikipedia.org/wiki/C++]. *)
Theorem C2_double_decoding :
  Claims.decoded_destination Samples.cpp_link = "https://en.wikipedia.org/wiki/C%2B%2B" /\
  FlaskApp.fetch_google_results Samples.cpp_session
  = [mkResult "C++ - Wikipedia" "https://en.wikipedia.org/wiki/C++" None].
Proof. split; vm_compute; reflexivity. Qed.

(** [unquote] leaves a text without [%] as it is, so the second decoding
only harms destinations that hold percent escapes of their own. *)
Lemma unquote_without_percent s :
  PyStr.str_in "%" s = false -> Urllib.unquote s = s.
Proof.
  induction s as [|c r IH]; [reflexivity|].
  cbn [PyStr.str_in]. intros H.
  apply orb_false_iff in H as [Hc Hr].
  assert (E : Ascii.eqb c "%" = false).
  { destruct (Ascii.eqb_spec c "%") as [->|]; [|reflexivity].
    simpl in Hc. destruct r; discriminate Hc. }
  cbn [Urllib.unquote]. rewrite E. now rewrite (IH Hr).
Qed.

(** What the browser extractor emits for a wrapper link: the first [uddg]
value of [parse_qs], decoded once more. *)
Lemma flask_resolves_wrapper e link snip query v vs r :
  FlaskApp.get_href e = Some link ->
  PyStr.startswith link "//duckduckgo.com/l/?uddg=" = true ->
  Urllib.urlparse_query link = Return query ->
  Urllib.parse_qs_get query "uddg" = Some (v :: vs) ->
  FlaskApp.parse_container (FlaskApp.mkContainer (Return (Some e)) snip) = Return (Some r) ->
  url r = Urllib.unquote v.
Proof.
  intros Hl Hw Hq Hv. unfold FlaskApp.parse_container. simpl. rewrite Hl.
  destruct snip as [sn|x]; simpl; [|discriminate].
  destruct (PyStr.nonempty _ && PyStr.nonempty link); [|discriminate].
  rewrite Hw, Hq. simpl. rewrite Hv. simpl. now intros [= <-].
Qed.

(** The same link elsewhere: [search_engine.py] raises [NameError] and
    drops the container, [simple_ddg_scraper.py] decodes twice,
    [ddg_scraper.py] decodes once. *)
Example redirect_in_the_http_extractors :
  SearchEngine.parse_container Samples.cpp_div = Raise (NameError "urllib") /\
  SearchEngine.extract [Samples.cpp_div] = [] /\
  SimpleDdg.extract [Samples.cpp_div]
  = [mkResult "C++ - Wikipedia" "https://en.wikipedia.org/wiki/C++" (Some "")] /\
  DdgScraper.extract [Samples.cpp_box]
  = [mkResult "C++ - Wikipedia" "https://en.wikipedia.org/wiki/C%2B%2B" (Some "")].
Proof. repeat split; vm_compute; reflexivity. Qed.

(** ** Lowered text *)

Section LoweredText.
Import PyStr.

Lemma prefix_nil t : String.prefix EmptyString t = true.
Proof. destruct t; reflexivity. Qed.

Lemma prefix_same a r t : String.prefix (String a r) (String a t) = String.prefix r t.
Proof. simpl. destruct (ascii_dec a a); congruence. Qed.

Lemma prefix_cons_inv a r t :
  String.prefix (String a r) t = true ->
  exists t', t = String a t' /\ String.prefix r t' = true.
Proof.
  destruct t as [|d t']; simpl; [discriminate|].
  destruct (ascii_dec a d) as [->|]; [eauto|discriminate].
Qed.

Lemma prefix_str_in y h : String.prefix y h = true -> str_in y h = true.
Proof. intros H. destruct h; simpl in *; now rewrite H. Qed.

Lemma str_in_nil t : str_in EmptyString t = true.
Proof. destruct t; reflexivity. Qed.

Lemma str_in_cons y c h : str_in y h = true -> str_in y (String c h) = true.
Proof. intros H. cbn [str_in]. rewrite H. apply orb_true_r. Qed.

Lemma lower_eq a b r2 :
  lower (String a (String b r2))
  = if ((code a =? 196) && (code b =? 176))%N
    then String "i" (String (ascii_of_N 204) (String (ascii_of_N 135) (lower r2)))
    else match r2 with
         | String c r3 =>
             if ((code a =? 226) && (code b =? 132) && (code c =? 170))%N
             then String "k" (lower r3)
             else String (lower_char a) (lower (String b r2))
         | EmptyString => String (lower_char a) (lower (String b r2))
         end.
Proof. destruct r2; reflexivity. Qed.

(** A character that starts neither of the two special sequences is
    lowered by itself. *)
Lemma lower_plain a r :
  code a <> 196%N -> code a <> 226%N ->
  lower (String a r) = String (lower_char a) (lower r).
Proof.
  intros H1 H2. apply N.eqb_neq in H1, H2.
  destruct r as [|b [|c r3]]; cbn [lower]; rewrite ?H1, ?H2; reflexivity.
Qed.

Lemma lower_ascii_head a r :
  (code a <? 128)%N = true -> lower (String a r) = String (lower_char a) (lower r).
Proof. intros H. apply N.ltb_lt in H. apply lower_plain; lia. Qed.

Lemma lower_char_code c :
  (code (lower_char c) <? 128)%N = (code c <? 128)%N.
Proof. destruct c as [[] [] [] [] [] [] [] []]; reflexivity. Qed.

Lemma lower_char_not_upper c : isupper (lower_char c) = false.
Proof. destruct c as [[] [] [] [] [] [] [] []]; reflexivity. Qed.

(** Lowered text holds no upper-case letter. *)
Lemma lower_no_upper n : forall s,
  (String.length s <= n)%nat -> has_upper (lower s) = false.
Proof.
  induction n as [|n IH]; intros s L.
  - destruct s; [reflexivity|simpl in L; lia].
  - destruct s as [|a r]; [reflexivity|]. simpl in L.
    assert (R : has_upper (String (lower_char a) (lower r)) = false).
    { cbn [has_upper]. rewrite lower_char_not_upper. apply IH. lia. }
    destruct r as [|b r2]; [exact R|]. simpl in L. rewrite lower_eq.
    destruct ((code a =? 196) && (code b =? 176))%N.
    { cbn [has_upper]. rewrite (IH r2) by lia. reflexivity. }
    destruct r2 as [|c r3]; [exact R|]. simpl in L.
    destruct ((code a =? 226) && (code b =? 132) && (code c =? 170))%N; [|exact R].
    cbn [has_upper]. rewrite (IH r3) by lia. reflexivity.
Qed.

Lemma prefix_has_upper needle t :
  String.prefix needle t = true -> has_upper t = false -> has_upper needle = false.
Proof.
  revert t. induction needle as [|c n IH]; intros t; [reflexivity|].
  intros P. apply prefix_cons_inv in P as (t' & -> & P). cbn [has_upper].
  intros H. apply orb_false_iff in H as [-> H]. now apply (IH t').
Qed.

Lemma prefix_lower needle hay :
  String.prefix needle (lower hay) = true -> has_upper needle = false.
Proof.
  intros P. apply (prefix_has_upper _ _ P).
  apply (lower_no_upper (String.length hay)), Nat.le_refl.
Qed.

Lemma str_in_has_upper needle t :
  has_upper needle = true -> has_upper t = false -> str_in needle t = false.
Proof.
  intros U. induction t as [|d t IH]; cbn [str_in has_upper]; intros H.
  - destruct (String.prefix needle "") eqn:P; [|reflexivity].
    apply prefix_has_upper in P; [congruence|reflexivity].
  - destruct (String.prefix needle (String d t)) eqn:P.
    + apply prefix_has_upper in P; [congruence|exact H].
    + apply orb_false_iff in H as [_ H]. now apply IH.
Qed.

(** A phrase with an upper-case letter is never found in lowered text. *)
Lemma str_in_lower needle hay :
  has_upper needle = true -> str_in needle (lower hay) = false.
Proof.
  intros U. apply str_in_has_upper; [exact U|].
  apply (lower_no_upper (String.length hay)), Nat.le_refl.
Qed.

(** A text of ASCII does not start at a character outside ASCII. *)
Lemma prefix_outside y c h :
  isascii y = true -> y <> EmptyString -> (code c <? 128)%N = false ->
  String.prefix y (String c h) = false.
Proof.
  destruct y as [|y0 y]; [congruence|]. cbn [isascii]. intros A _ C.
  apply andb_prop in A as [A _]. simpl.
  destruct (ascii_dec y0 c) as [->|]; [congruence|reflexivity].
Qed.

Lemma str_in_outside y c h :
  isascii y = true -> (code c <? 128)%N = false ->
  str_in y (String c h) = true -> str_in y h = true.
Proof.
  intros A C H. destruct y as [|y0 y]; [apply str_in_nil|].
  cbn [str_in] in H. rewrite prefix_outside in H by (auto; discriminate).
  exact H.
Qed.

(** What is found in the lowered rest of a text is found in the lowered
    text. *)
Lemma str_in_lower_cons y d t :
  isascii y = true -> str_in y (lower t) = true -> str_in y (lower (String d t)) = true.
Proof.
  intros A H.
  assert (Plain : str_in y (String (lower_char d) (lower t)) = true)
    by now apply str_in_cons.
  destruct t as [|b r2]; [exact Plain|]. rewrite lower_eq.
  destruct ((code d =? 196) && (code b =? 176))%N eqn:I.
  { apply andb_prop in I as [_ I]. apply N.eqb_eq in I.
    rewrite lower_plain in H by lia.
    apply str_in_outside in H;
      [|exact A|rewrite lower_char_code; apply N.ltb_ge; lia].
    now repeat apply str_in_cons. }
  destruct r2 as [|c r3]; [exact Plain|].
  destruct ((code d =? 226) && (code b =? 132) && (code c =? 170))%N eqn:K;
    [|exact Plain].
  apply andb_prop in K as [K Kc]. apply andb_prop in K as [_ Kb].
  apply N.eqb_eq in Kb, Kc.
  rewrite lower_plain in H by lia.
  apply str_in_outside in H;
    [|exact A|rewrite lower_char_code; apply N.ltb_ge; lia].
  rewrite lower_plain in H by lia.
  apply str_in_outside in H;
    [|exact A|rewrite lower_char_code; apply N.ltb_ge; lia].
  now apply str_in_cons.
Qed.

(** Lowering keeps a prefix whose lowered text is of ASCII. *)
Lemma prefix_lower_mono_upto n : forall x t,
  (String.length x <= n)%nat -> isascii (lower x) = true ->
  String.prefix x t = true -> String.prefix (lower x) (lower t) = true.
Proof.
  induction n as [|n IH]; intros x t L A P.
  - destruct x; [apply prefix_nil|simpl in L; lia].
  - destruct x as [|a r]; [apply prefix_nil|]. simpl in L.
    apply prefix_cons_inv in P as (t' & -> & P).
    assert (Plain : isascii (String (lower_char a) (lower r)) = true ->
                    String.prefix (String (lower_char a) (lower r))
                                  (lower (String a t')) = true).
    { cbn [isascii]. intros H. apply andb_prop in H as [Ha Hr].
      rewrite lower_char_code in Ha. rewrite (lower_ascii_head a t' Ha).
      rewrite prefix_same. apply IH; [lia|exact Hr|exact P]. }
    destruct r as [|b r2]; [exact (Plain A)|]. simpl in L.
    apply prefix_cons_inv in P as (t2 & -> & P2).
    rewrite (lower_eq a b r2) in A |- *.
    destruct ((code a =? 196) && (code b =? 176))%N.
    { cbn in A. discriminate. }
    destruct r2 as [|c r3]; [exact (Plain A)|].
    simpl in L. apply prefix_cons_inv in P2 as (t3 & -> & P3).
    destruct ((code a =? 226) && (code b =? 132) && (code c =? 170))%N eqn:K;
      [|exact (Plain A)].
    rewrite (lower_eq a b (String c t3)), K.
    destruct ((code a =? 196) && (code b =? 176))%N eqn:I.
    { apply andb_prop in K as [K _]. apply andb_prop in K as [K _].
      apply andb_prop in I as [I _]. apply N.eqb_eq in K, I. lia. }
    rewrite prefix_same. cbn [isascii] in A. apply andb_prop in A as [_ A].
    apply IH; [lia|exact A|exact P3].
Qed.

Lemma prefix_lower_mono x t :
  isascii (lower x) = true ->
  String.prefix x t = true -> String.prefix (lower x) (lower t) = true.
Proof. apply (prefix_lower_mono_upto (String.length x)), Nat.le_refl. Qed.

(** Lowering both texts keeps an occurrence, when the lowered occurrence
    is of ASCII. *)
Lemma str_in_lower_mono x t :
  isascii (lower x) = true ->
  str_in x t = true -> str_in (lower x) (lower t) = true.
Proof.
  intros A. induction t as [|d t IH]; intros H.
  - cbn [str_in] in H. rewrite orb_false_r in H.
    apply prefix_str_in. now apply prefix_lower_mono.
  - cbn [str_in] in H. apply orb_prop in H as [H|H].
    + apply prefix_str_in. now apply prefix_lower_mono.
    + apply str_in_lower_cons; [exact A|now apply IH].
Qed.

Lemma names_lower word text :
  Facts.names word text -> isascii word = true -> str_in word (lower text) = true.
Proof. intros [w [H <-]] A. now apply str_in_lower_mono. Qed.
End LoweredText.

(** ** C4: block pages *)

Section BlockDetection.
Import PyStr.

(** Of the six phrases of [blocks] only the two written in lower case
    can match. *)
Lemma is_blocked_lower_case_phrases html :
  FlaskApp.is_blocked html
  = str_in "rate limit" (lower html) || str_in "too many requests" (lower html).
Proof.
  unfold FlaskApp.is_blocked, FlaskApp.blocks. simpl.
  rewrite !str_in_lower by reflexivity. simpl. now rewrite orb_false_r.
Qed.

(** A page that holds a lower-case phrase is not parsed. *)
Lemma blocked_page_yields_nothing html containers :
  FlaskApp.is_blocked html = true ->
  FlaskApp.fetch_google_results (FlaskApp.Loaded html containers) = [].
Proof. intros H. simpl. now rewrite H. Qed.

(** C4, at the failing input: the page holds the phrase [CAPTCHA], the
    check compares the phrase as written with the lowered page, and the
    containers of the block page are parsed. *)
Theorem C4_captcha_page_is_parsed :
  Claims.holds_block_phrase Samples.captcha_html = true /\
  FlaskApp.is_blocked Samples.captcha_html = false /\
  FlaskApp.fetch_google_results Samples.captcha_session
  = [mkResult "Why am I seeing this?" "https://duckduckgo.com/help" None].
Proof. repeat split; vm_compute; reflexivity. Qed.
End BlockDetection.

(** ** C5, C6: the result cache *)

Section ResultCache.
Import PyStr FlaskApp.
Variable world : nat -> string -> Session.

Lemma get_cached_hit query now st results ts :
  CACHE st !! query = Some (results, ts) ->
  (now - ts <= CACHE_TTL_SECONDS)%Q ->
  get_cached query now st = (Some results, st).
Proof.
  intros H L. unfold get_cached. rewrite H.
  apply Qle_bool_iff in L. now rewrite L.
Qed.

(** After [get_cached] misses, the cache has no entry for the query and
    is otherwise a part of what it was. *)
Lemma get_cached_miss query now st st1 :
  get_cached query now st = (None, st1) ->
  CACHE st1 !! query = None /\ fetched st1 = fetched st /\
  (forall q v, CACHE st1 !! q = Some v -> CACHE st !! q = Some v).
Proof.
  unfold get_cached. destruct (CACHE st !! query) as [[results ts]|] eqn:E.
  - destruct (Qle_bool _ _); [discriminate|]. intros [= <-]. simpl.
    split; [apply lookup_delete_eq|]. split; [reflexivity|].
    intros q v H. apply lookup_delete_Some in H. tauto.
  - intros [= <-]. auto.
Qed.

Lemma get_cached_some query now st results st1 :
  get_cached query now st = (Some results, st1) ->
  st1 = st /\ exists ts, CACHE st !! query = Some (results, ts).
Proof.
  unfold get_cached. destruct (CACHE st !! query) as [[r ts]|] eqn:E; [|discriminate].
  destruct (Qle_bool _ _); [|discriminate]. intros [= <- <-]. eauto.
Qed.

Lemma set_cache_nonempty query results now st :
  Claims.cache_nonempty st -> Claims.cache_nonempty (set_cache query results now st).
Proof.
  intros I. unfold set_cache. destruct results as [|r rs]; [exact I|].
  intros q res ts. simpl. intros H.
  apply lookup_insert_Some in H as [[_ [= <- _]]|[_ H]]; [discriminate|].
  now apply (I q res ts).
Qed.

Lemma search_nonempty q now_get now_set st :
  Claims.cache_nonempty st ->
  Claims.cache_nonempty (snd (search world q now_get now_set st)).
Proof.
  intros I. unfold search. destruct (negb (nonempty (strip q))); [exact I|].
  destruct (get_cached (strip q) now_get st) as [[cached|] st1] eqn:G; simpl.
  - apply get_cached_some in G as [-> _]. exact I.
  - apply get_cached_miss in G as (_ & _ & Sub).
    apply set_cache_nonempty. intros k res ts H. simpl in H.
    apply Sub in H. now apply (I k res ts).
Qed.

Lemma run_nonempty reqs st :
  Claims.cache_nonempty st -> Claims.cache_nonempty (run world reqs st).
Proof.
  revert st. induction reqs as [|[[q g] s] reqs IH]; intros st I; [exact I|].
  simpl. apply IH. now apply search_nonempty.
Qed.

Lemma initial_nonempty : Claims.cache_nonempty initial.
Proof. intros q res ts H. simpl in H. now rewrite lookup_empty in H. Qed.

(** C6.  After any sequence of [search] calls every entry of the cache
    holds a non-empty list; and when a call for a query that reaches the
    pipeline returns the empty list, the cache has no entry for the query
    afterwards and the next call for it, at whatever time, fetches
    again. *)
Theorem C6_cache_never_stores_empty reqs q now_get now_set now_get' now_set' :
  let st := run world reqs initial in
  let first := search world q now_get now_set st in
  let second := search world q now_get' now_set' (snd first) in
  Claims.cache_nonempty st /\
  (strip q <> EmptyString -> body (fst first) = [] ->
   CACHE (snd first) !! strip q = None /\
   fetched (snd second) = strip q :: fetched (snd first)).
Proof.
  intros st first second.
  assert (I : Claims.cache_nonempty st) by apply run_nonempty, initial_nonempty.
  split; [exact I|]. intros Hq Hb.
  assert (N : CACHE (snd first) !! strip q = None).
  { subst first. revert Hb. unfold search.
    apply nonempty_true in Hq. rewrite Hq. simpl.
    destruct (get_cached (strip q) now_get st) as [[cached|] st1] eqn:G; simpl.
    - apply get_cached_some in G as [-> [ts E]]. intros ->.
      now apply I in E.
    - intros ->. simpl. now apply get_cached_miss in G as (G & _). }
  split; [exact N|]. subst second. unfold search at 1.
  apply nonempty_true in Hq. rewrite Hq. simpl.
  unfold get_cached. rewrite N. simpl.
  destruct (fetch_google_results _); reflexivity.
Qed.

(** A call that returns a non-empty list leaves it in the cache. *)
Lemma search_leaves_entry q now_get now_set st r st1 :
  search world q now_get now_set st = (r, st1) ->
  body r <> [] ->
  nonempty (strip q) = true /\ r = jsonify (body r) /\
  exists ts, CACHE st1 !! strip q = Some (body r, ts).
Proof.
  unfold search. destruct (nonempty (strip q)); simpl; [|intros [= <- <-]; simpl; congruence].
  destruct (get_cached (strip q) now_get st) as [[cached|] st0] eqn:G.
  - intros [= <- <-] _. apply get_cached_some in G as [-> [ts E]]. simpl. eauto.
  - intros [= <- <-]. simpl.
    destruct (fetch_google_results _) as [|x xs]; [congruence|]. intros _.
    repeat split; auto. exists now_set. simpl. apply lookup_insert_eq.
Qed.

Lemma search_other_key q now_get now_set st k :
  strip q <> k ->
  CACHE (snd (search world q now_get now_set st)) !! k = CACHE st !! k.
Proof.
  intros N. unfold search. destruct (negb (nonempty (strip q))); [reflexivity|].
  unfold get_cached.
  destruct (CACHE st !! strip q) as [[results ts]|];
    [destruct (Qle_bool _ _); [reflexivity|]|];
    simpl; destruct (fetch_google_results _); simpl;
      rewrite ?lookup_insert_ne by exact N;
      rewrite ?lookup_delete_ne by exact N; reflexivity.
Qed.

(** A call that finds a fresh entry answers with it and changes
    nothing. *)
Lemma search_hit q now_get now_set st results ts :
  CACHE st !! strip q = Some (results, ts) ->
  (now_get - ts <= CACHE_TTL_SECONDS)%Q ->
  snd (search world q now_get now_set st) = st /\
  (strip q <> EmptyString ->
   search world q now_get now_set st = (jsonify results, st)).
Proof.
  intros E L. unfold search. destruct (strip q) eqn:Q; simpl; [split; congruence|].
  rewrite (get_cached_hit _ _ _ _ _ E L). split; reflexivity.
Qed.

Lemma run_keeps_entry k results ts between : forall st,
  CACHE st !! k = Some (results, ts) ->
  Forall (fun req : string * Q * Q =>
            strip (fst (fst req)) = k ->
            (snd (fst req) - ts <= CACHE_TTL_SECONDS)%Q) between ->
  CACHE (run world between st) !! k = Some (results, ts).
Proof.
  induction between as [|[[q g] s] between IH]; intros st E F; [exact E|].
  inversion F as [|? ? Hq Hrest]; subst. simpl in Hq. simpl. apply IH; [|exact Hrest].
  destruct (decide (strip q = k)) as [<-|N].
  - destruct (search_hit q g s st results ts E (Hq eq_refl)) as [-> _]. exact E.
  - now rewrite search_other_key.
Qed.

Lemma run_keeps_none k between : forall st,
  CACHE st !! k = None ->
  Forall (fun req : string * Q * Q => strip (fst (fst req)) <> k) between ->
  CACHE (run world between st) !! k = None.
Proof.
  induction between as [|[[q g] s] between IH]; intros st E F; [exact E|].
  inversion F as [|? ? Hq Hrest]; subst. simpl in Hq. simpl. apply IH; [|exact Hrest].
  now rewrite search_other_key.
Qed.

(** C5, as amended.  When a call returns a non-empty list, the list is in
    the cache with a timestamp, and every later call with the same query
    that reads the clock at most [CACHE_TTL_SECONDS] after that timestamp
    returns the same answer and leaves the state as it is: nothing is
    fetched.  Other queries may be searched in between, and the same
    query too as long as it is within that time.  When a call for a
    query that is not blank returns the empty list nothing is cached, and
    the next call for the query, whatever other queries come in between,
    fetches again (the cache holding no empty list before, as after any
    sequence of calls). *)
Theorem C5_repeat_within_ttl q now_get now_set st :
  let first := search world q now_get now_set st in
  (body (fst first) <> [] ->
   exists ts,
     CACHE (snd first) !! strip q = Some (body (fst first), ts) /\
     forall between now_get' now_set',
       Forall (fun req : string * Q * Q =>
                 strip (fst (fst req)) = strip q ->
                 (snd (fst req) - ts <= CACHE_TTL_SECONDS)%Q) between ->
       (now_get' - ts <= CACHE_TTL_SECONDS)%Q ->
       search world q now_get' now_set' (run world between (snd first))
       = (fst first, run world between (snd first))) /\
  (strip q <> EmptyString -> body (fst first) = [] -> Claims.cache_nonempty st ->
   forall between now_get' now_set',
     Forall (fun req : string * Q * Q => strip (fst (fst req)) <> strip q) between ->
     fetched (snd (search world q now_get' now_set' (run world between (snd first))))
     = strip q :: fetched (run world between (snd first))).
Proof.
  intros first. destruct first as [r st1] eqn:S. subst first. cbn [fst snd]. split.
  - intros Hb.
    destruct (search_leaves_entry _ _ _ _ _ _ S Hb) as (Hq & Hr & ts & E).
    exists ts. split; [exact E|]. intros between now_get' now_set' F L.
    pose proof (run_keeps_entry _ _ _ between st1 E F) as E'.
    apply nonempty_true in Hq.
    destruct (search_hit q now_get' now_set' _ _ _ E' L) as [_ H].
    rewrite (H Hq). now rewrite <- Hr.
  - intros Hq Hb I between now_get' now_set' F.
    assert (N : CACHE st1 !! strip q = None).
    { revert S. unfold search. apply nonempty_true in Hq. rewrite Hq. simpl.
      destruct (get_cached (strip q) now_get st) as [[cached|] st0] eqn:G.
      - intros [= <- <-]. simpl in Hb. subst cached.
        apply get_cached_some in G as [_ [ts E]]. now apply I in E.
      - intros [= <- <-]. simpl in Hb. rewrite Hb. simpl.
        now apply get_cached_miss in G as (G & _). }
    pose proof (run_keeps_none _ between st1 N F) as N'.
    unfold search. apply nonempty_true in Hq. rewrite Hq. simpl.
    unfold get_cached. rewrite N'. simpl.
    destruct (fetch_google_results _); reflexivity.
Qed.
End ResultCache.

Lemma C5_repeat_within_ttl_witness :
  FlaskApp.search Samples.steady_world " python " 100 101
    (FlaskApp.run Samples.steady_world [("rocq", 40%Q, 41%Q); ("python", 50%Q, 51%Q)]
       (snd (FlaskApp.search Samples.steady_world " python " 0 1 FlaskApp.initial)))
  = (fst (FlaskApp.search Samples.steady_world " python " 0 1 FlaskApp.initial),
     FlaskApp.run Samples.steady_world [("rocq", 40%Q, 41%Q); ("python", 50%Q, 51%Q)]
       (snd (FlaskApp.search Samples.steady_world " python " 0 1 FlaskApp.initial))).
Proof.
  destruct (C5_repeat_within_ttl Samples.steady_world " python " 0 1 FlaskApp.initial)
    as [H _].
  destruct H as (ts & E & K); [vm_compute; discriminate|].
  vm_compute in E. injection E as <-.
  apply K; [|vm_compute; discriminate].
  repeat constructor; intros _; vm_compute; discriminate.
Defined.

(** C5 as the specification states it fails: the first call finds nothing,
    nothing is cached, and the second call, one second later, fetches again
    and returns another list. *)
Lemma C5_empty_result_is_fetched_again :
  ~ (forall world q now_get now_set now_get' now_set' st,
        (now_get' - now_set <= FlaskApp.CACHE_TTL_SECONDS)%Q ->
        let first := FlaskApp.search world q now_get now_set st in
        let second := FlaskApp.search world q now_get' now_set' (snd first) in
        FlaskApp.body (fst second) = FlaskApp.body (fst first) /\
        FlaskApp.fetched (snd second) = FlaskApp.fetched (snd first)).
Proof.
  intros H.
  assert (L : (2 - 1 <= FlaskApp.CACHE_TTL_SECONDS)%Q) by (vm_compute; discriminate).
  destruct (H Samples.flaky_world "python" 0%Q 1%Q 2%Q 3%Q FlaskApp.initial L) as [B _].
  vm_compute in B. discriminate.
Qed.

Lemma C6_cache_never_stores_empty_witness :
  let st := FlaskApp.run Samples.query_world [("python", 0%Q, 1%Q)] FlaskApp.initial in
  let first := FlaskApp.search Samples.query_world "asdkfjalksdjf2398" 2 3 st in
  let second := FlaskApp.search Samples.query_world "asdkfjalksdjf2398" 4 5 (snd first) in
  Claims.cache_nonempty st /\
  FlaskApp.CACHE (snd first) !! "asdkfjalksdjf2398" = None /\
  FlaskApp.fetched (snd second) = "asdkfjalksdjf2398" :: FlaskApp.fetched (snd first).
Proof.
  destruct (C6_cache_never_stores_empty Samples.query_world [("python", 0%Q, 1%Q)]
              "asdkfjalksdjf2398" 2 3 4 5) as [I H].
  split; [exact I|]. apply H.
  - vm_compute. discriminate.
  - vm_compute. reflexivity.
Defined.

(** ** C8: empty queries *)

Section EmptyQuery.
Import PyStr.

(** C8, as amended.  For a query that is empty after trimming, the
    endpoint of [index.py] answers 400 and the endpoint of [flask_app.py]
    answers 200 with an empty list; neither hands the query to the
    retrieval pipeline.  The endpoint of [index.py] answers with a
    client-error status for such queries only, and the endpoint of
    [flask_app.py] always answers 200. *)
Theorem C8_empty_query scrape world q q' st cache now_get now_set :
  strip q = EmptyString ->
  (IndexApp.status (fst (IndexApp.search scrape q st)) = 400%nat /\
   IndexApp.scraped (snd (IndexApp.search scrape q st)) = IndexApp.scraped st) /\
  FlaskApp.search world q now_get now_set cache = (FlaskApp.mkResponse 200 [], cache) /\
  (Claims.client_error (IndexApp.status (fst (IndexApp.search scrape q' st))) = true ->
   strip q' = EmptyString) /\
  FlaskApp.status (fst (FlaskApp.search world q' now_get now_set cache)) = 200%nat.
Proof.
  intros Hq. repeat split.
  - unfold IndexApp.search. now rewrite Hq.
  - unfold IndexApp.search. now rewrite Hq.
  - unfold FlaskApp.search. now rewrite Hq.
  - unfold IndexApp.search. destruct (strip q') eqn:E; [reflexivity|]. simpl.
    destruct scrape as [f|]; [destruct (f _ _)|]; simpl; discriminate.
  - unfold FlaskApp.search. destruct (negb _); [reflexivity|].
    destruct (FlaskApp.get_cached _ _ _) as [[c|] s1]; reflexivity.
Qed.
End EmptyQuery.

Lemma C8_empty_query_witness :
  (IndexApp.status (fst (IndexApp.search Samples.five_scraper "   " Samples.fresh_index))
   = 400%nat /\
   IndexApp.scraped (snd (IndexApp.search Samples.five_scraper "   " Samples.fresh_index))
   = []) /\
  FlaskApp.search Samples.steady_world "   " 0 1 FlaskApp.initial
  = (FlaskApp.mkResponse 200 [], FlaskApp.initial) /\
  (Claims.client_error
     (IndexApp.status (fst (IndexApp.search Samples.five_scraper "python" Samples.fresh_index)))
   = true -> PyStr.strip "python" = EmptyString) /\
  FlaskApp.status (fst (FlaskApp.search Samples.steady_world "python" 0 1 FlaskApp.initial))
  = 200%nat.
Proof.
  apply (C8_empty_query Samples.five_scraper Samples.steady_world "   " "python"
           Samples.fresh_index FlaskApp.initial 0 1).
  reflexivity.
Defined.

(** C8 as the specification states it fails: the endpoint of
    [flask_app.py] answers a blank query with status 200. *)
Lemma C8_flask_answers_200 :
  ~ (forall world q now_get now_set st,
        PyStr.strip q = EmptyString ->
        Claims.client_error
          (FlaskApp.status (fst (FlaskApp.search world q now_get now_set st))) = true).
Proof.
  intros H.
  specialize (H Samples.steady_world "   " 0%Q 1%Q FlaskApp.initial eq_refl).
  vm_compute in H. discriminate.
Qed.

(** A query that is one no-break space is blank for every endpoint. *)
Example no_break_space_is_blank :
  PyStr.strip MoreSamples.no_break_space = EmptyString /\
  IndexApp.status
    (fst (IndexApp.search Samples.five_scraper MoreSamples.no_break_space Samples.fresh_index))
  = 400%nat /\
  FlaskApp.search Samples.steady_world MoreSamples.no_break_space 0 1 FlaskApp.initial
  = (FlaskApp.mkResponse 200 [], FlaskApp.initial) /\
  ApiServer.status (ApiServer.search MoreSamples.readonly_simple_web MoreSamples.no_break_space)
  = 400%nat.
Proof. repeat split. Qed.

(** ** C9: the emotion scoring interface *)

Section Scoring.
Import Emotion.
Local Open Scope Q_scope.
Variable env : Env.
Variable finditer : string -> bool -> string -> list string.

Lemma Qltb_spec a b : if Qltb a b then a < b else b <= a.
Proof.
  unfold Qltb. destruct (Qle_bool b a) eqn:E; simpl.
  - now apply Qle_bool_iff.
  - apply Qnot_le_lt. intros H. apply Qle_bool_iff in H. congruence.
Qed.

Lemma py_max_bounds a b lo hi :
  lo <= a -> a <= hi -> b <= hi -> lo <= py_max a b /\ py_max a b <= hi.
Proof. unfold py_max. pose proof (Qltb_spec a b). destruct (Qltb a b); lra. Qed.

Lemma py_max_ge a b : a <= py_max a b.
Proof. unfold py_max. pose proof (Qltb_spec a b). destruct (Qltb a b); lra. Qed.

Lemma py_min_bounds a b lo hi :
  lo <= a -> a <= hi -> lo <= b -> lo <= py_min a b /\ py_min a b <= hi.
Proof. unfold py_min. pose proof (Qltb_spec b a). destruct (Qltb b a); lra. Qed.

Lemma clamp_range v : - (1) <= clamp v /\ clamp v <= 1.
Proof.
  unfold clamp, py_max, py_min.
  pose proof (Qltb_spec v 1.0).
  destruct (Qltb v 1.0);
    match goal with
    | |- context [Qltb ?a ?b] => pose proof (Qltb_spec a b); destruct (Qltb a b)
    end; lra.
Qed.

Lemma Qsum_nonneg l : Forall (fun x => 0 <= x) l -> 0 <= Qsum l.
Proof. induction 1 as [|x l Hx _ IH]; simpl; lra. Qed.

Lemma Qnat_nonneg n : 0 <= Qnat n.
Proof. unfold Qnat, Qle. simpl. lia. Qed.

Lemma emoji_score_nonneg emojis text : 0 <= emoji_score emojis text.
Proof.
  apply Qsum_nonneg, List.Forall_forall. intros x Hx.
  apply in_map_iff in Hx as [e [<- _]].
  destruct (PyStr.str_in e text); [|lra].
  pose proof (Qnat_nonneg (PyStr.count text e)). nra.
Qed.

Lemma expression_score_nonneg es text : 0 <= expression_score es text.
Proof.
  apply Qsum_nonneg, List.Forall_forall. intros x Hx.
  apply in_map_iff in Hx as [e [<- _]]. destruct (PyStr.str_in e text); lra.
Qed.

Lemma match_score_nonneg ms : 0 <= match_score ms.
Proof.
  apply Qsum_nonneg, List.Forall_forall. intros x Hx.
  apply in_map_iff in Hx as [m [<- _]].
  pose proof (Qnat_nonneg (PyStr.len m)). nra.
Qed.

Lemma positive_score_nonneg text : 0 <= positive_score text.
Proof.
  unfold positive_score.
  pose proof (emoji_score_nonneg positive_emojis text).
  pose proof (expression_score_nonneg positive_expressions (PyStr.lower text)).
  destruct (PyStr.str_in "!!!" text); [lra|].
  destruct (PyStr.str_in "!!" text); [lra|].
  destruct (PyStr.endswith text "!"); lra.
Qed.

Lemma negative_score_nonneg text : 0 <= negative_score text.
Proof.
  unfold negative_score.
  pose proof (emoji_score_nonneg negative_emojis text).
  pose proof (expression_score_nonneg negative_expressions (PyStr.lower text)).
  destruct (PyStr.str_in "..." text); destruct (PyStr.endswith text "..."); lra.
Qed.

Lemma intensity_score_nonneg text : 0 <= intensity_score finditer text.
Proof.
  unfold intensity_score.
  assert (0 <= Qsum (List.map (fun pattern => match_score (finditer pattern true text))
                              repetition_patterns)).
  { apply Qsum_nonneg, List.Forall_forall. intros x Hx.
    apply in_map_iff in Hx as [m [<- _]]. apply match_score_nonneg. }
  pose proof (Qnat_nonneg (length (finditer "\b[A-Z]{2,}\b" false text))).
  destruct (re_search finditer "!{2,}" text);
    destruct (re_search finditer "\?{2,}" text);
    destruct (re_search finditer "\.{3,}" text); lra.
Qed.

Lemma calculate_scores_in_range text :
  Claims.scores_in_range (calculate_psychological_scores finditer text).
Proof.
  unfold Claims.scores_in_range, calculate_psychological_scores. simpl.
  pose proof (positive_score_nonneg text).
  pose proof (negative_score_nonneg text).
  pose proof (intensity_score_nonneg text).
  pose proof (Qabs_nonneg (engagement_score finditer text)).
  destruct (py_max_bounds 0
              (1.0 - (positive_score text + negative_score text
                      + intensity_score finditer text
                      + Qabs (engagement_score finditer text)) * 0.1) 0 1);
    try lra.
  repeat split; assumption.
Qed.

Lemma enhance_in_range scores emotions :
  Claims.scores_in_range scores -> Claims.scores_in_range (enhance scores emotions).
Proof.
  unfold Claims.scores_in_range, enhance. intros (Hp & Hn & Hr0 & Hr1).
  destruct (decide (emotions = ∅)); [auto|].
  destruct (emotions !! "joy") as [joy|];
    destruct (emotions !! "sadness") as [sadness|];
    destruct (emotions !! "anger") as [anger|];
    destruct (emotions !! "fear") as [fear|]; simpl;
    repeat split; auto;
    repeat match goal with
           | |- 0 <= py_max ?a ?b => apply Qle_trans with a; [|apply py_max_ge]
           end; auto.
Qed.

(** The confidence of every branch of [determine_psychological_state]. *)
Lemma confidence_in_unit scores :
  Claims.scores_in_range scores ->
  0 <= snd (determine_psychological_state scores) /\
  snd (determine_psychological_state scores) <= 1.
Proof.
  intros (Hp & Hn & Hr0 & Hr1). unfold determine_psychological_state.
  pose proof (Qabs_nonneg (high_engagement scores)).
  repeat match goal with
         | |- context [if Qltb ?a ?b && _ then _ else _] =>
             pose proof (Qltb_spec a b); destruct (Qltb a b); cbn [andb orb]
         | |- context [if Qltb ?a ?b || _ then _ else _] =>
             pose proof (Qltb_spec a b); destruct (Qltb a b); cbn [andb orb]
         | |- context [if Qltb ?a ?b then _ else _] =>
             pose proof (Qltb_spec a b); destruct (Qltb a b)
         end;
    cbn [snd];
    try (apply py_min_bounds; lra);
    try (apply py_max_bounds; lra);
    lra.
Qed.

Lemma load_model_returns_true st :
  exists st', load_model env st = Return (true, st').
Proof.
  unfold load_model. destruct (_model_loaded st); [eauto|].
  destruct (TORCH_AVAILABLE env); simpl; [|eauto].
  destruct (transformers_available env); simpl; [|eauto].
  destruct (emotion_model env); simpl; [eauto|].
  destruct (alternative_model env); simpl; eauto.
Qed.

Lemma analysis_failed_in_range e :
  (0 <= confidence (analysis_failed e) /\ confidence (analysis_failed e) <= 1) /\
  Claims.profile_in_range (psychological_profile (analysis_failed e)).
Proof.
  split; [simpl; lra|]. intros key Hk. simpl in Hk.
  destruct Hk as [<-|[<-|[<-|[<-|[]]]]]; simpl;
    repeat (rewrite lookup_insert_ne by discriminate);
    rewrite lookup_insert_eq; eexists; (split; [reflexivity|lra]).
Qed.

Lemma analyse_in_range st text c :
  analyse env finditer st text = Return c ->
  (0 <= confidence c /\ confidence c <= 1) /\
  Claims.profile_in_range (psychological_profile c).
Proof.
  unfold analyse. destruct text as [s| |n]; simpl; try discriminate.
  set (scores := enhance _ _).
  assert (R : Claims.scores_in_range scores)
    by apply enhance_in_range, calculate_scores_in_range.
  pose proof (confidence_in_unit scores R) as C.
  destruct (determine_psychological_state scores) as [state conf].
  destruct (generate_psychological_insights _ _ _) as [insights|e]; simpl;
    [|discriminate].
  intros [= <-]. simpl. split; [exact C|].
  intros key Hk. simpl in Hk. rewrite lookup_fmap.
  destruct Hk as [<-|[<-|[<-|[<-|[]]]]];
    repeat (rewrite lookup_insert_ne by discriminate);
    rewrite lookup_insert_eq; simpl; eexists; (split; [reflexivity|apply clamp_range]).
Qed.

(** C9.  For every input, [classify_query] returns a record whose
    confidence lies in [0, 1] and whose profile has the components
    valence, arousal, engagement and regulation, each in [-1, 1]. *)
Theorem C9_confidence_and_profile_ranges st text :
  exists c st',
    classify_query env finditer st text = Return (c, st') /\
    (0 <= confidence c /\ confidence c <= 1) /\
    Claims.profile_in_range (psychological_profile c).
Proof.
  unfold classify_query.
  assert (L : exists st', (if _model_loaded st then Return (true, st)
                           else load_model env st) = Return (true, st')).
  { destruct (_model_loaded st); [eauto|apply load_model_returns_true]. }
  destruct L as [st' ->]. simpl.
  destruct (analyse env finditer st' text) as [c|e] eqn:A; simpl.
  - exists c, st'. split; [reflexivity|]. now apply (analyse_in_range st' text).
  - exists (analysis_failed e), st'. split; [reflexivity|]. apply analysis_failed_in_range.
Qed.

End Scoring.

(** The first call loads the classifier; the text [fine] is one word
without any signal. *)
Example classify_fine :
  exists c,
    Emotion.classify_query Samples.bare_env Samples.no_matches Samples.cold
      (Emotion.PyStr "fine")
    = Return (c, Emotion.mkState true None) /\
    Emotion.primary_state c = "low_engagement_shutdown" /\
    (Emotion.confidence c == 0.7)%Q /\
    Emotion.tool c = "meditation" /\
    Emotion.error c = None.
Proof. eexists. split; [vm_compute; reflexivity|]. repeat split. Qed.

(** * Further properties of the code *)

(** ** search_engine.py: the endpoint loop *)

Section EndpointLoop.
Import PyStr.

Lemma bot_page_detected text :
  Facts.bot_page text -> SearchEngine.bot_detected text = true.
Proof.
  intros [B [C|C]]; unfold SearchEngine.bot_detected;
    rewrite (names_lower _ _ B eq_refl), (names_lower _ _ C eq_refl); simpl;
    [reflexivity|apply orb_true_r].
Qed.

(** When no endpoint contributes, the loop ends with the empty list. *)
Lemma try_endpoints_nothing web urls n :
  (forall u l, In u urls -> SearchEngine.attempt (web u) n <> Return (Some l)) ->
  SearchEngine.try_endpoints web urls n = Return [].
Proof.
  induction urls as [|u urls IH]; simpl; intros H; [reflexivity|].
  destruct (SearchEngine.attempt (web u) n) as [[rs|]|e] eqn:A; simpl.
  - exfalso. apply (H u rs); auto.
  - apply IH. intros u' l Hu. apply H. auto.
  - apply IH. intros u' l Hu. apply H. auto.
Qed.

Lemma attempt_needs_response ep n l :
  SearchEngine.attempt ep n = Return (Some l) ->
  SearchEngine.first_get ep <> SearchEngine.ResponseError /\
  SearchEngine.debug_write ep = true.
Proof.
  unfold SearchEngine.attempt.
  destruct (SearchEngine.first_get ep) as [|t1 s1]; simpl; [discriminate|].
  destruct (SearchEngine.bot_detected t1);
    [destruct (SearchEngine.second_get ep) as [|t2 s2]; simpl; [discriminate|]|simpl];
    (destruct (SearchEngine.debug_write ep); simpl; [|discriminate]);
    intros _; split; congruence.
Qed.

Lemma challenged_attempt ep n l :
  Facts.challenged ep -> SearchEngine.attempt ep n <> Return (Some l).
Proof.
  intros (t1 & s1 & H1 & B1 & H2). unfold SearchEngine.attempt. rewrite H1. simpl.
  rewrite (bot_page_detected _ B1).
  destruct H2 as [->|(t2 & s2 & -> & B2)]; simpl; [discriminate|].
  destruct (SearchEngine.debug_write ep); simpl; [|discriminate].
  rewrite (bot_page_detected _ B2). discriminate.
Qed.

(** X1.  [scrape_ddg_html] of [search_engine.py] returns a list whatever
    the endpoints answer, and the empty list when every request fails. *)
Theorem X1_search_engine_survives_failures web query n :
  (exists l, SearchEngine.scrape_ddg_html web query n = Return l) /\
  ((forall u, In u (SearchEngine.endpoints query) ->
              SearchEngine.first_get (web u) = SearchEngine.ResponseError) ->
   SearchEngine.scrape_ddg_html web query n = Return []).
Proof.
  split; [apply se_try_endpoints_returns|].
  intros H. apply try_endpoints_nothing. intros u l Hu A.
  apply attempt_needs_response in A as [A _]. now apply A, H.
Qed.

(** X2.  A non-empty result of [scrape_ddg_html] is what one endpoint
    yields, the first one in the order of the list that yields anything:
    results of different endpoints are never merged. *)
Theorem X2_first_endpoint_wins web query n l :
  SearchEngine.scrape_ddg_html web query n = Return l ->
  l <> [] ->
  exists before u after,
    SearchEngine.endpoints query = (before ++ u :: after)%list /\
    SearchEngine.attempt (web u) n = Return (Some l) /\
    forall u' l', In u' before -> SearchEngine.attempt (web u') n <> Return (Some l').
Proof.
  unfold SearchEngine.scrape_ddg_html.
  induction (SearchEngine.endpoints query) as [|u urls IH]; simpl.
  - intros [= <-]. congruence.
  - destruct (SearchEngine.attempt (web u) n) as [[rs|]|e] eqn:A; simpl.
    + intros [= <-] _. exists [], u, urls. repeat split; auto; intros ? ? [].
    + intros H N. destruct (IH H N) as (b & v & a & -> & Hv & Hb).
      exists (u :: b), v, a. repeat split; auto.
      intros u' l' [<-|Hu]; [congruence|now apply Hb].
    + intros H N. destruct (IH H N) as (b & v & a & -> & Hv & Hb).
      exists (u :: b), v, a. repeat split; auto.
      intros u' l' [<-|Hu]; [congruence|now apply Hb].
Qed.

(** X3.  A page that names [bot] and [challenge] (or [anomaly]), in any
    letter case, counts as a bot page even when it is a genuine results
    page: when every endpoint answers with such pages the search returns
    nothing. *)
Theorem X3_bot_words_discard_the_page web query n :
  (forall u, In u (SearchEngine.endpoints query) -> Facts.challenged (web u)) ->
  SearchEngine.scrape_ddg_html web query n = Return [].
Proof.
  intros H. apply try_endpoints_nothing. intros u l Hu.
  apply challenged_attempt. now apply H.
Qed.
End EndpointLoop.

Lemma X1_search_engine_survives_failures_witness :
  (exists l, SearchEngine.scrape_ddg_html Samples.offline_web "python programming" 10
             = Return l) /\
  SearchEngine.scrape_ddg_html Samples.offline_web "python programming" 10 = Return [].
Proof.
  destruct (X1_search_engine_survives_failures Samples.offline_web
              "python programming" 10) as [A B].
  split; [exact A|]. apply B. intros u _. reflexivity.
Defined.

Lemma X2_first_endpoint_wins_witness :
  exists before u after,
    SearchEngine.endpoints "python programming" = (before ++ u :: after)%list /\
    SearchEngine.attempt (Samples.five_web u) 3
    = Return (Some [Samples.result_item "1"; Samples.result_item "2";
                    Samples.result_item "3"]) /\
    forall u' l', In u' before ->
                  SearchEngine.attempt (Samples.five_web u') 3 <> Return (Some l').
Proof.
  apply (X2_first_endpoint_wins Samples.five_web "python programming" 3).
  - vm_compute. reflexivity.
  - discriminate.
Defined.

Lemma X3_bot_words_discard_the_page_witness :
  SearchEngine.scrape_ddg_html MoreSamples.robot_web "robot challenge" 10 = Return [].
Proof.
  apply (X3_bot_words_discard_the_page MoreSamples.robot_web "robot challenge" 10).
  intros u _.
  assert (B : Facts.bot_page "<html>Robot Challenge 2024 - results</html>").
  { split; [exists "bot"|left; exists "Challenge"]; split; reflexivity. }
  eexists _, _. split; [reflexivity|]. split; [exact B|].
  right. eexists _, _. split; [reflexivity|exact B].
Defined.

(** ** The debug dump and the parse loops *)

Section ParseLoops.
Import PyStr.

(** X4.  The page is written to the debug file inside the [try] that
    parses it, so when the file cannot be written a fetched page is lost:
    [scrape_ddg_html] of [search_engine.py] and of [simple_ddg_scraper.py]
    return the empty list and [ddg_search] raises. *)
Theorem X4_debug_dump_failure_loses_the_page
        web_engine web_simple web_ddg query n t soup t' soup' :
  (forall u, In u (SearchEngine.endpoints query) ->
             SearchEngine.debug_write (web_engine u) = false) ->
  web_simple ("https://html.duckduckgo.com/html/?q=" +:+ Urllib.quote_plus query)
  = SimpleDdg.ResponseOk t soup false ->
  web_ddg ("https://duckduckgo.com/?q=" +:+ Urllib.quote_plus query +:+ "&kl=us-en&ia=web")
  = DdgScraper.ResponseOk t' soup' false ->
  SearchEngine.scrape_ddg_html web_engine query n = Return [] /\
  SimpleDdg.scrape_ddg_html web_simple query n = Return [] /\
  DdgScraper.ddg_search web_ddg query n = Raise OSError.
Proof.
  intros He Hs Hd. repeat split.
  - apply try_endpoints_nothing. intros u l Hu A.
    apply attempt_needs_response in A as [_ A]. rewrite (He u Hu) in A. discriminate.
  - unfold SimpleDdg.scrape_ddg_html. now rewrite Hs.
  - unfold DdgScraper.ddg_search, DdgScraper._ddg_requests_search. simpl.
    now rewrite Hd.
Qed.

Lemma flask_extract_app a b :
  FlaskApp.extract (a ++ b) = (FlaskApp.extract a ++ FlaskApp.extract b)%list.
Proof.
  induction a as [|c a IH]; simpl; [reflexivity|].
  destruct (try_except _ _) as [[r|]|e]; simpl; now rewrite IH.
Qed.

Lemma flask_broken_container c e :
  FlaskApp.title_elem c = Raise e \/ FlaskApp.snippet_elem c = Raise e ->
  exists e', FlaskApp.parse_container c = Raise e'.
Proof.
  unfold FlaskApp.parse_container. intros [H|H]; rewrite H; simpl; [eauto|].
  destruct (FlaskApp.title_elem c) as [el|e'']; simpl; eauto.
Qed.

(** X5.  A container whose title or snippet cannot be read is skipped and
    leaves the items of the containers around it as they are, in their
    order. *)
Theorem X5_broken_container_is_skipped html before c after e :
  FlaskApp.title_elem c = Raise e \/ FlaskApp.snippet_elem c = Raise e ->
  FlaskApp.fetch_google_results (FlaskApp.Loaded html (before ++ c :: after))
  = FlaskApp.fetch_google_results (FlaskApp.Loaded html (before ++ after)).
Proof.
  intros H. destruct (flask_broken_container c e H) as [e' P]. simpl.
  destruct (FlaskApp.is_blocked html); [reflexivity|].
  rewrite !flask_extract_app. simpl. now rewrite P.
Qed.

Lemma simple_parse_container_item c r :
  SimpleDdg.parse_container c = Return (Some r) ->
  strip_ascii (title r) = title r /\ (5 <= len (title r))%nat /\ url r <> EmptyString.
Proof.
  unfold SimpleDdg.parse_container.
  destruct (find _ _) as [main|]; [|discriminate].
  destruct (negb _ || _) eqn:G; [discriminate|].
  apply orb_false_iff in G as [Gn Gl]. apply negb_false_iff in Gn.
  apply Nat.ltb_ge in Gl.
  match goal with
  | |- (url ← ?u; _) = _ -> _ => destruct u as [x|e]; simpl; [|discriminate]
  end.
  rewrite Gn. simpl. destruct (nonempty x) eqn:Nx; [|discriminate].
  intros [= <-]. simpl. repeat split; auto using get_text_strip_trimmed.
  now apply nonempty_true.
Qed.

Lemma simple_extract_items cs r :
  In r (SimpleDdg.extract cs) ->
  strip_ascii (title r) = title r /\ (5 <= len (title r))%nat /\ url r <> EmptyString.
Proof.
  induction cs as [|c cs IH]; simpl; [contradiction|].
  destruct (SimpleDdg.parse_container c) as [[r'|]|e] eqn:P; simpl; auto.
  intros [<-|H]; [now apply (simple_parse_container_item c)|auto].
Qed.

(** X6.  [scrape_ddg_html] of [simple_ddg_scraper.py] returns a list
    whatever the request does, the empty list when the request fails, and
    every item has a trimmed title (no whitespace of ASCII at either end)
    of at least five characters and a url that is not empty. *)
Theorem X6_simple_scraper_items web query n :
  exists l,
    SimpleDdg.scrape_ddg_html web query n = Return l /\
    (web ("https://html.duckduckgo.com/html/?q=" +:+ Urllib.quote_plus query)
     = SimpleDdg.ResponseError -> l = []) /\
    forall r, In r l ->
              strip_ascii (title r) = title r /\ (5 <= len (title r))%nat /\
              url r <> EmptyString.
Proof.
  unfold SimpleDdg.scrape_ddg_html, SimpleDdg.scrape_body.
  destruct (web _) as [|t soup [|]]; simpl.
  - exists []. split; [reflexivity|]. split; [reflexivity|]. intros r [].
  - eexists. split; [reflexivity|]. split; [discriminate|].
    intros r. apply simple_extract_items.
  - exists []. split; [reflexivity|]. split; [reflexivity|]. intros r [].
Qed.
End ParseLoops.

Lemma X4_debug_dump_failure_loses_the_page_witness :
  SearchEngine.scrape_ddg_html MoreSamples.readonly_web "python programming" 3 = Return [] /\
  SimpleDdg.scrape_ddg_html MoreSamples.readonly_simple_web "python programming" 3
  = Return [] /\
  DdgScraper.ddg_search MoreSamples.readonly_ddg_web "python programming" 3 = Raise OSError.
Proof.
  eapply (X4_debug_dump_failure_loses_the_page MoreSamples.readonly_web
            MoreSamples.readonly_simple_web MoreSamples.readonly_ddg_web
            "python programming" 3).
  - intros u _. reflexivity.
  - reflexivity.
  - reflexivity.
Defined.

Lemma X5_broken_container_is_skipped_witness :
  FlaskApp.fetch_google_results
    (FlaskApp.Loaded "<html></html>"
       ([MoreSamples.good_container]
        ++ MoreSamples.broken_container :: [MoreSamples.good_container]))
  = FlaskApp.fetch_google_results
      (FlaskApp.Loaded "<html></html>"
         ([MoreSamples.good_container] ++ [MoreSamples.good_container])).
Proof.
  apply (X5_broken_container_is_skipped "<html></html>" [MoreSamples.good_container]
           MoreSamples.broken_container [MoreSamples.good_container] PlaywrightError).
  left. reflexivity.
Defined.

(** ** ddg_scraper.py: what is emitted *)

Section DdgItems.
Import PyStr.

Lemma ddg_extract_app a b :
  DdgScraper.extract (a ++ b) = (DdgScraper.extract a ++ DdgScraper.extract b)%list.
Proof.
  induction a as [|c a IH]; simpl; [reflexivity|].
  destruct (try_except _ _) as [[r|]|e]; simpl; now rewrite IH.
Qed.

Lemma ddg_parse_element_item d r :
  DdgScraper.parse_element d = Return (Some r) ->
  title r <> EmptyString /\ url r <> EmptyString.
Proof.
  unfold DdgScraper.parse_element.
  destruct d as [text [h|]|[[text h]|] sn]; simpl; try discriminate;
    match goal with
    | |- context [nonempty ?l && startswith ?l "/l/?uddg="] =>
        destruct (nonempty l && startswith l "/l/?uddg=")
    end;
    repeat match goal with
           | |- (_ ← ?u; _) = _ -> _ => destruct u; simpl; [|discriminate]
           | |- (if ?a && ?b then _ else _) = _ -> _ =>
               let A := fresh "A" in let B := fresh "B" in
               destruct a eqn:A; destruct b eqn:B; simpl; try discriminate
           end;
    try (intros [= <-]; simpl; split; now apply nonempty_true).
Qed.

Lemma ddg_relative_link d link :
  Facts.link_of d = Some link -> link <> EmptyString ->
  startswith link "http" = false -> startswith link "/l/?uddg=" = false ->
  DdgScraper.parse_element d = Return None.
Proof.
  intros L N H W. apply nonempty_true in N. unfold DdgScraper.parse_element.
  destruct d as [text [h|]|[[text [h|]]|] sn]; simpl in L; try discriminate;
    injection L as L; subst; try discriminate; simpl;
    now rewrite W, andb_false_r, N, H.
Qed.

(** X7.  Every item [_ddg_requests_search] emits has a title and a url
    that are not empty, and an element whose link is relative and not a
    [/l/?uddg=] wrapper is dropped without touching the items of the
    others. *)
Theorem X7_ddg_relative_links_are_dropped before d after link :
  Facts.link_of d = Some link -> link <> EmptyString ->
  startswith link "http" = false -> startswith link "/l/?uddg=" = false ->
  DdgScraper.extract (before ++ d :: after)
  = (DdgScraper.extract before ++ DdgScraper.extract after)%list /\
  forall r, In r (DdgScraper.extract (before ++ d :: after)) ->
            title r <> EmptyString /\ url r <> EmptyString.
Proof.
  intros L N H W. split.
  - rewrite ddg_extract_app. simpl.
    now rewrite (ddg_relative_link d link L N H W).
  - generalize (before ++ d :: after)%list. intros ds r.
    induction ds as [|x ds IH]; simpl; [contradiction|].
    destruct (DdgScraper.parse_element x) as [[r'|]|e] eqn:P; simpl; auto.
    intros [<-|Hr]; [now apply (ddg_parse_element_item x)|auto].
Qed.

Lemma http_is_no_wrapper link :
  startswith link "http" = true -> startswith link "/l/?uddg=" = false.
Proof.
  unfold startswith. destruct link as [|c link]; [discriminate|].
  change (String.prefix "http" (String c link))
    with (if ascii_dec "h" c then String.prefix "ttp" link else false).
  destruct (ascii_dec "h" c) as [<-|]; intros H; [reflexivity|discriminate H].
Qed.

Lemma in_slice_to {A} (x : A) xs k : In x (Bs4.slice_to xs k) -> In x xs.
Proof.
  assert (F : forall m (l : list A), In x (firstn m l) -> In x l).
  { induction m as [|m IH]; intros [|y l]; simpl; try tauto.
    intros [H|H]; [auto|right; now apply IH]. }
  unfold Bs4.slice_to. destruct (0 <=? k)%Z; apply F.
Qed.

Lemma ddg_fallback_element link :
  DdgScraper.looks_like_result link = true ->
  DdgScraper.parse_element (DdgScraper.A (Bs4.a_text link) (Some (Bs4.href link)))
  = Return (Some (mkResult (Bs4.get_text_strip (Bs4.a_text link)) (Bs4.href link)
                           (Some EmptyString))).
Proof.
  unfold DdgScraper.looks_like_result. intros H.
  apply andb_prop in H as [H _]. apply andb_prop in H as [H Hlen].
  apply andb_prop in H as [Hh _].
  assert (Nl : nonempty (Bs4.href link) = true).
  { unfold startswith in Hh. destruct (Bs4.href link); [discriminate|reflexivity]. }
  assert (Nt : nonempty (Bs4.get_text_strip (Bs4.a_text link)) = true).
  { apply Nat.ltb_lt in Hlen. destruct (Bs4.get_text_strip _); [simpl in Hlen; lia|reflexivity]. }
  unfold DdgScraper.parse_element. simpl.
  now rewrite (http_is_no_wrapper _ Hh), andb_false_r, Hh, andb_false_r, Nt, Nl.
Qed.

(** X8.  When no selector finds anything, [_ddg_requests_search] falls
    back to the links of the page: every item it then returns is a link
    whose text has more than ten characters and none of the words
    [privacy], [settings], [about] in any letter case, and whose target
    starts with [http] but not with [https://duckduckgo.com]; there are at
    most [max_results] of them and none has a snippet. *)
Theorem X8_ddg_link_fallback web query n t soup l :
  (0 <= n)%Z ->
  web ("https://duckduckgo.com/?q=" +:+ Urllib.quote_plus query +:+ "&kl=us-en&ia=web")
  = DdgScraper.ResponseOk t soup true ->
  DdgScraper.first_selection soup DdgScraper.selectors = [] ->
  DdgScraper.ddg_search web query n = Return l ->
  (Z.of_nat (length l) <= n)%Z /\
  forall r, In r l ->
            (10 < len (title r))%nat /\
            startswith (url r) "http" = true /\
            startswith (url r) "https://duckduckgo.com" = false /\
            (forall word, In word ["privacy"; "settings"; "about"] ->
                          str_in word (lower (title r)) = false) /\
            snippet r = Some EmptyString.
Proof.
  intros Hn Hw Hs. unfold DdgScraper.ddg_search, DdgScraper._ddg_requests_search. simpl.
  rewrite Hw. simpl. unfold DdgScraper.result_divs. rewrite Hs.
  intros [= <-]. split.
  - match goal with
    | |- context [DdgScraper.extract ?ds] =>
        pose proof (ddg_extract_length ds);
        match ds with
        | Bs4.slice_to ?x _ => pose proof (slice_to_length x n Hn)
        end
    end. lia.
  - intros r Hr.
    assert (S : forall ds, In r (DdgScraper.extract ds) ->
                           exists d, In d ds /\ DdgScraper.parse_element d = Return (Some r)).
    { clear. induction ds as [|x ds IH]; simpl; [contradiction|].
      destruct (DdgScraper.parse_element x) as [[r'|]|e] eqn:P; simpl.
      - intros [<-|H]; [eauto|]. destruct (IH H) as [d [? ?]]. eauto.
      - intros H. destruct (IH H) as [d [? ?]]. eauto.
      - intros H. destruct (IH H) as [d [? ?]]. eauto. }
    apply S in Hr as [d [Hd Hp]].
    apply in_slice_to, in_slice_to in Hd. apply in_map_iff in Hd as [link [<- Hl]].
    apply filter_In in Hl as [_ Hl].
    rewrite (ddg_fallback_element link Hl) in Hp. injection Hp as <-. simpl.
    unfold DdgScraper.looks_like_result in Hl.
    apply andb_prop in Hl as [Hl Hwords]. apply andb_prop in Hl as [Hl Hlen].
    apply andb_prop in Hl as [Hh Hd]. apply negb_true_iff in Hd, Hwords.
    apply Nat.ltb_lt in Hlen. repeat split; auto.
    intros word Hword. simpl in Hwords, Hword.
    rewrite orb_false_r in Hwords. apply orb_false_iff in Hwords as [W1 W2].
    apply orb_false_iff in W2 as [W2 W3].
    destruct Hword as [<-|[<-|[<-|[]]]]; assumption.
Qed.
End DdgItems.

Lemma X7_ddg_relative_links_are_dropped_witness :
  DdgScraper.extract ([MoreSamples.result_box "1"]
                      ++ MoreSamples.nav_box :: [MoreSamples.result_box "2"])
  = (DdgScraper.extract [MoreSamples.result_box "1"]
     ++ DdgScraper.extract [MoreSamples.result_box "2"])%list /\
  forall r, In r (DdgScraper.extract ([MoreSamples.result_box "1"]
                                      ++ MoreSamples.nav_box
                                      :: [MoreSamples.result_box "2"])) ->
            title r <> EmptyString /\ url r <> EmptyString.
Proof.
  apply (X7_ddg_relative_links_are_dropped [MoreSamples.result_box "1"]
           MoreSamples.nav_box [MoreSamples.result_box "2"] "/about").
  - reflexivity.
  - discriminate.
  - reflexivity.
  - reflexivity.
Defined.

Lemma X8_ddg_link_fallback_witness :
  (Z.of_nat (length [MoreSamples.link_item]) <= 3)%Z /\
  forall r, In r [MoreSamples.link_item] ->
            (10 < PyStr.len (title r))%nat /\
            PyStr.startswith (url r) "http" = true /\
            PyStr.startswith (url r) "https://duckduckgo.com" = false /\
            (forall word, In word ["privacy"; "settings"; "about"] ->
                          PyStr.str_in word (PyStr.lower (title r)) = false) /\
            snippet r = Some EmptyString.
Proof.
  eapply (X8_ddg_link_fallback MoreSamples.links_web "python" 3).
  - lia.
  - reflexivity.
  - reflexivity.
  - vm_compute. reflexivity.
Defined.

(** ** api_server.py and index.py: the search endpoints with their scrapers *)

Section Endpoints.
Import PyStr.

(** X9.  The search endpoint of [api_server.py] answers 400 to a blank
    query and 200 with a list of at most ten items to any other: its
    scraper catches every failure, so the endpoint never answers 500. *)
Theorem X9_api_server_never_fails web q :
  (strip q = EmptyString -> ApiServer.status (ApiServer.search web q) = 400%nat) /\
  (strip q <> EmptyString ->
   exists l, ApiServer.search web q = ApiServer.mkResponse 200 (ApiServer.ListBody l) /\
             (length l <= 10)%nat).
Proof.
  unfold ApiServer.search. split.
  - now intros ->.
  - intros H. apply nonempty_true in H. rewrite H. simpl.
    unfold SimpleDdg.scrape_ddg_html, SimpleDdg.scrape_body.
    destruct (web _) as [|t soup [|]]; simpl;
      try (exists []; split; [reflexivity|simpl; lia]).
    eexists. split; [reflexivity|].
    pose proof (simple_extract_length
                  (Bs4.slice_to (SimpleDdg.result_containers soup) 10)).
    pose proof (slice_to_length (SimpleDdg.result_containers soup) 10). lia.
Qed.

(** X10.  With the scraper of [search_engine.py] the search endpoint of
    [index.py] answers every query that is not blank with status 200: the
    body repeats the trimmed query and holds at most ten results with
    their count, one search is counted and no error. *)
Theorem X10_index_search_succeeds web q st :
  strip q <> EmptyString ->
  exists results,
    fst (IndexApp.search (Some (SearchEngine.scrape_ddg_html web)) q st)
    = IndexApp.mkResponse 200 (IndexApp.ResultsBody (strip q) results (length results)) /\
    (length results <= 10)%nat /\
    IndexApp.search_requests
      (snd (IndexApp.search (Some (SearchEngine.scrape_ddg_html web)) q st))
    = S (IndexApp.search_requests st) /\
    IndexApp.errors (snd (IndexApp.search (Some (SearchEngine.scrape_ddg_html web)) q st))
    = IndexApp.errors st.
Proof.
  intros H. apply nonempty_true in H. unfold IndexApp.search. rewrite H. simpl.
  destruct (se_try_endpoints_returns web (SearchEngine.endpoints (strip q)) 10) as [l Hl].
  unfold SearchEngine.scrape_ddg_html. rewrite Hl. simpl.
  exists l. repeat split.
  pose proof (se_try_endpoints_length web _ 10 l ltac:(lia) Hl). lia.
Qed.

Lemma serve_blank scrape qs st :
  Forall (fun q => strip q = EmptyString) qs ->
  IndexApp.errors (snd (IndexHealth.serve scrape qs st))
  = (IndexApp.errors st + length qs)%nat /\
  Forall (fun r => IndexApp.status r = 400%nat) (fst (IndexHealth.serve scrape qs st)).
Proof.
  intros F. revert st. induction F as [|q qs Hq _ IH]; intros st; simpl.
  - split; [lia|constructor].
  - destruct (IndexApp.search scrape q st) as [r st1] eqn:R.
    unfold IndexApp.search in R. rewrite Hq in R. simpl in R. injection R as <- <-.
    destruct (IH (IndexApp.update_system_stats "error" st)) as [E S].
    destruct (IndexHealth.serve scrape qs _) as [rs st2]. simpl in *.
    split; [rewrite E; lia|constructor; auto].
Qed.

(** X11.  Every blank search request is answered 400 and counted as an
    error, and the health check reads that counter: once more than ten
    errors are counted it answers 503, although both modules are loaded. *)
Theorem X11_blank_queries_turn_health_unhealthy scrape qs st :
  Forall (fun q => strip q = EmptyString) qs ->
  (10 < IndexApp.errors st + length qs)%nat ->
  Forall (fun r => IndexApp.status r = 400%nat) (fst (IndexHealth.serve scrape qs st)) /\
  IndexHealth.health_status true true (snd (IndexHealth.serve scrape qs st)) = "unhealthy" /\
  IndexHealth.health_check true true (snd (IndexHealth.serve scrape qs st)) = 503%nat.
Proof.
  intros F L. destruct (serve_blank scrape qs st F) as [E S].
  split; [exact S|]. unfold IndexHealth.health_check, IndexHealth.health_status.
  rewrite E. simpl. apply Nat.ltb_lt in L. rewrite L. split; reflexivity.
Qed.
End Endpoints.

Lemma X10_index_search_succeeds_witness :
  exists results,
    fst (IndexApp.search (Some (SearchEngine.scrape_ddg_html Samples.five_web))
                         " python " Samples.fresh_index)
    = IndexApp.mkResponse 200
        (IndexApp.ResultsBody (PyStr.strip " python ") results (length results)) /\
    (length results <= 10)%nat /\
    IndexApp.search_requests
      (snd (IndexApp.search (Some (SearchEngine.scrape_ddg_html Samples.five_web))
                            " python " Samples.fresh_index))
    = S (IndexApp.search_requests Samples.fresh_index) /\
    IndexApp.errors
      (snd (IndexApp.search (Some (SearchEngine.scrape_ddg_html Samples.five_web))
                            " python " Samples.fresh_index))
    = IndexApp.errors Samples.fresh_index.
Proof.
  apply (X10_index_search_succeeds Samples.five_web " python " Samples.fresh_index).
  vm_compute. discriminate.
Defined.

Lemma X11_blank_queries_turn_health_unhealthy_witness :
  Forall (fun r => IndexApp.status r = 400%nat)
         (fst (IndexHealth.serve Samples.five_scraper (repeat "  " 11) Samples.fresh_index)) /\
  IndexHealth.health_status true true
    (snd (IndexHealth.serve Samples.five_scraper (repeat "  " 11) Samples.fresh_index))
  = "unhealthy" /\
  IndexHealth.health_check true true
    (snd (IndexHealth.serve Samples.five_scraper (repeat "  " 11) Samples.fresh_index))
  = 503%nat.
Proof.
  apply (X11_blank_queries_turn_health_unhealthy Samples.five_scraper (repeat "  " 11)
           Samples.fresh_index).
  - simpl. repeat constructor.
  - simpl. lia.
Defined.

(** ** index.py: code execution *)

Section Execution.
Import PyStr IndexExecute.

Lemma find_first_match (f : string -> bool) l x :
  In x l -> f x = true -> exists y, List.find f l = Some y.
Proof.
  induction l as [|a l IH]; simpl; [contradiction|].
  intros [<-|H] F; [rewrite F; eauto|]. destruct (f a); eauto.
Qed.

(** X12.  [execute_python] refuses code that holds one of the dangerous
    patterns in any letter case: it answers 403 and runs nothing. *)
Theorem X12_dangerous_code_is_refused sandbox code fragment :
  In (lower fragment) dangerous_patterns ->
  str_in fragment code = true ->
  status (fst (execute_python sandbox code)) = 403%nat /\
  snd (execute_python sandbox code) = None.
Proof.
  intros Hp Hc. unfold execute_python.
  assert (N : nonempty code = true).
  { destruct code; [|reflexivity]. destruct fragment; [|discriminate Hc].
    simpl in Hp. repeat (destruct Hp as [Hp|Hp]; [discriminate Hp|]). contradiction. }
  rewrite N. simpl negb. cbv iota.
  assert (A : isascii (lower fragment) = true).
  { revert Hp. generalize (lower fragment). intros p Hp. simpl in Hp.
    repeat (destruct Hp as [<-|Hp]; [reflexivity|]). contradiction. }
  destruct (find_first_match (fun pattern => str_in pattern (lower code))
              dangerous_patterns (lower fragment) Hp (str_in_lower_mono _ _ A Hc))
    as [y ->].
  split; reflexivity.
Qed.

(** X13.  A script is run exactly when the code is not empty and its
    lowered text holds none of the dangerous patterns; the answer is then
    200, 408 or 500, and a returned file is never the script itself. *)
Theorem X13_what_is_run sandbox code :
  (snd (execute_python sandbox code) = Some code <->
   code <> EmptyString /\
   forall pattern, In pattern dangerous_patterns -> str_in pattern (lower code) = false) /\
  (snd (execute_python sandbox code) = Some code ->
   In (status (fst (execute_python sandbox code))) [200; 408; 500]%nat) /\
  forall name text stdout stderr rc listing,
    sandbox code = Completed stdout stderr rc listing ->
    In (name, text) (collect_files listing) ->
    startswith name "script_" && endswith name ".py" = false.
Proof.
  split; [|split].
  - unfold execute_python. generalize dangerous_patterns. intros dp. split.
    + intros H. destruct (nonempty code) eqn:N; simpl in H; [|discriminate].
      split; [now apply nonempty_true|].
      destruct (find _ dp) eqn:F; [discriminate|].
      intros pattern Hp. exact (find_none _ _ F pattern Hp).
    + intros [N P]. apply nonempty_true in N. rewrite N. simpl.
      destruct (find _ dp) as [y|] eqn:F; [|reflexivity].
      apply find_some in F as [Hy Hs]. rewrite (P y Hy) in Hs. discriminate.
  - unfold execute_python. generalize dangerous_patterns. intros dp.
    destruct (nonempty code); simpl; [|discriminate].
    destruct (find _ dp); [discriminate|].
    intros _. destruct (sandbox code); simpl; auto.
  - intros name text stdout stderr rc listing _ Hin.
    unfold collect_files in Hin. apply in_flat_map in Hin as [entry [_ Hin]].
    destruct (startswith (filename entry) "script_" && endswith (filename entry) ".py")
      eqn:S; [contradiction|].
    destruct (isfile entry); [|contradiction].
    destruct Hin as [[= <- _]|[]]. exact S.
Qed.
End Execution.

Lemma X12_dangerous_code_is_refused_witness :
  IndexExecute.status
    (fst (IndexExecute.execute_python (fun _ => IndexExecute.TimedOut)
                                      "IMPORT OS; print(os.getcwd())")) = 403%nat /\
  snd (IndexExecute.execute_python (fun _ => IndexExecute.TimedOut)
                                   "IMPORT OS; print(os.getcwd())") = None.
Proof.
  apply (X12_dangerous_code_is_refused (fun _ => IndexExecute.TimedOut)
           "IMPORT OS; print(os.getcwd())" "IMPORT OS").
  - simpl. auto.
  - reflexivity.
Defined.

(** Code that writes [socket] with the Kelvin sign is lowered to it and
    refused. *)
Example kelvin_sign_is_refused :
  PyStr.lower MoreSamples.kelvin_socket = "socket = 1" /\
  IndexExecute.execute_python (fun _ => IndexExecute.TimedOut) MoreSamples.kelvin_socket
  = (IndexExecute.mkResponse 403
       (IndexExecute.ErrorBody "Security violation" "Dangerous pattern detected: socket"),
     None).
Proof. split; reflexivity. Qed.

(** ** flask_app.py: cache entries, block pages and the shared browser *)

Section CacheEntries.
Import PyStr FlaskApp.

(** X14.  A non-empty list stored with [set_cache] is what [get_cached]
    returns for the same query as long as the clock reads at most
    [CACHE_TTL_SECONDS] more; the entries of other queries are as they
    were, and storing an empty list changes nothing. *)
Theorem X14_cache_round_trip query results now now' st :
  results <> [] ->
  (now' - now <= CACHE_TTL_SECONDS)%Q ->
  get_cached query now' (set_cache query results now st)
  = (Some results, set_cache query results now st) /\
  (forall other, other <> query ->
                 CACHE (set_cache query results now st) !! other = CACHE st !! other) /\
  set_cache query [] now st = st.
Proof.
  intros N L. destruct results as [|r rs]; [congruence|]. repeat split.
  - apply (get_cached_hit _ _ _ _ now); [apply lookup_insert_eq|exact L].
  - intros other H. simpl. now apply lookup_insert_ne.
Qed.

(** X15.  An entry older than [CACHE_TTL_SECONDS] is not served:
    [get_cached] returns [None] and removes it, so that no later call finds
    it, and leaves the entries of other queries alone. *)
Theorem X15_expired_entry_is_evicted query results ts now st :
  CACHE st !! query = Some (results, ts) ->
  (CACHE_TTL_SECONDS < now - ts)%Q ->
  fst (get_cached query now st) = None /\
  CACHE (snd (get_cached query now st)) !! query = None /\
  (forall other, other <> query ->
                 CACHE (snd (get_cached query now st)) !! other = CACHE st !! other) /\
  forall later, get_cached query later (snd (get_cached query now st))
                = (None, snd (get_cached query now st)).
Proof.
  intros E L.
  assert (G : get_cached query now st
              = (None, mkState (delete query (CACHE st)) (fetched st))).
  { unfold get_cached. rewrite E.
    destruct (Qle_bool (now - ts) CACHE_TTL_SECONDS) eqn:B; [|reflexivity].
    apply Qle_bool_iff in B. exfalso. apply (Qlt_not_le _ _ L B). }
  rewrite G. simpl. repeat split.
  - apply lookup_delete_eq.
  - intros other H. apply lookup_delete_ne. congruence.
  - intros later. unfold get_cached. simpl. now rewrite lookup_delete_eq.
Qed.

(** X16.  A loaded page that names [rate limit] or [too many requests],
    in any letter case, is a block page: [fetch_google_results] returns
    the empty list whatever containers the page has. *)
Theorem X16_rate_limit_page_is_blocked html containers :
  Facts.names "rate limit" html \/ Facts.names "too many requests" html ->
  fetch_google_results (Loaded html containers) = [].
Proof.
  intros H. apply blocked_page_yields_nothing.
  rewrite is_blocked_lower_case_phrases.
  destruct H as [H|H]; rewrite (names_lower _ _ H eq_refl); [reflexivity|apply orb_true_r].
Qed.
End CacheEntries.

Section BrowserPool.
Import FlaskPool.

(** The driver is started at most once, and a pool without a driver has
    started none and holds no browser. *)
Lemma pool_invariant calls p :
  (starts p <= 1)%nat ->
  (_PLAYWRIGHT p = false -> starts p = 0%nat) ->
  (starts (get_browsers calls p) <= 1)%nat /\
  (launches (get_browsers calls p) <= launches p + length calls)%nat.
Proof.
  revert p. induction calls as [|call calls IH]; intros p Hs Hp; simpl.
  - split; [exact Hs|lia].
  - assert (Step : (starts (snd (get_browser call p)) <= 1)%nat /\
                   (_PLAYWRIGHT (snd (get_browser call p)) = false ->
                    starts (snd (get_browser call p)) = 0%nat) /\
                   (launches (snd (get_browser call p)) <= 1 + launches p)%nat).
    { unfold get_browser, launch.
      destruct (_BROWSER p) as [b|]; [destruct (is_connected call b)|];
        destruct (_PLAYWRIGHT p) eqn:W; destruct (start_ok call);
          destruct (launch_ok call); simpl;
            repeat split; try (intros; discriminate); try lia;
            try (rewrite (Hp eq_refl); lia); auto; rewrite W; intros; discriminate. }
    destruct Step as (S1 & P1 & L1).
    destruct (IH _ S1 P1) as [A B]. split; [exact A|lia].
Qed.

(** X17.  Over any sequence of [get_browser] calls, whatever they observe,
    the Playwright driver is started at most once and at most one browser
    is launched per call; a pooled browser that is still connected is
    handed out again without a launch. *)
Theorem X17_shared_browser_pool calls :
  let p := get_browsers calls empty_pool in
  (starts p <= 1)%nat /\ (launches p <= length calls)%nat /\
  forall call b,
    _BROWSER p = Some b -> is_connected call b = true ->
    get_browser call p = (Return b, p).
Proof.
  intros p. destruct (pool_invariant calls empty_pool) as [A B]; simpl; auto.
  repeat split; auto.
  intros call b Hb Hc. unfold get_browser. now rewrite Hb, Hc.
Qed.
End BrowserPool.

Lemma X14_cache_round_trip_witness :
  FlaskApp.get_cached "python" 300
    (FlaskApp.set_cache "python" [Samples.python_item] 0 FlaskApp.initial)
  = (Some [Samples.python_item],
     FlaskApp.set_cache "python" [Samples.python_item] 0 FlaskApp.initial).
Proof.
  apply (X14_cache_round_trip "python" [Samples.python_item] 0 300 FlaskApp.initial).
  - discriminate.
  - vm_compute. discriminate.
Defined.

Lemma X15_expired_entry_is_evicted_witness :
  fst (FlaskApp.get_cached "python" 601
         (FlaskApp.set_cache "python" [Samples.python_item] 0 FlaskApp.initial)) = None.
Proof.
  apply (X15_expired_entry_is_evicted "python" [Samples.python_item] 0 601
           (FlaskApp.set_cache "python" [Samples.python_item] 0 FlaskApp.initial)).
  - apply lookup_insert_eq.
  - reflexivity.
Defined.

Lemma X16_rate_limit_page_is_blocked_witness :
  FlaskApp.fetch_google_results
    (FlaskApp.Loaded "<h1>Rate Limit exceeded</h1>" [MoreSamples.good_container]) = [].
Proof.
  apply (X16_rate_limit_page_is_blocked "<h1>Rate Limit exceeded</h1>"
           [MoreSamples.good_container]).
  left. exists "Rate Limit". split; reflexivity.
Defined.

(** ** emotion_classifier.py: what a text is given *)

Section Classified.
Import Emotion.
Local Open Scope Q_scope.
Variable env : Env.
Variable finditer : string -> bool -> string -> list string.

(** The ten states [determine_psychological_state] can name. *)
Lemma state_is_known scores :
  In (fst (determine_psychological_state scores)) Facts.states.
Proof.
  unfold determine_psychological_state, Facts.states.
  repeat match goal with
         | |- context [if ?b then _ else _] => destruct b
         end; cbn [fst In]; tauto.
Qed.

Lemma confidence_floor scores :
  Claims.scores_in_range scores ->
  0.35 < snd (determine_psychological_state scores).
Proof.
  intros (Hp & Hn & Hr0 & Hr1). unfold determine_psychological_state.
  pose proof (Qabs_nonneg (high_engagement scores)).
  repeat match goal with
         | |- context [if Qltb ?a ?b && _ then _ else _] =>
             pose proof (Qltb_spec a b); destruct (Qltb a b); cbn [andb orb]
         | |- context [if Qltb ?a ?b || _ then _ else _] =>
             pose proof (Qltb_spec a b); destruct (Qltb a b); cbn [andb orb]
         | |- context [if Qltb ?a ?b then _ else _] =>
             pose proof (Qltb_spec a b); destruct (Qltb a b)
         end;
    cbn [snd]; unfold py_min, py_max;
    repeat match goal with
           | |- context [if Qltb ?a ?b then _ else _] =>
               pose proof (Qltb_spec a b); destruct (Qltb a b)
           end; lra.
Qed.

Lemma known_state_has_a_tool state :
  In state Facts.states ->
  In (fst (determine_tool_from_psychology state)) Facts.tools /\
  snd (determine_tool_from_psychology state) <> "Default tool for unknown state".
Proof.
  unfold Facts.states, Facts.tools. cbn [In].
  intros H. repeat (destruct H as [<-|H]; [vm_compute; split; [tauto|discriminate]|]).
  destruct H.
Qed.

Lemma analyse_str st s :
  exists insights,
    analyse env finditer st (PyStr s)
    = Return
        (let scores := enhance (calculate_psychological_scores finditer s)
                               (get_distilbert_emotions env finditer st s) in
         mkClassification
           (fst (determine_psychological_state scores))
           (snd (determine_psychological_state scores))
           (fst (determine_tool_from_psychology (fst (determine_psychological_state scores))))
           (clamp <$>
              (<["regulation" := neutral_regulation scores]>
                 (<["engagement" := high_engagement scores / 10.0]>
                    (<["arousal" := high_arousal scores / 10.0]>
                       (<["valence" := (positive_valence scores
                                        - negative_valence scores) / 10.0]> ∅)))))
           insights
           (Some (get_distilbert_emotions env finditer st s))
           (Some (snd (determine_tool_from_psychology
                         (fst (determine_psychological_state scores)))))
           None).
Proof.
  unfold analyse. cbn [str_method mbind outcome_bind].
  set (scores := enhance _ _). cbv zeta.
  destruct (determine_psychological_state scores) as [state conf]. cbn [fst snd].
  unfold generate_psychological_insights, getitem.
  rewrite !lookup_fmap.
  repeat (rewrite lookup_insert_ne by discriminate).
  repeat (rewrite ?lookup_insert_eq; repeat (rewrite lookup_insert_ne by discriminate);
          cbn [fmap option_fmap option_map mbind outcome_bind]).
  eexists. reflexivity.
Qed.

(** X18.  A [str] is always analysed: whatever the installation and the
    matches of the regular expressions, [classify_query] returns a record
    without error, whose state is one of the ten states, whose tool is the
    one the table gives for that state (never the default of an unknown
    state), whose emotion percentages are present and whose confidence is
    above 0.35. *)
Theorem X18_a_str_is_always_analysed st s :
  exists c st',
    classify_query env finditer st (PyStr s) = Return (c, st') /\
    error c = None /\
    In (primary_state c) Facts.states /\
    In (tool c) Facts.tools /\
    (exists reasoning, tool_reasoning c = Some reasoning /\
                       (tool c, reasoning) = determine_tool_from_psychology (primary_state c) /\
                       reasoning <> "Default tool for unknown state") /\
    emotion_percentages c = Some (get_distilbert_emotions env finditer st' s) /\
    0.35 < confidence c.
Proof.
  unfold classify_query.
  assert (L : exists st', (if _model_loaded st then Return (true, st)
                           else load_model env st) = Return (true, st')).
  { destruct (_model_loaded st); [eauto|apply load_model_returns_true]. }
  destruct L as [st' ->]. cbn [mbind outcome_bind fst snd negb].
  destruct (analyse_str st' s) as [insights ->]. cbv zeta.
  cbn [try_except mbind outcome_bind mret outcome_ret].
  eexists _, st'. split; [reflexivity|]. cbn.
  set (scores := enhance _ _).
  pose proof (state_is_known scores) as K.
  destruct (known_state_has_a_tool _ K) as [T D].
  repeat split; auto.
  - eexists. split; [reflexivity|]. split; [|exact D].
    now destruct (determine_tool_from_psychology _).
  - apply confidence_floor, enhance_in_range, calculate_scores_in_range.
Qed.

(** X19.  The model is loaded at most once: after any call the classifier
    counts as loaded, also when loading failed, and every later call
    leaves the module state as it is; a model is present only if it was
    there before or the installation has [torch] and [transformers] and
    one of the two [from_pretrained] calls gave it. *)
Theorem X19_model_is_loaded_once st text :
  exists c st',
    classify_query env finditer st text = Return (c, st') /\
    _model_loaded st' = true /\
    (_model_loaded st = true -> st' = st) /\
    (forall m, _distilbert_model st' = Some m ->
               _distilbert_model st = Some m \/
               TORCH_AVAILABLE env = true /\ transformers_available env = true /\
               (emotion_model env = Some m \/
                emotion_model env = None /\ alternative_model env = Some m)) /\
    forall text', exists c', classify_query env finditer st' text' = Return (c', st').
Proof.
  assert (L : exists st',
             (if _model_loaded st then Return (true, st) else load_model env st)
             = Return (true, st') /\
             _model_loaded st' = true /\
             (_model_loaded st = true -> st' = st) /\
             (forall m, _distilbert_model st' = Some m ->
                        _distilbert_model st = Some m \/
                        TORCH_AVAILABLE env = true /\ transformers_available env = true /\
                        (emotion_model env = Some m \/
                         emotion_model env = None /\ alternative_model env = Some m))).
  { unfold load_model. destruct (_model_loaded st) eqn:M.
    - exists st. auto.
    - destruct (TORCH_AVAILABLE env); cbn; [|eexists; repeat split; auto; discriminate].
      destruct (transformers_available env); cbn;
        [|eexists; repeat split; auto; discriminate].
      destruct (emotion_model env) as [m1|]; cbn.
      { eexists. repeat split; try discriminate. cbn. intros m [= <-]. auto. }
      destruct (alternative_model env) as [m2|]; cbn.
      { eexists. repeat split; try discriminate. cbn. intros m [= <-]. tauto. }
      eexists. repeat split; auto; discriminate. }
  destruct L as (st' & E & M' & Same & Model).
  assert (R : forall t, exists c, classify_query env finditer st t = Return (c, st')).
  { intros t. unfold classify_query. rewrite E. cbn [mbind outcome_bind fst snd negb].
    destruct (analyse env finditer st' t); cbn; eauto. }
  destruct (R text) as [c Hc]. exists c, st'. repeat split; auto.
  intros text'. unfold classify_query. rewrite M'. cbn [mbind outcome_bind fst snd negb].
  destruct (analyse env finditer st' text'); cbn; eauto.
Qed.
End Classified.

(** ** emotion_classifier.py: the emotion percentages *)

Section Percentages.
Import Emotion.
Local Open Scope Q_scope.
Variable env : Env.
Variable finditer : string -> bool -> string -> list string.

Lemma Qnat_le n m : (n <= m)%nat -> Qnat n <= Qnat m.
Proof. intros H. unfold Qnat. rewrite <- Zle_Qle. lia. Qed.

Lemma Qnat_pos n : (0 < n)%nat -> 0 < Qnat n.
Proof. intros H. unfold Qnat. change 0 with (inject_Z 0). rewrite <- Zlt_Qlt. lia. Qed.

Lemma in_le_list_sum (l : list (string * nat)) es :
  In es l -> (snd es <= list_sum (List.map snd l))%nat.
Proof.
  induction l as [|x l IH]; simpl; [tauto|]. intros [->|H]; [lia|].
  specialize (IH H). lia.
Qed.

Lemma positive_sum_has_a_term (l : list (string * nat)) :
  (0 < list_sum (List.map snd l))%nat ->
  List.filter (fun es => (0 <? snd es)%nat) l <> [].
Proof.
  induction l as [|x l IH]; simpl; [lia|]. intros H.
  destruct (0 <? snd x)%nat eqn:E; [discriminate|].
  apply Nat.ltb_ge in E. apply IH. lia.
Qed.

Lemma share_in_range n total :
  (0 < n)%nat -> (n <= total)%nat ->
  0 < Qnat n / Qnat total * 100 /\ Qnat n / Qnat total * 100 <= 100.
Proof.
  intros Hn Ht.
  assert (T : 0 < Qnat total) by (apply Qnat_pos; lia).
  assert (A : 0 < Qnat n / Qnat total).
  { apply Qlt_shift_div_l; [exact T|]. pose proof (Qnat_pos n Hn). lra. }
  assert (B : Qnat n / Qnat total <= 1).
  { apply Qle_shift_div_r; [exact T|]. pose proof (Qnat_le n total Ht). lra. }
  split; lra.
Qed.

(** X20.  The rule-based percentages are never empty; every emotion listed
    has a percentage above 0 and at most 100, and is one of the seven
    emotions of the table or [uncertain]. *)
Theorem X20_rule_based_percentages text :
  get_rule_based_emotions finditer text <> ∅ /\
  forall key v,
    get_rule_based_emotions finditer text !! key = Some v ->
    0 < v /\ v <= 100 /\
    In key ("uncertain" :: List.map emotion emotion_patterns).
Proof.
  unfold get_rule_based_emotions. cbv zeta.
  set (scores := List.map (fun p => (emotion p, pattern_score finditer text (PyStr.lower text) p))
                          emotion_patterns).
  assert (M : List.map emotion emotion_patterns = List.map fst scores).
  { subst scores. now rewrite map_map. }
  assert (K : In "neutral" (List.map fst scores)).
  { rewrite <- M. simpl. tauto. }
  rewrite M. clear M. clearbody scores.
  destruct (0 <? list_sum (List.map snd scores))%nat eqn:T.
  - apply Nat.ltb_lt in T. split.
    + pose proof (positive_sum_has_a_term scores T) as N.
      destruct (List.filter _ scores) as [|es rest]; [congruence|].
      simpl. apply insert_non_empty.
    + intros key v H. apply elem_of_list_to_map_2 in H.
      apply list_elem_of_In in H. apply in_map_iff in H.
      destruct H as (es & E & H). apply filter_In in H. destruct H as [I P].
      apply Nat.ltb_lt in P. injection E as <- <-.
      destruct (share_in_range (snd es) (list_sum (List.map snd scores)) P
                  (in_le_list_sum scores es I)) as [A B].
      split; [exact A|split; [exact B|]]. right. apply in_map_iff. eauto.
  - split; [apply insert_non_empty|].
    intros key v H. apply lookup_insert_Some in H.
    destruct H as [[<- <-]|[_ H]]; [split; [lra|split; [lra|now left]]|].
    apply lookup_insert_Some in H.
    destruct H as [[<- <-]|[_ H]]; [|rewrite lookup_empty in H; discriminate].
    split; [lra|split; [lra|now right]].
Qed.

Lemma py_max_ge_r a b : b <= py_max a b.
Proof. unfold py_max. pose proof (Qltb_spec a b). destruct (Qltb a b); lra. Qed.

(** X21.  The emotion percentages only raise the scores: after the
    enhancement the two valences and the arousal are at least what they
    were, the engagement and the regulation baseline are what they were,
    and a tenth of the percentage of joy is reached by the positive
    valence, a tenth of those of sadness, anger and fear by the negative
    valence. *)
Theorem X21_enhancement_only_raises scores emotions :
  positive_valence scores <= positive_valence (enhance scores emotions) /\
  negative_valence scores <= negative_valence (enhance scores emotions) /\
  high_arousal scores <= high_arousal (enhance scores emotions) /\
  high_engagement (enhance scores emotions) = high_engagement scores /\
  neutral_regulation (enhance scores emotions) = neutral_regulation scores /\
  (forall joy, emotions !! "joy" = Some joy ->
               joy / 10 <= positive_valence (enhance scores emotions)) /\
  (forall name v, In name ["sadness"; "anger"; "fear"] ->
                  emotions !! name = Some v ->
                  v / 10 <= negative_valence (enhance scores emotions)).
Proof.
  assert (N : forall joy, emotions !! "joy" = Some joy -> emotions <> ∅).
  { intros joy H ->. rewrite lookup_empty in H. discriminate. }
  assert (N' : forall name v, emotions !! name = Some v -> emotions <> ∅).
  { intros name v H ->. rewrite lookup_empty in H. discriminate. }
  unfold enhance.
  destruct (decide (emotions = ∅)) as [E|E].
  { repeat split; try apply Qle_refl.
    - intros joy H. destruct (N' _ _ H E).
    - intros name v _ H. destruct (N' _ _ H E). }
  destruct (emotions !! "joy") as [joy|] eqn:J;
    destruct (emotions !! "sadness") as [sadness|] eqn:S;
    destruct (emotions !! "anger") as [anger|] eqn:A;
    destruct (emotions !! "fear") as [fear|] eqn:F; cbn;
    repeat match goal with
           | |- context [py_max ?a ?b] =>
               lazymatch goal with
               | _ : a <= py_max a b |- _ => fail
               | _ => pose proof (py_max_ge a b); pose proof (py_max_ge_r a b)
               end
           end;
    (repeat split; try reflexivity; try lra;
     [ intros j [= <-]; lra
     | intros name v [<-|[<-|[<-|[]]]] Hv; rewrite ?S, ?A, ?F in Hv;
       try discriminate Hv; injection Hv as <-; lra ]).
Qed.
End Percentages.

(** ** emotion_classifier.py: the signal detectors *)

Section Signals.
Import PyStr EmotionSignals.
Local Open Scope Q_scope.
Variable finditer : string -> bool -> string -> list string.

Lemma punct_is_not_continuation c :
  ispunct c = true -> ((128 <=? code c) && (code c <? 192))%N = false.
Proof.
  unfold ispunct. intros P. destruct (128 <=? code c)%N eqn:E; [|reflexivity].
  apply N.leb_le in E. exfalso.
  repeat (apply orb_true_iff in P; destruct P as [P|P]);
    apply andb_true_iff in P; destruct P as [_ P]; apply N.leb_le in P; lia.
Qed.

Lemma count_punctuation_le_len text : (count_punctuation text <= len text)%nat.
Proof.
  induction text as [|c r IH]; simpl; [lia|].
  destruct (ispunct c) eqn:P.
  - rewrite (punct_is_not_continuation c P). lia.
  - destruct ((128 <=? code c) && (code c <? 192))%N; lia.
Qed.

Lemma ratio_nonneg a b : 0 <= Emotion.Qnat a / Emotion.Qnat b.
Proof.
  apply Qmult_le_0_compat; [apply Qnat_nonneg|].
  apply Qinv_le_0_compat, Qnat_nonneg.
Qed.

Lemma ratio_at_most_one a b :
  (a <= b)%nat -> Emotion.Qnat a / Emotion.Qnat b <= 1.
Proof.
  intros H. destruct b as [|b].
  - assert (a = 0)%nat as -> by lia. vm_compute. discriminate.
  - apply Qle_shift_div_r; [apply Qnat_pos; lia|].
    pose proof (Qnat_le a (S b) H). lra.
Qed.

(** X22.  [analyze_text_complexity] divides safely: the punctuation
    density lies in [0, 1], since a punctuation mark is one character of
    the text, and the average word length is not negative and is 0 for a
    text without words. *)
Theorem X22_text_complexity text :
  0 <= punctuation_density (analyze_text_complexity text) /\
  punctuation_density (analyze_text_complexity text) <= 1 /\
  0 <= avg_word_length (analyze_text_complexity text) /\
  (word_count (analyze_text_complexity text) = 0%nat ->
   avg_word_length (analyze_text_complexity text) = 0).
Proof.
  unfold analyze_text_complexity. cbn [punctuation_density avg_word_length word_count].
  split; [|split; [|split]].
  - destruct (nonempty text); [apply ratio_nonneg|lra].
  - destruct (nonempty text); [|lra].
    apply ratio_at_most_one, count_punctuation_le_len.
  - destruct (split text); [lra|apply ratio_nonneg].
  - destruct (split text); [reflexivity|discriminate].
Qed.

Lemma count_at_least_one sub s :
  sub <> EmptyString -> str_in sub s = true -> (1 <= count s sub)%nat.
Proof.
  intros N. unfold count. induction s as [|c r IH]; simpl.
  - destruct sub; [congruence|discriminate].
  - intros H. destruct sub as [|a sub']; [congruence|].
    change (String.prefix (String a sub') (String c r))
      with (if ascii_dec a c then String.prefix sub' r else false) in *.
    destruct (if ascii_dec a c then String.prefix sub' r else false); [lia|].
    simpl in H. auto.
Qed.

Lemma boost_is_positive boost n :
  0 < boost -> (1 <= n)%nat -> 0 < boost * (1 + 0.2 * (Emotion.Qnat n - 1)).
Proof.
  intros B N. pose proof (Qnat_le 1 n N) as L.
  change (Emotion.Qnat 1) with 1 in L. nra.
Qed.

Lemma detect_step_keeps text acc entry :
  Facts.emoji_loop text acc -> Facts.decoder_entry entry ->
  Facts.emoji_loop text (detect_step text acc entry).
Proof.
  destruct acc as [[[found dominant] highest] total].
  intros (All & Dom & High & Empty) [Key Boost]. unfold detect_step.
  destruct (str_in (emoji entry) text) eqn:In';
    [|exact (conj All (conj Dom (conj High Empty)))].
  pose proof (count_at_least_one _ _ Key In') as One.
  pose proof (boost_is_positive _ _ Boost One) as Pos.
  set (boost := confidence_boost entry * _) in *.
  pose proof (Qltb_spec highest boost) as Cmp.
  assert (Nonempty : (found ++ [mkFound (emoji entry) (emoji_emotion entry)
                                        (count text (emoji entry)) boost])%list <> [])
    by (destruct found; discriminate).
  destruct (Emotion.Qltb highest boost); unfold Facts.emoji_loop.
  - split; [|split; [|split]].
    + intros f H. apply in_app_iff in H. destruct H as [H|[<-|[]]].
      * destruct (All f H) as (A & B & C & D). repeat split; auto. lra.
      * cbn. repeat split; auto. lra.
    + split; [discriminate|]. intros H. now destruct Nonempty.
    + lra.
    + intros H. now destruct Nonempty.
  - split; [|split; [|split]].
    + intros f H. apply in_app_iff in H. destruct H as [H|[<-|[]]].
      * apply (All f H).
      * cbn. repeat split; auto.
    + split; [|intros H; now destruct Nonempty].
      intros H. apply Dom in H. destruct (Empty H) as [Z _]. subst highest. lra.
    + exact High.
    + intros H. now destruct Nonempty.
Qed.

Lemma detect_loop_keeps text decoder :
  Forall Facts.decoder_entry decoder ->
  forall acc, Facts.emoji_loop text acc ->
              Facts.emoji_loop text (fold_left (detect_step text) decoder acc).
Proof.
  induction 1 as [|entry decoder E _ IH]; intros acc H; simpl; [exact H|].
  apply IH, detect_step_keeps; assumption.
Qed.

Lemma decoder_entries : Forall Facts.decoder_entry EMOJI_DECODER.
Proof.
  unfold EMOJI_DECODER.
  repeat (apply List.Forall_cons; [split; [discriminate|reflexivity]|]).
  apply List.Forall_nil.
Qed.

(** X23.  In the result of [detect_emojis] every emoji found occurs in
    the text at least once and its boost is at most the dominant boost; a
    dominant emotion is named exactly when an emoji was found; and when
    none was found the dominant boost is 0, the total boost 1.0 and there
    is no strong positive signal. *)
Theorem X23_dominant_emoji text :
  (forall f, In f (emojis_found (detect_emojis text)) ->
             found_boost f <= dominant_boost (detect_emojis text) /\
             (1 <= found_count f)%nat /\
             str_in (found_emoji f) text = true) /\
  (dominant_emoji_emotion (detect_emojis text) = None <->
   emojis_found (detect_emojis text) = []) /\
  (emojis_found (detect_emojis text) = [] ->
   dominant_boost (detect_emojis text) = 0 /\
   emoji_total_confidence_boost (detect_emojis text) = 1.0 /\
   has_strong_positive_signals (detect_emojis text) = false).
Proof.
  unfold detect_emojis, detect_emojis_in.
  assert (Init : Facts.emoji_loop text ([], None, 0, 1.0)).
  { split; [intros f []|]. split; [tauto|]. split; [lra|]. auto. }
  pose proof (detect_loop_keeps text EMOJI_DECODER decoder_entries _ Init) as K.
  destruct (fold_left (detect_step text) EMOJI_DECODER ([], None, 0, 1.0))
    as [[[found dominant] highest] total].
  destruct K as (All & Dom & High & Empty).
  cbn. split; [|split].
  - intros f H. destruct (All f H) as (A & B & C & D). auto.
  - exact Dom.
  - intros ->. destruct (Empty eq_refl) as [-> ->]. auto.
Qed.

Lemma boosts_multiply l : forall a,
  1 <= a -> Forall (fun b => 1 <= b) l -> 1 <= fold_left Qmult l a.
Proof.
  induction l as [|b l IH]; intros a A H; simpl; [exact A|].
  inversion H as [|? ? B R]; subst. apply IH; [nra|exact R].
Qed.

(** X25.  Each repetition found by [detect_repeated_letters] has boost
    1.3, 1.4 or 1.5, and 1.5 exactly when it is read as joy: a run of at
    least four of the letter l or o; the total boost is at least 1, and
    it is 1.0 when there is no emphasis. *)
Theorem X25_repeated_letters text :
  (forall r, In r (repeated_patterns (detect_repeated_letters finditer text)) ->
             In (repetition_boost r) [1.3; 1.4; 1.5] /\
             (emotion_guess r = "joy" <-> repetition_boost r = 1.5) /\
             (emotion_guess r = "joy" ->
              one_of ["l"; "o"] (lower (letter r)) = true /\
              (4 <= repetition_count r)%nat)) /\
  1 <= repeated_total_confidence_boost (detect_repeated_letters finditer text) /\
  (has_emphasis (detect_repeated_letters finditer text) = false ->
   repeated_total_confidence_boost (detect_repeated_letters finditer text) = 1.0).
Proof.
  unfold detect_repeated_letters.
  cbn [repeated_patterns repeated_total_confidence_boost has_emphasis].
  assert (Each : forall m,
             In (repetition_boost (repetition_of m)) [1.3; 1.4; 1.5] /\
             (emotion_guess (repetition_of m) = "joy" <->
              repetition_boost (repetition_of m) = 1.5) /\
             (emotion_guess (repetition_of m) = "joy" ->
              one_of ["l"; "o"] (lower (letter (repetition_of m))) = true /\
              (4 <= repetition_count (repetition_of m))%nat)).
  { intros m. unfold repetition_of.
    destruct (one_of ["l"; "o"] (lower (first_char m))) eqn:L;
      destruct (4 <=? len m)%nat eqn:C; cbn [andb];
      repeat match goal with
             | |- context [if ?b then _ else _] => destruct b
             end;
      cbn [repetition_boost emotion_guess letter repetition_count In];
      (split; [tauto|]);
      (split; [split; intros J; (discriminate J || reflexivity)|]);
      intros J; try discriminate J; split; [exact L|now apply Nat.leb_le]. }
  split; [|split].
  - intros r H. apply in_map_iff in H. destruct H as (m & <- & _). apply Each.
  - apply boosts_multiply; [lra|].
    apply List.Forall_forall. intros b H.
    apply in_map_iff in H. destruct H as (r & <- & H).
    apply in_map_iff in H. destruct H as (m & <- & _).
    destruct (Each m) as [[E|[E|[E|[]]]] _]; rewrite <- E; lra.
  - destruct (finditer _ true text); [reflexivity|discriminate].
Qed.

Lemma matching_names table ignorecase skip text p :
  In p (matching finditer table ignorecase skip text) ->
  In (pattern_type p) (List.map (fun entry => fst (fst (fst entry))) table) /\
  skip (pattern_type p) = false.
Proof.
  unfold matching. intros H. apply in_flat_map in H.
  destruct H as ([[[name pat] reading] multiplier] & I & H).
  destruct (skip name) eqn:S; [destruct H|].
  destruct (matches finditer pat ignorecase text); [|destruct H].
  destruct H as [<-|[]]. cbn. split; [|exact S].
  apply in_map_iff. eexists. split; [|exact I]. reflexivity.
Qed.

(** X24.  Positive signals have priority in
    [detect_psychological_patterns]: with a strong positive emoji, a
    repeated letter or an exclamation mark, no pattern found is a
    short-message pattern or the missing-punctuation pattern. *)
Theorem X24_positive_signals_have_priority text emoji_analysis repeated_letters :
  has_strong_positive_signals emoji_analysis = true \/
  has_emphasis repeated_letters = true \/
  finditer "!{1,}" false text <> [] ->
  forall p,
    In p (patterns (detect_psychological_patterns finditer text
                      emoji_analysis repeated_letters)) ->
    ~ In (pattern_type p) ["very_short_message"; "short_message"; "no_punctuation"].
Proof.
  intros Signals p. unfold detect_psychological_patterns. cbn [patterns].
  assert (Positive : has_strong_positive_signals emoji_analysis
                     || has_emphasis repeated_letters
                     || matches finditer "!{1,}" false text = true).
  { destruct Signals as [->|[->|H]]; [reflexivity|apply orb_true_iff; left; apply orb_true_r|].
    unfold matches. destruct (finditer "!{1,}" false text); [congruence|apply orb_true_r]. }
  rewrite Positive. cbn [app]. intros H Bad.
  apply in_app_iff in H. destruct H as [H|H]; [|apply in_app_iff in H; destruct H as [H|H]];
    apply matching_names in H; destruct H as [Name Skip]; cbn in Name, Bad.
  - rewrite andb_true_r in Skip.
    destruct Bad as [B|[B|[B|[]]]]; rewrite <- B in Name, Skip;
      try discriminate Skip;
      repeat (destruct Name as [Name|Name]; [discriminate Name|]); destruct Name.
  - destruct Bad as [B|[B|[B|[]]]]; rewrite <- B in Name;
      repeat (destruct Name as [Name|Name]; [discriminate Name|]); destruct Name.
  - destruct Bad as [B|[B|[B|[]]]]; rewrite <- B in Name;
      repeat (destruct Name as [Name|Name]; [discriminate Name|]); destruct Name.
Qed.
End Signals.

Lemma X24_positive_signals_have_priority_witness :
  List.Forall
    (fun p => ~ In (EmotionSignals.pattern_type p)
                   ["very_short_message"; "short_message"; "no_punctuation"])
    (EmotionSignals.patterns
       (EmotionSignals.detect_psychological_patterns MoreSamples.exclamation_only
          "wow!" (EmotionSignals.detect_emojis "wow!")
          (EmotionSignals.detect_repeated_letters MoreSamples.exclamation_only "wow!"))).
Proof.
  apply List.Forall_forall. intros p.
  apply (X24_positive_signals_have_priority MoreSamples.exclamation_only "wow!"
           (EmotionSignals.detect_emojis "wow!")
           (EmotionSignals.detect_repeated_letters MoreSamples.exclamation_only "wow!")).
  right. right. discriminate.
Defined.

(** ** index.py: the classification endpoint over the classifier *)

Section ClassifyEndpoint.
Import PyStr Emotion.
Variable env : Env.
Variable finditer : string -> bool -> string -> list string.

Lemma ensure_loaded st :
  exists st',
    (if _model_loaded st then Return (true, st) else load_model env st)
    = Return (true, st') /\
    _model_loaded st' = true.
Proof.
  unfold load_model. destruct (_model_loaded st) eqn:M; [eauto|].
  destruct (TORCH_AVAILABLE env); cbn; [|eauto].
  destruct (transformers_available env); cbn; [|eauto].
  destruct (emotion_model env); cbn; [eauto|].
  destruct (alternative_model env); cbn; eauto.
Qed.

Lemma classify_query_of_str st s :
  exists c st',
    classify_query env finditer st (PyStr s) = Return (c, st') /\
    error c = None /\ _model_loaded st' = true.
Proof.
  unfold classify_query. destruct (ensure_loaded st) as (st' & -> & M).
  cbn [mbind outcome_bind fst snd negb].
  destruct (analyse_str env finditer st' s) as [insights ->]. cbv zeta.
  cbn [try_except mbind outcome_bind mret outcome_ret].
  eexists _, st'. split; [reflexivity|]. split; [reflexivity|exact M].
Qed.

(** X26.  With the classifier imported, [/classify] answers 400 to a
    blank text, leaving the classifier untouched and counting an error,
    and 200 to every other text, with a record without error, the length
    of the trimmed text, one more classification counted and the model
    marked as loaded: it never answers 500.  Without the classifier it
    answers 400 or 503 and counts an error. *)
Theorem X26_classify_endpoint text st est :
  (exists r st' est',
      IndexClassify.classify (Some (classify_query env finditer)) text st est
      = (r, st', est') /\
      (IndexClassify.status r = 400%nat <-> strip text = EmptyString) /\
      (IndexClassify.status r = 400%nat ->
       est' = est /\ IndexApp.errors st' = S (IndexApp.errors st)) /\
      (strip text <> EmptyString ->
       IndexClassify.status r = 200%nat /\
       (exists c, IndexClassify.body r = IndexClassify.ResultBody c (len (strip text)) /\
                  error c = None) /\
       IndexApp.classification_requests st' = S (IndexApp.classification_requests st) /\
       IndexApp.errors st' = IndexApp.errors st /\
       _model_loaded est' = true)) /\
  (exists r st',
      IndexClassify.classify None text st est = (r, st', est) /\
      IndexClassify.status r = (if nonempty (strip text) then 503 else 400)%nat /\
      IndexApp.errors st' = S (IndexApp.errors st)).
Proof.
  unfold IndexClassify.classify. split.
  - destruct (strip text) as [|c s] eqn:T; cbn [nonempty negb].
    + eexists _, _, _. split; [reflexivity|]. cbn. repeat split; auto; congruence.
    + destruct (classify_query_of_str est (String c s)) as (r & est' & -> & E & M).
      eexists _, _, _. split; [reflexivity|]. cbn.
      split; [split; discriminate|]. split; [discriminate|]. intros _.
      split; [reflexivity|]. split; [eauto|]. auto.
  - destruct (nonempty (strip text)); cbn [negb]; eexists _, _; repeat split.
Qed.
End ClassifyEndpoint.

(** ** C10: what a failing step leads to *)

Section Fallback.
Import Emotion.
Variable env : Env.
Variable finditer : string -> bool -> string -> list string.

(** Only a [str] has the methods the analysis calls. *)
Lemma analyse_raises st text :
  (forall s, text <> PyStr s) -> exists e, analyse env finditer st text = Raise e.
Proof.
  intros N. destruct text as [s| |n]; [now destruct (N s)| |]; cbn; eauto.
Qed.

(** C10, as amended.  [classify_query] returns a record for every
    argument, whatever the installation.  For a [str] the record has no
    error and is not the neutral fallback, also when a step fails: a
    prediction that raises and a model that cannot be loaded are
    swallowed and leave the rule-based percentages.  The neutral fallback
    (state [neutral_regulation], confidence 1.0, tool [web_search], the
    message of the exception in the error field) is what the handler of
    the analysis returns, and the analysis raises when the argument is
    not a [str]. *)
Theorem C10_classify_query_total st text :
  exists c st',
    classify_query env finditer st text = Return (c, st') /\
    (forall s, text = PyStr s ->
       error c = None /\ ~ Claims.neutral_fallback c /\
       (Claims.prediction_fails env st' s ->
        emotion_percentages c = Some (get_rule_based_emotions finditer s)) /\
       (Claims.loading_fails env st -> _distilbert_model st = None ->
        emotion_percentages c = Some (get_rule_based_emotions finditer s))) /\
    (forall e, analyse env finditer st' text = Raise e ->
               Claims.neutral_fallback c /\ error c = Some (exc_str e)) /\
    ((forall s, text <> PyStr s) -> exists e, analyse env finditer st' text = Raise e).
Proof.
  unfold classify_query.
  assert (L : exists st',
             (if _model_loaded st then Return (true, st) else load_model env st)
             = Return (true, st') /\
             (Claims.loading_fails env st -> _distilbert_model st = None ->
              _distilbert_model st' = None)).
  { unfold load_model, Claims.loading_fails. destruct (_model_loaded st) eqn:M.
    - exists st. split; [reflexivity|]. intros [F _]. discriminate.
    - destruct (TORCH_AVAILABLE env); cbn; [|eexists; split; [reflexivity|auto]].
      destruct (transformers_available env); cbn; [|eexists; split; [reflexivity|auto]].
      destruct (emotion_model env) as [m1|]; cbn.
      { eexists. split; [reflexivity|].
        intros [_ [F|[F|[F _]]]]; discriminate. }
      destruct (alternative_model env) as [m2|]; cbn.
      { eexists. split; [reflexivity|].
        intros [_ [F|[F|[_ F]]]]; discriminate. }
      eexists. split; [reflexivity|auto]. }
  destruct L as (st' & -> & Load). cbn [mbind outcome_bind fst snd negb].
  destruct text as [s| |n].
  - destruct (analyse_str env finditer st' s) as [insights A]. rewrite A. cbv zeta.
    cbn [try_except mbind outcome_bind mret outcome_ret].
    eexists _, st'. split; [reflexivity|]. rewrite A.
    split; [|split; [intros e' Habs; discriminate Habs|]].
    + intros s' [= <-]. cbn [error emotion_percentages].
      split; [reflexivity|]. split; [intros (_ & _ & _ & N); now apply N|]. split.
      * intros (T & predict & e & M & R). unfold get_distilbert_emotions.
        now rewrite M, T, R.
      * intros F N. unfold get_distilbert_emotions. now rewrite (Load F N).
    + intros N. now destruct (N s).
  - cbn. eexists _, st'. split; [reflexivity|].
    split; [intros s' Habs; discriminate Habs|].
    split; [|eauto]. intros e [= <-]. cbn.
    split; [|reflexivity]. repeat split; discriminate.
  - cbn. eexists _, st'. split; [reflexivity|].
    split; [intros s' Habs; discriminate Habs|].
    split; [|eauto]. intros e [= <-]. cbn.
    split; [|reflexivity]. repeat split; discriminate.
Qed.
End Fallback.

Lemma C10_classify_query_total_witness :
  exists c st',
    Emotion.classify_query Samples.raising_env Samples.no_matches Samples.cold
      (Emotion.PyStr "fine") = Return (c, st') /\
    Emotion.error c = None /\
    Emotion.emotion_percentages c
    = Some (Emotion.get_rule_based_emotions Samples.no_matches "fine").
Proof.
  destruct (C10_classify_query_total Samples.raising_env Samples.no_matches Samples.cold
              (Emotion.PyStr "fine")) as (c & st' & H & S & _).
  exists c, st'. split; [exact H|].
  destruct (S "fine" eq_refl) as (E & _ & P & _). split; [exact E|].
  apply P. vm_compute in H. injection H as _ <-.
  split; [reflexivity|]. eexists _, _. split; reflexivity.
Defined.

(** C10 as the specification states it fails: the model is loaded, its
    prediction raises on the text, and the record returned is that of the
    rule-based analysis, without an error. *)
Lemma C10_failed_prediction_is_swallowed :
  ~ (forall env finditer st text c st',
        Emotion.classify_query env finditer st (Emotion.PyStr text) = Return (c, st') ->
        Claims.prediction_fails env st' text \/ Claims.loading_fails env st ->
        Claims.neutral_fallback c).
Proof.
  intros H.
  destruct (Emotion.classify_query Samples.raising_env Samples.no_matches Samples.cold
              (Emotion.PyStr "fine")) as [[c st']|e] eqn:E;
    [|vm_compute in E; discriminate].
  specialize (H _ _ _ _ _ _ E). vm_compute in E. injection E as <- <-.
  destruct H as (_ & _ & _ & N).
  - left. split; [reflexivity|]. eexists _, _. split; reflexivity.
  - apply N. reflexivity.
Qed.
